(** * Choreography SAGA (Order / Payment / Inventory services): a shallow
      embedding of the Go handlers, repositories, outbox relays and the
      Kafka consumer loop, with the properties of the specification stated
      against it.

    Conventions of the embedding.
    - [int64], [int] and SQL [BIGINT]/[INT] values are [Z]; where the
      database does arithmetic on a column, or a Go [int] goes into an [INT]
      column, the range check of the column type is written out.
    - Go strings are [string] (a sequence of bytes, read as UTF-8).
      [assign_varchar n] is the assignment of a text to a [VARCHAR(n)]
      column: the statement fails when the text is too long, and excess
      spaces are cut.  The inserts of orders, reservations and deliveries
      and the update of the reason of a payment go through it; the constant
      texts of an outbox row fit their columns, and the insert of a payment
      stores its texts as given.
    - Every service owns a private database.  A database is a record of
      tables (lists of rows in insertion order, or a finite map for the
      table keyed by a unique column) and of the [BIGSERIAL] sequences.
    - A statement sent through [*sql.DB] runs in its own implicit
      transaction and is durable when the call returns.  A statement sent
      through [*sql.Tx] is durable only when [tx.Commit] succeeds; the
      deferred [tx.Rollback] discards it otherwise.
    - [time.Now], [uuid.New], the payment gateway and the failures of the
      database driver are inputs of a handler, collected in its [Env]. *)

From Stdlib Require Import ZArith String Ascii List Bool Lia DecimalString DecimalZ.
From stdpp Require Import base option gmap.
From Stdlib Require Import DecimalPos.
Import ListNotations.

Local Open Scope string_scope.
Local Open Scope Z_scope.

(** ** Errors (package [common/errors] and the driver's errors) *)

Module errors.

Inductive ErrorCode :=
| ErrCodePaymentDeclined
| ErrCodeOutOfStock
| ErrCodeInsufficientBalance
| ErrCodeInvalidOrder
| ErrCodeOrderNotFound
| ErrCodeDuplicateRequest
| ErrCodeDatabaseError
| ErrCodeNetworkError
| ErrCodeTimeoutError
| ErrCodeSerializationError
| ErrCodeUnknownError.

Definition code_string (c : ErrorCode) : string :=
  match c with
  | ErrCodePaymentDeclined => "PAYMENT_DECLINED"
  | ErrCodeOutOfStock => "OUT_OF_STOCK"
  | ErrCodeInsufficientBalance => "INSUFFICIENT_BALANCE"
  | ErrCodeInvalidOrder => "INVALID_ORDER"
  | ErrCodeOrderNotFound => "ORDER_NOT_FOUND"
  | ErrCodeDuplicateRequest => "DUPLICATE_REQUEST"
  | ErrCodeDatabaseError => "DATABASE_ERROR"
  | ErrCodeNetworkError => "NETWORK_ERROR"
  | ErrCodeTimeoutError => "TIMEOUT_ERROR"
  | ErrCodeSerializationError => "SERIALIZATION_ERROR"
  | ErrCodeUnknownError => "UNKNOWN_ERROR"
  end.

(** A Go [error] value.  [ErrNoRows] is [sql.ErrNoRows]; [PqError] is a
    [*pq.Error] with its SQLSTATE; [DriverError] is any other failure of the
    connection; [Errorf] is [fmt.Errorf] with the text before its last verb
    and the error the verb renders; [DomainError] is [*errors.DomainError]. *)
#[warnings="-register-all"]
Inductive error :=
| ErrNoRows
| PqError (sqlstate : string)
| DriverError (text : string)
| ErrorString (text : string)
| Errorf (text : string) (cause : error)
| DomainError (Code : ErrorCode) (Message : string) (Cause : option error).

Definition New (code : ErrorCode) (message : string) : error :=
  DomainError code message None.

Definition Wrap (code : ErrorCode) (message : string) (cause : error) : error :=
  DomainError code message (Some cause).

Fixpoint Error (e : error) : string :=
  match e with
  | ErrNoRows => "sql: no rows in result set"
  | PqError st => "pq: " ++ st
  | DriverError t => t
  | ErrorString t => t
  | Errorf t c => t ++ Error c
  | DomainError c m None => "[" ++ code_string c ++ "] " ++ m
  | DomainError c m (Some cause) =>
      "[" ++ code_string c ++ "] " ++ m ++ ": " ++ Error cause
  end.

Definition IsRetryable (e : error) : bool :=
  match e with
  | DomainError (ErrCodeDatabaseError | ErrCodeNetworkError | ErrCodeTimeoutError) _ _ => true
  | _ => false
  end.

Definition IsBusinessError (e : error) : bool :=
  match e with
  | DomainError (ErrCodePaymentDeclined | ErrCodeOutOfStock | ErrCodeInsufficientBalance
                | ErrCodeInvalidOrder | ErrCodeOrderNotFound | ErrCodeDuplicateRequest) _ _ => true
  | _ => false
  end.

End errors.

Abbreviation error := errors.error.

(** The outcome of a call that returns [(T, error)]. *)
Inductive result (A : Type) :=
| Ok (a : A)
| Err (e : error).
Arguments Ok {A} a.
Arguments Err {A} e.

Definition is_ok {A} (r : result A) : bool :=
  match r with Ok _ => true | Err _ => false end.

(** SQLSTATE values the code or the column types can produce. *)
Definition unique_violation : string := "23505".
Definition numeric_value_out_of_range : string := "22003".

Definition max_int64 : Z := 9223372036854775807.
Definition min_int32 : Z := -2147483648.
Definition max_int32 : Z := 2147483647.
Definition in_int32 (z : Z) : bool := (min_int32 <=? z) && (z <=? max_int32).

(** [strconv.FormatInt(n, 10)], also the rendering of [%d]. *)
Definition FormatInt (n : Z) : string := NilZero.string_of_int (Z.to_int n).

(** ** Texts in [VARCHAR(n)] columns *)

Definition string_data_right_truncation : string := "22001".

(** The characters of a UTF-8 text: a byte [10xxxxxx] continues the
    character before it. *)
Definition continues (c : ascii) : bool :=
  (128 <=? Z.of_N (N_of_ascii c)) && (Z.of_N (N_of_ascii c) <? 192).

Definition continued (s : string) : bool :=
  match s with
  | String d _ => continues d
  | EmptyString => false
  end.

Fixpoint chars (s : string) : list string :=
  match s with
  | EmptyString => []
  | String c rest =>
      match chars rest with
      | g :: gs =>
          if continued rest then String c g :: gs else String c EmptyString :: g :: gs
      | [] => [String c EmptyString]
      end
  end.

(** Storing a text in a [VARCHAR(n)] column: a value of more than [n]
    characters is an error, unless the characters in excess are all
    spaces, which are cut off. *)
Definition assign_varchar (n : nat) (s : string) : result string :=
  if (length (chars s) <=? n)%nat then Ok s
  else if forallb (String.eqb " ") (skipn n (chars s))
       then Ok (String.concat "" (firstn n (chars s)))
       else Err (errors.PqError string_data_right_truncation).

(** ** Cursors ([*sql.Rows]) *)

(** The rows a cursor delivers: all of them, or the first [k] when the
    connection breaks after [k] rows ([rows.Next] then returns [false], and
    the loops below do not read [rows.Err]). *)
Definition fetched {A} (rows_read : option nat) (rows : list A) : list A :=
  match rows_read with
  | Some k => firstn k rows
  | None => rows
  end.

(** ** JSON documents (the [payload] column and the message values) *)

#[warnings="-register-all"]
Inductive json :=
| JNull
| JBool (b : bool)
| JNumber (n : Z)
| JString (s : string)
| JArray (items : list json)
| JObject (fields : list (string * json)).

(** A Go [map[string]interface{}] filled from an object: a later member
    replaces an earlier one with the same name. *)
Fixpoint map_index (fields : list (string * json)) (name : string) : option json :=
  match fields with
  | [] => None
  | (k, v) :: rest =>
      match map_index rest name with
      | Some w => Some w
      | None => if String.eqb k name then Some v else None
      end
  end.

(** ** Events (package [common/events]) *)

Module events.

Definition EventOrderCreated := "order.created.v1".
Definition EventPaymentCompleted := "payment.completed.v1".
Definition EventPaymentFailed := "payment.failed.v1".
Definition EventPaymentRefunded := "payment.refunded.v1".
Definition EventStockReserved := "stock.reserved.v1".
Definition EventStockReservationFailed := "stock.reservation_failed.v1".
Definition EventStockRestored := "stock.restored.v1".
Definition EventDeliveryStarted := "delivery.started.v1".
Definition EventDeliveryFailed := "delivery.failed.v1".

Record BaseEvent := {
  EventID : string;
  EventType : string;
  SchemaVersion : Z;
  OccurredAt : Z;
  CorrelationID : string
}.

(** A time instant is kept as a number; its RFC 3339 text is not rendered. *)
Definition base_fields (b : BaseEvent) : list (string * json) :=
  [ ("eventId", JString (EventID b));
    ("eventType", JString (EventType b));
    ("schemaVersion", JNumber (SchemaVersion b));
    ("occurredAt", JNumber (OccurredAt b));
    ("correlationId", JString (CorrelationID b)) ].

End events.

(** ** The [outbox_events] table (the same in every service) *)

Record OutboxEvent := {
  OutboxID : Z;
  AggregateType : string;
  AggregateID : Z;
  OutboxEventType : string;
  Payload : json;
  OutboxStatus : string;
  OutboxCreatedAt : Z;
  SentAt : option Z
}.

(** [ORDER BY created_at ASC]: rows with equal [created_at] keep their
    insertion order. *)
Fixpoint insert_by_created_at (e : OutboxEvent) (sorted : list OutboxEvent) : list OutboxEvent :=
  match sorted with
  | [] => [e]
  | x :: rest =>
      if OutboxCreatedAt e <? OutboxCreatedAt x then e :: sorted
      else x :: insert_by_created_at e rest
  end.

Definition order_by_created_at (rows : list OutboxEvent) : list OutboxEvent :=
  fold_left (fun acc e => insert_by_created_at e acc) rows [].

(** [SELECT ... WHERE status = 'PENDING' ORDER BY created_at LIMIT n]. *)
Definition select_pending (limit : nat) (rows : list OutboxEvent) : list OutboxEvent :=
  firstn limit
    (order_by_created_at (List.filter (fun e => String.eqb (OutboxStatus e) "PENDING") rows)).

(** [UPDATE outbox_events SET status = 'SENT', sent_at = NOW() WHERE id = $1]. *)
Definition mark_sent (t : Z) (id : Z) (rows : list OutboxEvent) : list OutboxEvent :=
  map (fun e => if OutboxID e =? id
                then {| OutboxID := OutboxID e; AggregateType := AggregateType e;
                        AggregateID := AggregateID e;
                        OutboxEventType := OutboxEventType e;
                        Payload := Payload e; OutboxStatus := "SENT";
                        OutboxCreatedAt := OutboxCreatedAt e; SentAt := Some t |}
                else e) rows.

(** ** Order service *)

Module Order.

(** *** [services/order/internal/domain] *)

Inductive OrderStatus :=
| OrderStatusPending
| OrderStatusPaymentProcessing
| OrderStatusStockReserving
| OrderStatusDeliveryPreparing
| OrderStatusCompleted
| OrderStatusCanceled
| OrderStatusFailed.

Definition OrderStatus_eqb (a b : OrderStatus) : bool :=
  match a, b with
  | OrderStatusPending, OrderStatusPending
  | OrderStatusPaymentProcessing, OrderStatusPaymentProcessing
  | OrderStatusStockReserving, OrderStatusStockReserving
  | OrderStatusDeliveryPreparing, OrderStatusDeliveryPreparing
  | OrderStatusCompleted, OrderStatusCompleted
  | OrderStatusCanceled, OrderStatusCanceled
  | OrderStatusFailed, OrderStatusFailed => true
  | _, _ => false
  end.

Record Order := {
  ID : Z;
  UserID : Z;
  Amount : Z;
  Quantity : Z;
  Status : OrderStatus;
  Version : Z;
  IdempotencyKey : string;
  CreatedAt : Z;
  UpdatedAt : Z
}.

(** [Order.CanTransitionTo]: the table of the domain model. *)
Definition transitions (s : OrderStatus) : option (list OrderStatus) :=
  match s with
  | OrderStatusPending =>
      Some [OrderStatusPaymentProcessing; OrderStatusCanceled; OrderStatusFailed]
  | OrderStatusPaymentProcessing =>
      Some [OrderStatusStockReserving; OrderStatusCanceled; OrderStatusFailed]
  | OrderStatusStockReserving =>
      Some [OrderStatusDeliveryPreparing; OrderStatusCanceled; OrderStatusFailed]
  | OrderStatusDeliveryPreparing =>
      Some [OrderStatusCompleted; OrderStatusCanceled; OrderStatusFailed]
  | _ => None
  end.

Definition CanTransitionTo (o : Order) (newStatus : OrderStatus) : bool :=
  match transitions (Status o) with
  | None => false
  | Some allowedTransitions => existsb (OrderStatus_eqb newStatus) allowedTransitions
  end.

(** *** [services/order/internal/repository] *)

(** The order database: the [orders] and [outbox_events] tables and the
    sequences behind their [BIGSERIAL] keys (a sequence is not rolled back). *)
Record DB := {
  orders : list Order;
  orders_id_seq : Z;
  outbox_events : list OutboxEvent;
  outbox_events_id_seq : Z
}.

(** What a handler or the relay reads from outside the database: the
    clock, the identifiers [uuid.New] returns, and which calls the driver
    fails.  For the relay: whether the query of [FindPending] or a
    [rows.Scan] of it fails, how many rows its cursor delivers, and for
    which outbox ids [MarkSent] fails. *)
Record Env := {
  now : Z;
  uuid_correlation : string;
  uuid_event : string;
  uuid_request : string;
  fail_FindByIdempotencyKey : bool;
  fail_FindByID : bool;
  fail_BeginTx : bool;
  fail_Create : bool;
  fail_UpdateStatus : bool;
  fail_InsertTx : bool;
  fail_Commit : bool;
  fail_FindPending : bool;
  fail_ScanPending : bool;
  rows_read : option nat;
  fail_MarkSent : Z -> bool
}.

Definition driver_down : error := errors.DriverError "driver: bad connection".

(** [orderRepository.FindByIdempotencyKey]: the first row with the key. *)
Definition FindByIdempotencyKey (env : Env) (key : string) (db : DB) : result Order :=
  if fail_FindByIdempotencyKey env
  then Err (errors.Errorf "failed to find order: " driver_down)
  else match find (fun o => String.eqb (IdempotencyKey o) key) (orders db) with
       | Some o => Ok o
       | None => Err (errors.ErrorString ("order not found with idempotency key: " ++ key))
       end.

(** [orderRepository.FindByID]. *)
Definition FindByID (env : Env) (id : Z) (db : DB) : result Order :=
  if fail_FindByID env
  then Err (errors.Errorf "failed to find order: " driver_down)
  else match find (fun o => ID o =? id) (orders db) with
       | Some o => Ok o
       | None => Err (errors.ErrorString ("order not found: " ++ FormatInt id))
       end.

(** [orderRepository.Create]: an [INSERT ... RETURNING id, version] sent
    through [r.db].  [quantity] is an [INT] column and the Go value an
    [int]: a value out of range is refused when the statement is bound,
    before anything runs.  [idempotency_key] is a [VARCHAR(64)] under a
    unique index, which holds the key as the column stores it.  The
    sequence value drawn for a row that is rejected is lost.  The row gets
    the column default [version = 0]; the call returns the order it was
    given with the [id] and [version] of the row. *)
Definition Create (env : Env) (order : Order) (db : DB) : result Order * DB :=
  if fail_Create env
  then (Err (errors.Errorf "failed to create order: " driver_down), db)
  else if negb (in_int32 (Quantity order))
  then (Err (errors.Errorf "failed to create order: "
               (errors.PqError numeric_value_out_of_range)), db)
  else
    let id := orders_id_seq db + 1 in
    let db1 := {| orders := orders db; orders_id_seq := id;
                  outbox_events := outbox_events db;
                  outbox_events_id_seq := outbox_events_id_seq db |} in
    match assign_varchar 64 (IdempotencyKey order) with
    | Err e => (Err (errors.Errorf "failed to create order: " e), db1)
    | Ok key =>
    if existsb (fun o => String.eqb (IdempotencyKey o) key) (orders db)
    then (Err (errors.Errorf "duplicate idempotency key: " (errors.PqError unique_violation)),
          db1)
    else
      let row := {| ID := id; UserID := UserID order; Amount := Amount order;
                    Quantity := Quantity order; Status := Status order; Version := 0;
                    IdempotencyKey := key;
                    CreatedAt := CreatedAt order; UpdatedAt := UpdatedAt order |} in
      (Ok {| ID := id; UserID := UserID order; Amount := Amount order;
             Quantity := Quantity order; Status := Status order; Version := 0;
             IdempotencyKey := IdempotencyKey order;
             CreatedAt := CreatedAt order; UpdatedAt := UpdatedAt order |},
       {| orders := (orders db ++ [row])%list; orders_id_seq := id;
          outbox_events := outbox_events db;
          outbox_events_id_seq := outbox_events_id_seq db |})
    end.

Definition set_orders (db : DB) (rows : list Order) : DB :=
  {| orders := rows; orders_id_seq := orders_id_seq db;
     outbox_events := outbox_events db;
     outbox_events_id_seq := outbox_events_id_seq db |}.

Definition version_matches (id currentVersion : Z) (o : Order) : bool :=
  (ID o =? id) && (Version o =? currentVersion).

Definition with_status (status : OrderStatus) (t : Z) (o : Order) : Order :=
  {| ID := ID o; UserID := UserID o; Amount := Amount o; Quantity := Quantity o;
     Status := status; Version := Version o + 1;
     IdempotencyKey := IdempotencyKey o;
     CreatedAt := CreatedAt o; UpdatedAt := t |}.

(** [orderRepository.UpdateStatusWithVersion]: one [UPDATE ... WHERE id = $2
    AND version = $3] sent through [r.db]; the result tells whether a row
    was changed.  [version + 1] is a [BIGINT] expression. *)
Definition UpdateStatusWithVersion (env : Env) (id : Z) (status : OrderStatus)
    (currentVersion : Z) (db : DB) : result bool * DB :=
  if fail_UpdateStatus env
  then (Err (errors.Errorf "failed to update order status: " driver_down), db)
  else if existsb (fun o => version_matches id currentVersion o
                            && (max_int64 <? Version o + 1)) (orders db)
  then (Err (errors.Errorf "failed to update order status: "
               (errors.PqError numeric_value_out_of_range)), db)
  else (Ok (existsb (version_matches id currentVersion) (orders db)),
        set_orders db
          (map (fun o => if version_matches id currentVersion o
                         then with_status status (now env) o else o)
               (orders db))).

(** An open [*sql.Tx]: the outbox rows written through it and not yet
    committed.  In this service only [InsertTx] writes through the
    transaction. *)
Definition Tx := list OutboxEvent.

Definition BeginTx (env : Env) : result Tx :=
  if fail_BeginTx env then Err driver_down else Ok [].

(** [outboxRepository.InsertTx]: [INSERT ... RETURNING id] sent through
    [tx]. *)
Definition InsertTx (env : Env) (tx : Tx) (event : OutboxEvent) (db : DB)
    : result (Tx * OutboxEvent) * DB :=
  if fail_InsertTx env
  then (Err (errors.Errorf "failed to insert outbox event: " driver_down), db)
  else
    let id := outbox_events_id_seq db + 1 in
    let row := {| OutboxID := id; AggregateType := AggregateType event;
                  AggregateID := AggregateID event;
                  OutboxEventType := OutboxEventType event;
                  Payload := Payload event; OutboxStatus := OutboxStatus event;
                  OutboxCreatedAt := OutboxCreatedAt event; SentAt := None |} in
    (Ok ((tx ++ [row])%list, row),
     {| orders := orders db; orders_id_seq := orders_id_seq db;
        outbox_events := outbox_events db; outbox_events_id_seq := id |}).

(** [tx.Commit]: the rows written through the transaction become durable.
    When it fails, or when the handler returns before it, the deferred
    [tx.Rollback] drops them. *)
Definition Commit (env : Env) (tx : Tx) (db : DB) : result DB :=
  if fail_Commit env then Err driver_down
  else Ok {| orders := orders db; orders_id_seq := orders_id_seq db;
             outbox_events := (outbox_events db ++ tx)%list;
             outbox_events_id_seq := outbox_events_id_seq db |}.

(** *** [services/order/internal/service] *)

Record CreateOrderCommand := {
  cmd_UserID : Z;
  cmd_Amount : Z;
  cmd_Quantity : Z;
  cmd_IdempotencyKey : string
}.

Record CreateOrderResult := {
  res_OrderID : Z;
  res_Status : OrderStatus
}.

Definition OrderCreatedEvent (env : Env) (order : Order) : json :=
  JObject (events.base_fields
             {| events.EventID := uuid_event env;
                events.EventType := events.EventOrderCreated;
                events.SchemaVersion := 1;
                events.OccurredAt := now env;
                events.CorrelationID := uuid_correlation env |}
           ++ [ ("orderId", JNumber (ID order));
                ("userId", JNumber (UserID order));
                ("amount", JNumber (Amount order));
                ("quantity", JNumber (Quantity order)) ])%list.

(** The idempotency check at the head of [CreateOrder]: the existing order
    when the command has a key and the lookup returns no error. *)
Definition existing_order (env : Env) (cmd : CreateOrderCommand) (db : DB) : option Order :=
  if String.eqb (cmd_IdempotencyKey cmd) "" then None
  else match FindByIdempotencyKey env (cmd_IdempotencyKey cmd) db with
       | Ok existing => Some existing
       | Err _ => None
       end.

(** [orderService.CreateOrder].  ([json.Marshal] of an event structure does
    not fail.) *)
Definition CreateOrder (env : Env) (cmd : CreateOrderCommand) (db : DB)
    : result CreateOrderResult * DB :=
  match existing_order env cmd db with
  | Some existing =>
      (Ok {| res_OrderID := ID existing; res_Status := Status existing |}, db)
  | None =>
  if cmd_Amount cmd <=? 0
  then (Err (errors.New errors.ErrCodeInvalidOrder "amount must be positive"), db)
  else if cmd_Quantity cmd <=? 0
  then (Err (errors.New errors.ErrCodeInvalidOrder "quantity must be positive"), db)
  else
  match BeginTx env with
  | Err e => (Err (errors.Wrap errors.ErrCodeDatabaseError "failed to begin transaction" e), db)
  | Ok tx =>
  let order := {| ID := 0; UserID := cmd_UserID cmd; Amount := cmd_Amount cmd;
                  Quantity := cmd_Quantity cmd; Status := OrderStatusPending;
                  Version := 0; IdempotencyKey := cmd_IdempotencyKey cmd;
                  CreatedAt := now env; UpdatedAt := now env |} in
  match Create env order db with
  | (Err e, db1) =>
      (Err (errors.Wrap errors.ErrCodeDatabaseError "failed to create order" e), db1)
  | (Ok order, db1) =>
  let outboxEvent := {| OutboxID := 0; AggregateType := "order";
                        AggregateID := ID order;
                        OutboxEventType := events.EventOrderCreated;
                        Payload := OrderCreatedEvent env order;
                        OutboxStatus := "PENDING";
                        OutboxCreatedAt := now env; SentAt := None |} in
  match InsertTx env tx outboxEvent db1 with
  | (Err e, db2) =>
      (Err (errors.Wrap errors.ErrCodeDatabaseError "failed to insert outbox event" e), db2)
  | (Ok (tx, _), db2) =>
  match Commit env tx db2 with
  | Err e =>
      (Err (errors.Wrap errors.ErrCodeDatabaseError "failed to commit transaction" e), db2)
  | Ok db3 =>
      (Ok {| res_OrderID := ID order; res_Status := Status order |}, db3)
  end end end end
  end.

(** [orderService.GetOrder]. *)
Definition GetOrder (env : Env) (orderID : Z) (db : DB) : result Order :=
  match FindByID env orderID db with
  | Err e => Err (errors.Wrap errors.ErrCodeOrderNotFound "order not found" e)
  | Ok order => Ok order
  end.

(** The six event handlers of the order service.  Of an event they read
    the order id only (the other fields go to the log). *)

Definition HandlePaymentCompleted (env : Env) (evt_OrderID : Z) (db : DB) : option error * DB :=
  match FindByID env evt_OrderID db with
  | Err e => (Some (errors.Errorf "order not found: " e), db)
  | Ok order =>
      if OrderStatus_eqb (Status order) OrderStatusPending
      then match UpdateStatusWithVersion env (ID order) OrderStatusStockReserving
                   (Version order) db with
           | (Err e, db1) => (Some (errors.Errorf "failed to update order status: " e), db1)
           | (Ok _, db1) => (None, db1)
           end
      else (None, db)
  end.

Definition HandlePaymentFailed (env : Env) (evt_OrderID : Z) (db : DB) : option error * DB :=
  match FindByID env evt_OrderID db with
  | Err e => (Some (errors.Errorf "order not found: " e), db)
  | Ok order =>
      match UpdateStatusWithVersion env (ID order) OrderStatusCanceled
              (Version order) db with
      | (Err e, db1) => (Some (errors.Errorf "failed to update order status: " e), db1)
      | (Ok _, db1) => (None, db1)
      end
  end.

Definition HandleStockReserved (env : Env) (evt_OrderID : Z) (db : DB) : option error * DB :=
  match FindByID env evt_OrderID db with
  | Err e => (Some (errors.Errorf "order not found: " e), db)
  | Ok order =>
      if OrderStatus_eqb (Status order) OrderStatusStockReserving
      then match UpdateStatusWithVersion env (ID order) OrderStatusDeliveryPreparing
                   (Version order) db with
           | (Err e, db1) => (Some (errors.Errorf "failed to update order status: " e), db1)
           | (Ok _, db1) => (None, db1)
           end
      else (None, db)
  end.

Definition HandleStockReservationFailed (env : Env) (evt_OrderID : Z) (db : DB)
    : option error * DB :=
  match FindByID env evt_OrderID db with
  | Err e => (Some (errors.Errorf "order not found: " e), db)
  | Ok order =>
      match UpdateStatusWithVersion env (ID order) OrderStatusFailed
              (Version order) db with
      | (Err e, db1) => (Some (errors.Errorf "failed to update order status: " e), db1)
      | (Ok _, db1) => (None, db1)
      end
  end.

Definition HandleDeliveryStarted (env : Env) (evt_OrderID : Z) (db : DB) : option error * DB :=
  match FindByID env evt_OrderID db with
  | Err e => (Some (errors.Errorf "order not found: " e), db)
  | Ok order =>
      if OrderStatus_eqb (Status order) OrderStatusDeliveryPreparing
      then match UpdateStatusWithVersion env (ID order) OrderStatusCompleted
                   (Version order) db with
           | (Err e, db1) => (Some (errors.Errorf "failed to update order status: " e), db1)
           | (Ok _, db1) => (None, db1)
           end
      else (None, db)
  end.

Definition HandleDeliveryFailed (env : Env) (evt_OrderID : Z) (db : DB) : option error * DB :=
  match FindByID env evt_OrderID db with
  | Err e => (Some (errors.Errorf "order not found: " e), db)
  | Ok order =>
      match UpdateStatusWithVersion env (ID order) OrderStatusFailed
              (Version order) db with
      | (Err e, db1) => (Some (errors.Errorf "failed to update order status: " e), db1)
      | (Ok _, db1) => (None, db1)
      end
  end.

(** *** [services/order/internal/handler] *)

(** The inbound events of the order service, by topic, as
    [EventHandler.HandleMessage] dispatches them. *)
Inductive InboundEvent :=
| PaymentCompleted
| PaymentFailed
| StockReserved
| StockReservationFailed
| DeliveryStarted
| DeliveryFailed.

Definition handle (env : Env) (ev : InboundEvent) (orderID : Z) (db : DB)
    : option error * DB :=
  match ev with
  | PaymentCompleted => HandlePaymentCompleted env orderID db
  | PaymentFailed => HandlePaymentFailed env orderID db
  | StockReserved => HandleStockReserved env orderID db
  | StockReservationFailed => HandleStockReservationFailed env orderID db
  | DeliveryStarted => HandleDeliveryStarted env orderID db
  | DeliveryFailed => HandleDeliveryFailed env orderID db
  end.

(** The status of order [id] as a reader sees it. *)
Definition status_of (db : DB) (id : Z) : option OrderStatus :=
  option_map Status (find (fun o => ID o =? id) (orders db)).

(** The transition table of the specification (section 4.1), in its words:
    the next status when the pair is listed, nothing otherwise. *)
Definition spec_transition (current : OrderStatus) (ev : InboundEvent) : option OrderStatus :=
  match current, ev with
  | OrderStatusPending, PaymentCompleted => Some OrderStatusStockReserving
  | OrderStatusPending, PaymentFailed => Some OrderStatusCanceled
  | OrderStatusStockReserving, StockReserved => Some OrderStatusDeliveryPreparing
  | OrderStatusStockReserving, StockReservationFailed => Some OrderStatusFailed
  | OrderStatusDeliveryPreparing, DeliveryStarted => Some OrderStatusCompleted
  | OrderStatusDeliveryPreparing, DeliveryFailed => Some OrderStatusFailed
  | _, _ => None
  end.

Definition terminal (s : OrderStatus) : bool :=
  match s with
  | OrderStatusCompleted | OrderStatusCanceled | OrderStatusFailed => true
  | _ => false
  end.

(** [HTTPHandler.CreateOrder].  A request is its method and its body as
    [json.Decode] reads it ([None] when the body does not decode). *)
Record CreateOrderRequest := {
  req_UserID : Z;
  req_Amount : Z;
  req_Quantity : Z;
  req_IdempotencyKey : string
}.

Record Request := {
  Method : string;
  Body : option CreateOrderRequest
}.

Inductive ResponseBody :=
| CreateOrderResponse (OrderID : Z) (Status : OrderStatus)
| ErrorResponse (Error : string) (Code : string).

Record Response := {
  StatusCode : Z;
  ResponseJSON : ResponseBody
}.

Definition StatusCreated : Z := 201.
Definition StatusBadRequest : Z := 400.
Definition StatusMethodNotAllowed : Z := 405.
Definition StatusInternalServerError : Z := 500.

Definition respondError (status : Z) (message code : string) : Response :=
  {| StatusCode := status; ResponseJSON := ErrorResponse message code |}.

Definition HTTP_CreateOrder (env : Env) (r : Request) (db : DB) : Response * DB :=
  if negb (String.eqb (Method r) "POST")
  then (respondError StatusMethodNotAllowed "method not allowed" "", db)
  else match Body r with
  | None => (respondError StatusBadRequest "invalid request body" "", db)
  | Some req =>
      let key := if String.eqb (req_IdempotencyKey req) ""
                 then uuid_request env else req_IdempotencyKey req in
      let cmd := {| cmd_UserID := req_UserID req; cmd_Amount := req_Amount req;
                    cmd_Quantity := req_Quantity req; cmd_IdempotencyKey := key |} in
      match CreateOrder env cmd db with
      | (Err err, db1) =>
          (respondError StatusInternalServerError (errors.Error err) "", db1)
      | (Ok result, db1) =>
          ({| StatusCode := StatusCreated;
              ResponseJSON := CreateOrderResponse (res_OrderID result) (res_Status result) |},
           db1)
      end
  end.

(** [outboxRepository.FindPending]: the query fails with the driver or on
    a negative [LIMIT]; a [rows.Scan] that fails gives up the rows read so
    far; the rows are those the cursor delivers. *)
Definition invalid_row_count_in_limit_clause : string := "2201W".

Definition FindPending (env : Env) (limit : Z) (db : DB) : result (list OutboxEvent) :=
  if fail_FindPending env
  then Err (errors.Errorf "failed to find pending events: " driver_down)
  else if limit <? 0
  then Err (errors.Errorf "failed to find pending events: "
              (errors.PqError invalid_row_count_in_limit_clause))
  else
    match fetched (rows_read env) (select_pending (Z.to_nat limit) (outbox_events db)) with
    | [] => Ok []
    | events =>
        if fail_ScanPending env
        then Err (errors.Errorf "failed to scan outbox event: " driver_down)
        else Ok events
    end.

(** [outboxRepository.MarkSent]. *)
Definition MarkSent (env : Env) (id : Z) (db : DB) : option error * DB :=
  if fail_MarkSent env id
  then (Some (errors.Errorf "failed to mark event as sent: " driver_down), db)
  else (None,
        {| orders := orders db; orders_id_seq := orders_id_seq db;
           outbox_events := mark_sent (now env) id (outbox_events db);
           outbox_events_id_seq := outbox_events_id_seq db |}).

(** The rows of [orders] carrying an idempotency key. *)
Definition has_key (k : string) (o : Order) : bool := String.eqb (IdempotencyKey o) k.

Definition rows_with_key (k : string) (db : DB) : list Order :=
  List.filter (has_key k) (orders db).

(** The key [HTTPHandler.CreateOrder] passes on: the request's, or a fresh
    identifier when the request has none. *)
Definition effective_key (env : Env) (req : CreateOrderRequest) : string :=
  if String.eqb (req_IdempotencyKey req) "" then uuid_request env
  else req_IdempotencyKey req.

(** The handlers that test the current status before they update. *)
Definition guarded (ev : InboundEvent) : bool :=
  match ev with
  | PaymentCompleted | StockReserved | DeliveryStarted => true
  | _ => false
  end.

(** The status the handler of a failure event writes. *)
Definition failure_target (ev : InboundEvent) : option OrderStatus :=
  match ev with
  | PaymentFailed => Some OrderStatusCanceled
  | StockReservationFailed | DeliveryFailed => Some OrderStatusFailed
  | _ => None
  end.

(** [Order.TransitionTo] at instant [t]: the result and the order after
    the call. *)
Definition TransitionTo (t : Z) (o : Order) (newStatus : OrderStatus) : bool * Order :=
  if negb (CanTransitionTo o newStatus) then (false, o)
  else (true,
        {| ID := ID o; UserID := UserID o; Amount := Amount o; Quantity := Quantity o;
           Status := newStatus; Version := Version o;
           IdempotencyKey := IdempotencyKey o;
           CreatedAt := CreatedAt o; UpdatedAt := t |}).

(** How far a status is along the flow; the three terminal statuses share
    the last place. *)
Definition rank (s : OrderStatus) : nat :=
  match s with
  | OrderStatusPending => 0
  | OrderStatusPaymentProcessing => 1
  | OrderStatusStockReserving => 2
  | OrderStatusDeliveryPreparing => 3
  | OrderStatusCompleted | OrderStatusCanceled | OrderStatusFailed => 4
  end.

(** Successive calls of [TransitionTo] on one order: the number of calls
    that returned [true], and the order at the end. *)
Fixpoint transition_all (t : Z) (o : Order) (targets : list OrderStatus) : nat * Order :=
  match targets with
  | [] => (O, o)
  | s :: rest =>
      let '(ok, o1) := TransitionTo t o s in
      let '(n, o2) := transition_all t o1 rest in
      ((if ok then S n else n), o2)
  end.

(** What the primary keys, the sequences and the unique index guarantee of
    the tables of the order database. *)
Definition keys_consistent (db : DB) : Prop :=
  List.NoDup (map ID (orders db))
  /\ Forall (fun o => ID o <= orders_id_seq db) (orders db)
  /\ List.NoDup (map IdempotencyKey (orders db))
  /\ List.NoDup (map OutboxID (outbox_events db))
  /\ Forall (fun e => OutboxID e <= outbox_events_id_seq db) (outbox_events db).

(** What an event handler may do to a row of [orders]: leave it, or write
    a status into the row of the addressed order and add one to its
    version. *)
Definition touched (id t : Z) (o o' : Order) : Prop :=
  o' = o \/ (ID o = id /\ exists st, o' = with_status st t o).

End Order.

(** ** Message bus (package [common/messaging]) *)

Module messaging.

Record Message := {
  Topic : string;
  Partition : Z;
  Offset : Z;
  Key : string;
  Value : json
}.

(** What [KafkaPublisher.Publish] hands to the producer. *)
Record ProducerMessage := {
  pm_Topic : string;
  pm_Key : string;
  pm_Value : json
}.

(** The bus as a publisher sees it: the messages sent so far.
    [send_fails] tells for which messages [SendMessage] returns an error. *)
Definition Bus := list ProducerMessage.

Definition Publish (send_fails : ProducerMessage -> bool)
    (topic key : string) (event : json) (bus : Bus) : option error * Bus :=
  let msg := {| pm_Topic := topic; pm_Key := key; pm_Value := event |} in
  if send_fails msg
  then (Some (errors.Errorf "failed to send message: "
                (errors.DriverError "kafka: send failed")), bus)
  else (None, (bus ++ [msg])%list).

(** [PublishWithOrderID]. *)
Definition PublishWithOrderID (send_fails : ProducerMessage -> bool)
    (topic : string) (orderID : Z) (event : json) (bus : Bus) : option error * Bus :=
  let key := FormatInt orderID in
  Publish send_fails topic key event bus.

(** [consumerGroupHandler.ConsumeClaim].  The handler is any function of the
    message on a state [S] of its own.  The session records, in order, what
    the loop did: the handler's return for a message and the mark of its
    offset. *)
Inductive Step :=
| HandlerReturned (m : Message) (err : option error)
| MarkMessage (m : Message).

Section Consumer.
Context {S : Type}.
Variable handler : Message -> S -> option error * S.

Fixpoint ConsumeClaim (claim : list Message) (st : S) (session : list Step)
    : S * list Step :=
  match claim with
  | [] => (st, session)
  | message :: rest =>
      let '(err, st1) := handler message st in
      let session1 := (session ++ [HandlerReturned message err])%list in
      let session2 := (session1 ++ [MarkMessage message])%list in
      ConsumeClaim rest st1 session2
  end.
End Consumer.

(** The offsets marked in a session. *)
Definition marked (session : list Step) : list Message :=
  flat_map (fun s => match s with MarkMessage m => [m] | _ => [] end) session.

(** The messages whose handler returned an error. *)
Definition failed (session : list Step) : list Message :=
  flat_map (fun s => match s with
                     | HandlerReturned m (Some _) => [m]
                     | _ => []
                     end) session.

(** Every mark directly follows the return of the handler for the same
    message. *)
Fixpoint mark_follows_return (session : list Step) : Prop :=
  match session with
  | [] => True
  | HandlerReturned m _ :: MarkMessage m' :: rest => m = m' /\ mark_follows_return rest
  | _ => False
  end.

End messaging.

(** ** Outbox relay of the order service ([internal/worker]) *)

Module worker.

(** [json.Unmarshal(payload, &map)]: an object fills the map, [null] leaves
    it nil, any other document is an error. *)
Definition Unmarshal (payload : json) : result (list (string * json)) :=
  match payload with
  | JObject fields => Ok fields
  | JNull => Ok []
  | _ => Err (errors.ErrorString
                "json: cannot unmarshal into Go value of type map[string]interface {}")
  end.

(** The conversion [rune(n)] of an [int64]: the low 32 bits, signed. *)
Definition rune (n : Z) : Z := (n + 2147483648) mod 4294967296 - 2147483648.

Definition byte (b : Z) : ascii := ascii_of_N (Z.to_N b).

Definition bytes (bs : list Z) : string :=
  fold_right (fun b s => String (byte b) s) EmptyString bs.

(** The conversion [string(r)] of a rune: the UTF-8 encoding of the code
    point, and of U+FFFD when [r] is not a valid code point. *)
Definition string_of_rune (r : Z) : string :=
  if (r <? 0) || (1114111 <? r) || ((55296 <=? r) && (r <=? 57343))
  then bytes [239; 191; 189]
  else if r <? 128 then bytes [r]
  else if r <? 2048
  then bytes [Z.lor 192 (Z.shiftr r 6); Z.lor 128 (Z.land r 63)]
  else if r <? 65536
  then bytes [Z.lor 224 (Z.shiftr r 12);
              Z.lor 128 (Z.land (Z.shiftr r 6) 63);
              Z.lor 128 (Z.land r 63)]
  else bytes [Z.lor 240 (Z.shiftr r 18);
              Z.lor 128 (Z.land (Z.shiftr r 12) 63);
              Z.lor 128 (Z.land (Z.shiftr r 6) 63);
              Z.lor 128 (Z.land r 63)].

(** The key [publishEvent] computes from the decoded payload.  A number of
    the payload is an integer here; its passage through [float64] is exact
    up to 2^53. *)
Definition partition_key (payload : list (string * json)) : string :=
  match map_index payload "orderId" with
  | Some (JNumber oid) => string_of_rune (rune oid)
  | _ => ""
  end.

(** [OutboxWorker.publishEvent]. *)
Definition publishEvent (send_fails : messaging.ProducerMessage -> bool)
    (event : OutboxEvent) (bus : messaging.Bus) : option error * messaging.Bus :=
  match Unmarshal (Payload event) with
  | Err e => (Some e, bus)
  | Ok payload =>
      let key := partition_key payload in
      messaging.Publish send_fails (OutboxEventType event) key (Payload event) bus
  end.

(** [OutboxWorker.process]: one tick of the relay.  The loop over the rows
    read: a row that cannot be published is skipped, and an error of
    [MarkSent] is logged and nothing else. *)
Fixpoint publish_all (env : Order.Env) (send_fails : messaging.ProducerMessage -> bool)
    (pending : list OutboxEvent) (db : Order.DB) (bus : messaging.Bus)
    : Order.DB * messaging.Bus :=
  match pending with
  | [] => (db, bus)
  | event :: rest =>
      match publishEvent send_fails event bus with
      | (Some _, bus1) => publish_all env send_fails rest db bus1
      | (None, bus1) =>
          match Order.MarkSent env (OutboxID event) db with
          | (Some _, db1) => publish_all env send_fails rest db1 bus1
          | (None, db1) => publish_all env send_fails rest db1 bus1
          end
      end
  end.

(** The error [process] returns, and the database and the bus after it. *)
Definition process (env : Order.Env) (send_fails : messaging.ProducerMessage -> bool)
    (db : Order.DB) (bus : messaging.Bus) : option error * (Order.DB * messaging.Bus) :=
  match Order.FindPending env 100 db with
  | Err err => (Some err, (db, bus))
  | Ok [] => (None, (db, bus))
  | Ok events => (None, publish_all env send_fails events db bus)
  end.

(** The order id an event of the payload format of section 6 concerns. *)
Definition order_id_of (event : OutboxEvent) : option Z :=
  match Payload event with
  | JObject fields =>
      match map_index fields "orderId" with
      | Some (JNumber oid) => Some oid
      | _ => None
      end
  | _ => None
  end.

(** The bytes a decimal rendering can start with: the sign and the digits. *)
Definition decimal_start (c : ascii) : bool :=
  Ascii.eqb c "-" || ((48 <=? Z.of_N (N_of_ascii c)) && (Z.of_N (N_of_ascii c) <=? 57)).

(** The [correlationId] an outbox row carries. *)
Definition correlation_of (e : OutboxEvent) : option string :=
  match Payload e with
  | JObject fields =>
      match map_index fields "correlationId" with
      | Some (JString c) => Some c
      | _ => None
      end
  | _ => None
  end.

End worker.

(** ** Payment service *)

Module Payment.

(** *** [services/payment/internal/domain] *)

Inductive PaymentStatus :=
| PaymentStatusPending
| PaymentStatusCompleted
| PaymentStatusFailed
| PaymentStatusRefunded.

Definition PaymentStatus_eqb (a b : PaymentStatus) : bool :=
  match a, b with
  | PaymentStatusPending, PaymentStatusPending
  | PaymentStatusCompleted, PaymentStatusCompleted
  | PaymentStatusFailed, PaymentStatusFailed
  | PaymentStatusRefunded, PaymentStatusRefunded => true
  | _, _ => false
  end.

Record Payment := {
  ID : Z;
  OrderID : Z;
  Amount : Z;
  PaymentType : string;
  Status : PaymentStatus;
  IdempotencyKey : string;
  PaymentGatewayTxID : string;
  Reason : string;
  CreatedAt : Z;
  UpdatedAt : Z
}.

Definition CanRefund (p : Payment) : bool :=
  PaymentStatus_eqb (Status p) PaymentStatusCompleted.

(** *** [services/payment/internal/repository] *)

Record DB := {
  payments : list Payment;
  payments_id_seq : Z;
  outbox_events : list OutboxEvent;
  outbox_events_id_seq : Z
}.

(** The clock, [uuid.New], the gateway's verdict ([rand.Intn(100) < 10])
    and the calls the driver fails.  For the relay: whether its query
    fails, how many rows its cursor delivers, and for which outbox ids
    [rows.Scan] and the [UPDATE] that marks the row fail. *)
Record Env := {
  now : Z;
  uuid_event : string;
  gateway_declines : bool;
  fail_FindByIdempotencyKey : bool;
  fail_FindByOrderID : bool;
  fail_BeginTx : bool;
  fail_Create : bool;
  fail_UpdateStatus : bool;
  fail_InsertTx : bool;
  fail_Commit : bool;
  fail_QueryPending : bool;
  rows_read : option nat;
  fail_Scan : Z -> bool;
  fail_UpdateSent : Z -> bool
}.

Definition driver_down : error := errors.DriverError "driver: bad connection".

Definition FindByIdempotencyKey (env : Env) (key : string) (db : DB) : result Payment :=
  if fail_FindByIdempotencyKey env
  then Err (errors.Errorf "failed to find payment: " driver_down)
  else match find (fun p => String.eqb (IdempotencyKey p) key) (payments db) with
       | Some p => Ok p
       | None => Err (errors.ErrorString ("payment not found with idempotency key: " ++ key))
       end.

(** [ORDER BY created_at DESC LIMIT 1] over the payments of the order; of
    two rows with the same [created_at] the later inserted one is taken. *)
Definition latest (rows : list Payment) : option Payment :=
  fold_left (fun best p =>
               match best with
               | None => Some p
               | Some b => if CreatedAt b <=? CreatedAt p then Some p else Some b
               end) rows None.

Definition FindByOrderID (env : Env) (orderID : Z) (db : DB) : result Payment :=
  if fail_FindByOrderID env
  then Err (errors.Errorf "failed to find payment: " driver_down)
  else match latest (List.filter (fun p => OrderID p =? orderID) (payments db)) with
       | Some p => Ok p
       | None => Err (errors.ErrorString ("payment not found for order: " ++ FormatInt orderID))
       end.

(** [paymentRepository.Create]: an [INSERT ... RETURNING id] sent through
    [r.db]; [idempotency_key] is [UNIQUE].  The payment type is the
    constant [CARD]; the key and the gateway transaction id are stored as
    given. *)
Definition Create (env : Env) (payment : Payment) (db : DB) : result Payment * DB :=
  if fail_Create env
  then (Err (errors.Errorf "failed to create payment: " driver_down), db)
  else
    let id := payments_id_seq db + 1 in
    if existsb (fun p => String.eqb (IdempotencyKey p) (IdempotencyKey payment)) (payments db)
    then (Err (errors.Errorf "duplicate idempotency key: " (errors.PqError unique_violation)),
          {| payments := payments db; payments_id_seq := id;
             outbox_events := outbox_events db;
             outbox_events_id_seq := outbox_events_id_seq db |})
    else
      let row := {| ID := id; OrderID := OrderID payment; Amount := Amount payment;
                    PaymentType := PaymentType payment; Status := Status payment;
                    IdempotencyKey := IdempotencyKey payment;
                    PaymentGatewayTxID := PaymentGatewayTxID payment;
                    Reason := ""; CreatedAt := CreatedAt payment;
                    UpdatedAt := UpdatedAt payment |} in
      (Ok row,
       {| payments := (payments db ++ [row])%list; payments_id_seq := id;
          outbox_events := outbox_events db;
          outbox_events_id_seq := outbox_events_id_seq db |}).

(** [paymentRepository.UpdateStatus]: an [UPDATE ... WHERE id = $3] sent
    through [r.db].  [reason] is a [VARCHAR(500)]; the statement that
    fails on it changes no row. *)
Definition UpdateStatus (env : Env) (id : Z) (status : PaymentStatus) (reason : string)
    (db : DB) : option error * DB :=
  if fail_UpdateStatus env
  then (Some (errors.Errorf "failed to update payment status: " driver_down), db)
  else
    match assign_varchar 500 reason with
    | Err e => (Some (errors.Errorf "failed to update payment status: " e), db)
    | Ok stored =>
      (None,
        {| payments :=
             map (fun p => if ID p =? id
                           then {| ID := ID p; OrderID := OrderID p; Amount := Amount p;
                                   PaymentType := PaymentType p; Status := status;
                                   IdempotencyKey := IdempotencyKey p;
                                   PaymentGatewayTxID := PaymentGatewayTxID p;
                                   Reason := stored; CreatedAt := CreatedAt p;
                                   UpdatedAt := now env |}
                           else p) (payments db);
           payments_id_seq := payments_id_seq db;
           outbox_events := outbox_events db;
           outbox_events_id_seq := outbox_events_id_seq db |})
    end.

(** An open [*sql.Tx]: the outbox rows written through it. *)
Definition Tx := list OutboxEvent.

Definition BeginTx (env : Env) : result Tx :=
  if fail_BeginTx env then Err driver_down else Ok [].

Definition InsertTx (env : Env) (tx : Tx) (event : OutboxEvent) (db : DB)
    : result (Tx * OutboxEvent) * DB :=
  if fail_InsertTx env
  then (Err (errors.Errorf "failed to insert outbox event: " driver_down), db)
  else
    let id := outbox_events_id_seq db + 1 in
    let row := {| OutboxID := id; AggregateType := AggregateType event;
                  AggregateID := AggregateID event;
                  OutboxEventType := OutboxEventType event;
                  Payload := Payload event; OutboxStatus := OutboxStatus event;
                  OutboxCreatedAt := OutboxCreatedAt event; SentAt := None |} in
    (Ok ((tx ++ [row])%list, row),
     {| payments := payments db; payments_id_seq := payments_id_seq db;
        outbox_events := outbox_events db; outbox_events_id_seq := id |}).

Definition Commit (env : Env) (tx : Tx) (db : DB) : result DB :=
  if fail_Commit env then Err driver_down
  else Ok {| payments := payments db; payments_id_seq := payments_id_seq db;
             outbox_events := (outbox_events db ++ tx)%list;
             outbox_events_id_seq := outbox_events_id_seq db |}.

(** *** [services/payment/internal/service] *)

(** The fields of the events the handlers read. *)
Record OrderCreatedEvent := {
  oc_EventID : string;
  oc_CorrelationID : string;
  oc_OrderID : Z;
  oc_UserID : Z;
  oc_Amount : Z;
  oc_Quantity : Z
}.

Record StockReservationFailedEvent := {
  srf_EventID : string;
  srf_CorrelationID : string;
  srf_OrderID : Z;
  srf_Quantity : Z;
  srf_Reason : string
}.

Definition base (env : Env) (eventType correlationID : string) : list (string * json) :=
  events.base_fields
    {| events.EventID := uuid_event env; events.EventType := eventType;
       events.SchemaVersion := 1; events.OccurredAt := now env;
       events.CorrelationID := correlationID |}.

Definition PaymentCompletedEvent (env : Env) (evt : OrderCreatedEvent) (payment : Payment) : json :=
  JObject (base env events.EventPaymentCompleted (oc_CorrelationID evt)
           ++ [ ("orderId", JNumber (oc_OrderID evt));
                ("paymentId", JNumber (ID payment));
                ("amount", JNumber (Amount payment));
                ("paymentType", JString (PaymentType payment)) ])%list.

Definition PaymentFailedEvent (env : Env) (evt : OrderCreatedEvent) (reason : string) : json :=
  JObject (base env events.EventPaymentFailed (oc_CorrelationID evt)
           ++ [ ("orderId", JNumber (oc_OrderID evt));
                ("reason", JString reason) ])%list.

Definition PaymentRefundedEvent (env : Env) (evt : StockReservationFailedEvent)
    (payment : Payment) : json :=
  JObject (base env events.EventPaymentRefunded (srf_CorrelationID evt)
           ++ [ ("orderId", JNumber (srf_OrderID evt));
                ("paymentId", JNumber (ID payment));
                ("amount", JNumber (Amount payment)) ])%list.

Definition pending (env : Env) (aggregateID : Z) (eventType : string) (payload : json)
    : OutboxEvent :=
  {| OutboxID := 0; AggregateType := "payment"; AggregateID := aggregateID;
     OutboxEventType := eventType; Payload := payload; OutboxStatus := "PENDING";
     OutboxCreatedAt := now env; SentAt := None |}.

(** [paymentService.processPayment]: the stub of the gateway. *)
Definition processPayment (env : Env) (orderID amount : Z) : result string :=
  if gateway_declines env
  then Err (errors.New errors.ErrCodePaymentDeclined "payment declined by gateway")
  else Ok ("PG-TXN-" ++ FormatInt orderID ++ "-" ++ FormatInt (now env)).

(** [paymentService.publishPaymentFailed]. *)
Definition publishPaymentFailed (env : Env) (tx : Tx) (evt : OrderCreatedEvent)
    (reason : string) (db : DB) : option error * DB :=
  let outboxEvent := pending env (oc_OrderID evt) events.EventPaymentFailed
                       (PaymentFailedEvent env evt reason) in
  match InsertTx env tx outboxEvent db with
  | (Err e, db1) =>
      (Some (errors.Wrap errors.ErrCodeDatabaseError "failed to insert outbox event" e), db1)
  | (Ok (tx, _), db1) =>
  match Commit env tx db1 with
  | Err e =>
      (Some (errors.Wrap errors.ErrCodeDatabaseError "failed to commit transaction" e), db1)
  | Ok db2 => (Some (errors.ErrorString ("payment failed: " ++ reason)), db2)
  end end.

Definition idempotency_key (evt : OrderCreatedEvent) : string :=
  "payment-" ++ FormatInt (oc_OrderID evt) ++ "-" ++ oc_EventID evt.

(** [paymentService.HandleOrderCreated]. *)
Definition HandleOrderCreated (env : Env) (evt : OrderCreatedEvent) (db : DB)
    : option error * DB :=
  let idempotencyKey := idempotency_key evt in
  match FindByIdempotencyKey env idempotencyKey db with
  | Ok existing => (None, db)
  | Err _ =>
  match BeginTx env with
  | Err e =>
      (Some (errors.Wrap errors.ErrCodeDatabaseError "failed to begin transaction" e), db)
  | Ok tx =>
  match processPayment env (oc_OrderID evt) (oc_Amount evt) with
  | Err e => publishPaymentFailed env tx evt (errors.Error e) db
  | Ok transactionID =>
  let payment := {| ID := 0; OrderID := oc_OrderID evt; Amount := oc_Amount evt;
                    PaymentType := "CARD"; Status := PaymentStatusCompleted;
                    IdempotencyKey := idempotencyKey;
                    PaymentGatewayTxID := transactionID; Reason := "";
                    CreatedAt := now env; UpdatedAt := now env |} in
  match Create env payment db with
  | (Err e, db1) =>
      (Some (errors.Wrap errors.ErrCodeDatabaseError "failed to create payment" e), db1)
  | (Ok payment, db1) =>
  let outboxEvent := pending env (ID payment) events.EventPaymentCompleted
                       (PaymentCompletedEvent env evt payment) in
  match InsertTx env tx outboxEvent db1 with
  | (Err e, db2) =>
      (Some (errors.Wrap errors.ErrCodeDatabaseError "failed to insert outbox event" e), db2)
  | (Ok (tx, _), db2) =>
  match Commit env tx db2 with
  | Err e =>
      (Some (errors.Wrap errors.ErrCodeDatabaseError "failed to commit transaction" e), db2)
  | Ok db3 => (None, db3)
  end end end end end
  end.

(** [paymentService.HandleStockReservationFailed] (the refund;
    [refundPayment] always succeeds). *)
Definition HandleStockReservationFailed (env : Env) (evt : StockReservationFailedEvent)
    (db : DB) : option error * DB :=
  match FindByOrderID env (srf_OrderID evt) db with
  | Err e => (Some e, db)
  | Ok payment =>
  if PaymentStatus_eqb (Status payment) PaymentStatusRefunded then (None, db)
  else
  match BeginTx env with
  | Err e =>
      (Some (errors.Wrap errors.ErrCodeDatabaseError "failed to begin transaction" e), db)
  | Ok tx =>
  match UpdateStatus env (ID payment) PaymentStatusRefunded (srf_Reason evt) db with
  | (Some e, db1) =>
      (Some (errors.Wrap errors.ErrCodeDatabaseError "failed to update payment status" e), db1)
  | (None, db1) =>
  let outboxEvent := pending env (ID payment) events.EventPaymentRefunded
                       (PaymentRefundedEvent env evt payment) in
  match InsertTx env tx outboxEvent db1 with
  | (Err e, db2) =>
      (Some (errors.Wrap errors.ErrCodeDatabaseError "failed to insert outbox event" e), db2)
  | (Ok (tx, _), db2) =>
  match Commit env tx db2 with
  | Err e =>
      (Some (errors.Wrap errors.ErrCodeDatabaseError "failed to commit transaction" e), db2)
  | Ok db3 => (None, db3)
  end end end end
  end.

(** *** [services/payment/cmd]: one tick of [startOutboxWorker] *)

(** The [UPDATE] that marks a row; the loop drops its result. *)
Definition UpdateSent (env : Env) (id : Z) (db : DB) : DB :=
  if fail_UpdateSent env id then db
  else {| payments := payments db; payments_id_seq := payments_id_seq db;
          outbox_events := mark_sent (now env) id (outbox_events db);
          outbox_events_id_seq := outbox_events_id_seq db |}.

(** The loop over the rows of the query: a row whose [rows.Scan] fails and
    a row that cannot be published are skipped. *)
Fixpoint relay_rows (env : Env) (send_fails : messaging.ProducerMessage -> bool)
    (rows : list OutboxEvent) (db : DB) (bus : messaging.Bus) : DB * messaging.Bus :=
  match rows with
  | [] => (db, bus)
  | row :: rest =>
      if fail_Scan env (OutboxID row) then relay_rows env send_fails rest db bus
      else
      match messaging.Publish send_fails (OutboxEventType row) "" (Payload row) bus with
      | (Some _, bus1) => relay_rows env send_fails rest db bus1
      | (None, bus1) =>
          relay_rows env send_fails rest (UpdateSent env (OutboxID row) db) bus1
      end
  end.

(** One tick: nothing happens when the query fails. *)
Definition startOutboxWorker_tick (env : Env) (send_fails : messaging.ProducerMessage -> bool)
    (db : DB) (bus : messaging.Bus) : DB * messaging.Bus :=
  if fail_QueryPending env then (db, bus)
  else relay_rows env send_fails
         (fetched (rows_read env) (select_pending 100 (outbox_events db))) db bus.

(** A payment row already carries the key. *)
Definition key_taken (key : string) (db : DB) : bool :=
  existsb (fun p => String.eqb (IdempotencyKey p) key) (payments db).

(** [Payment.Refund] at instant [t]: the result and the payment after the
    call. *)
Definition Refund (t : Z) (p : Payment) (reason : string) : bool * Payment :=
  if negb (CanRefund p) then (false, p)
  else (true,
        {| ID := ID p; OrderID := OrderID p; Amount := Amount p;
           PaymentType := PaymentType p; Status := PaymentStatusRefunded;
           IdempotencyKey := IdempotencyKey p;
           PaymentGatewayTxID := PaymentGatewayTxID p; Reason := reason;
           CreatedAt := CreatedAt p; UpdatedAt := t |}).

(** What the primary keys, the sequences and the unique index guarantee of
    the tables of the payment database. *)
Definition keys_consistent (db : DB) : Prop :=
  List.NoDup (map ID (payments db))
  /\ Forall (fun p => ID p <= payments_id_seq db) (payments db)
  /\ List.NoDup (map IdempotencyKey (payments db))
  /\ List.NoDup (map OutboxID (outbox_events db))
  /\ Forall (fun e => OutboxID e <= outbox_events_id_seq db) (outbox_events db).

(** The events the payment service consumes, with what the handler of each
    reads from outside. *)
Inductive Inbound :=
| OrderCreated (env : Env) (evt : OrderCreatedEvent)
| StockReservationFailed (env : Env) (evt : StockReservationFailedEvent).

Definition consume (ev : Inbound) (db : DB) : DB :=
  match ev with
  | OrderCreated env evt => snd (HandleOrderCreated env evt db)
  | StockReservationFailed env evt => snd (HandleStockReservationFailed env evt db)
  end.

Definition consume_all (evs : list Inbound) (db : DB) : DB :=
  fold_left (fun d ev => consume ev d) evs db.

(** No call of the driver fails. *)
Definition healthy (env : Env) : bool :=
  negb (fail_FindByIdempotencyKey env || fail_FindByOrderID env || fail_BeginTx env
        || fail_Create env || fail_UpdateStatus env || fail_InsertTx env
        || fail_Commit env).

End Payment.

(** ** Inventory service *)

Module Inventory.

Inductive ReservationStatus :=
| RESERVED
| CONFIRMED
| CANCELED
| EXPIRED.

Definition is_reserved (s : ReservationStatus) : bool :=
  match s with RESERVED => true | _ => false end.

(** A row of [inventory], under its unique [product_id]; the columns no
    handler reads or writes are left out. *)
Record InventoryRow := {
  AvailableQuantity : Z;
  ReservedQuantity : Z;
  Version : Z;
  UpdatedAt : Z
}.

Record StockReservation := {
  ID : Z;
  OrderID : Z;
  ProductID : Z;
  Quantity : Z;
  Status : ReservationStatus;
  IdempotencyKey : string;
  ExpiredAt : Z;
  CreatedAt : Z;
  ReservationUpdatedAt : Z
}.

Record Tables := {
  inventory : gmap Z InventoryRow;
  stock_reservations : list StockReservation;
  outbox_events : list OutboxEvent
}.

Record DB := {
  tables : Tables;
  stock_reservations_id_seq : Z;
  outbox_events_id_seq : Z
}.

Record Env := {
  now : Z;
  uuid_event : string;
  fail_QueryReservation : bool;
  fail_BeginTx : bool;
  fail_SelectInventory : bool;
  fail_UpdateInventory : bool;
  fail_InsertReservation : bool;
  fail_UpdateReservation : bool;
  fail_InsertOutbox : bool;
  fail_Commit : bool
}.

Definition driver_down : error := errors.DriverError "driver: bad connection".
Definition in_failed_sql_transaction : string := "25P02".

(** An open [*sql.Tx]: the tables as the transaction sees them, and whether
    a statement has failed in it (every later statement then fails, and
    nothing of it can be committed). *)
Record Tx := {
  view : Tables;
  aborted : bool
}.

Definition abort (tx : Tx) : Tx := {| view := view tx; aborted := true |}.

Definition BeginTx (env : Env) (db : DB) : result Tx :=
  if fail_BeginTx env then Err driver_down
  else Ok {| view := tables db; aborted := false |}.

Definition Commit (env : Env) (tx : Tx) (db : DB) : result DB :=
  if fail_Commit env then Err driver_down
  else if aborted tx then Err (errors.PqError in_failed_sql_transaction)
  else Ok {| tables := view tx;
             stock_reservations_id_seq := stock_reservations_id_seq db;
             outbox_events_id_seq := outbox_events_id_seq db |}.

(** Runs a statement in a transaction: it fails when the transaction is
    already aborted or when the driver fails, and a failure aborts the
    transaction. *)
Definition in_tx {A} (fail : bool) (tx : Tx) (stmt : Tables -> result (A * Tables))
    : result A * Tx :=
  if aborted tx then (Err (errors.PqError in_failed_sql_transaction), tx)
  else if fail then (Err driver_down, abort tx)
  else match stmt (view tx) with
       | Ok (a, t) => (Ok a, {| view := t; aborted := false |})
       | Err e => (Err e, abort tx)
       end.

(** [SELECT id FROM stock_reservations WHERE idempotency_key = $1]
    through [s.db]. *)
Definition QueryReservationByKey (env : Env) (key : string) (db : DB) : result Z :=
  if fail_QueryReservation env then Err driver_down
  else match find (fun r => String.eqb (IdempotencyKey r) key)
                  (stock_reservations (tables db)) with
       | Some r => Ok (ID r)
       | None => Err errors.ErrNoRows
       end.

(** [SELECT available_quantity, version FROM inventory WHERE product_id = $1
    FOR UPDATE] through [tx].  Finding no row is not a failure of the
    statement. *)
Definition SelectInventory (env : Env) (productID : Z) (tx : Tx) : result (Z * Z) * Tx :=
  if aborted tx then (Err (errors.PqError in_failed_sql_transaction), tx)
  else if fail_SelectInventory env then (Err driver_down, abort tx)
  else match inventory (view tx) !! productID with
       | Some row => (Ok (AvailableQuantity row, Version row), tx)
       | None => (Err errors.ErrNoRows, tx)
       end.

Definition set_inventory (t : Tables) (inv : gmap Z InventoryRow) : Tables :=
  {| inventory := inv; stock_reservations := stock_reservations t;
     outbox_events := outbox_events t |}.

(** The [UPDATE inventory] statements.  [delta] is added to
    [available_quantity] and subtracted from [reserved_quantity]; both are
    [INT] columns, [version] is a [BIGINT].  [guard] is the condition of the
    [WHERE] clause beside [product_id = $2].  The result is the number of
    rows changed. *)
Definition update_inventory (t : Z) (delta productID : Z) (guard : InventoryRow -> bool)
    (tb : Tables) : result (Z * Tables) :=
  match inventory tb !! productID with
  | Some row =>
      if guard row then
        if in_int32 (AvailableQuantity row + delta)
           && in_int32 (ReservedQuantity row - delta)
           && (Version row + 1 <=? max_int64)
        then Ok (1, set_inventory tb
                      (<[productID :=
                           {| AvailableQuantity := AvailableQuantity row + delta;
                              ReservedQuantity := ReservedQuantity row - delta;
                              Version := Version row + 1;
                              UpdatedAt := t |}]> (inventory tb)))
        else Err (errors.PqError numeric_value_out_of_range)
      else Ok (0, tb)
  | None => Ok (0, tb)
  end.

(** [INSERT INTO stock_reservations ... RETURNING id] through [tx]:
    [idempotency_key] is a unique [VARCHAR(64)], and the index holds the
    key as the column stores it.  The sequence value drawn for a rejected
    row is lost. *)
Definition InsertReservation (env : Env) (orderID productID quantity : Z) (key : string)
    (tx : Tx) (db : DB) : result Z * Tx * DB :=
  if aborted tx then (Err (errors.PqError in_failed_sql_transaction), tx, db)
  else if fail_InsertReservation env then (Err driver_down, abort tx, db)
  else
    let id := stock_reservations_id_seq db + 1 in
    let db1 := {| tables := tables db; stock_reservations_id_seq := id;
                  outbox_events_id_seq := outbox_events_id_seq db |} in
    match assign_varchar 64 key with
    | Err e => (Err e, abort tx, db1)
    | Ok key =>
    if existsb (fun r => String.eqb (IdempotencyKey r) key) (stock_reservations (view tx))
    then (Err (errors.PqError unique_violation), abort tx, db1)
    else
      let row := {| ID := id; OrderID := orderID; ProductID := productID;
                    Quantity := quantity; Status := RESERVED; IdempotencyKey := key;
                    ExpiredAt := now env + 1800; CreatedAt := now env;
                    ReservationUpdatedAt := now env |} in
      (Ok id,
       {| view := {| inventory := inventory (view tx);
                     stock_reservations := (stock_reservations (view tx) ++ [row])%list;
                     outbox_events := outbox_events (view tx) |};
          aborted := false |},
       db1)
    end.

(** [UPDATE stock_reservations SET status = 'CANCELED' WHERE id = $1]. *)
Definition CancelReservation (env : Env) (reservationID : Z) (tx : Tx) : result unit * Tx :=
  in_tx (fail_UpdateReservation env) tx
    (fun tb => Ok (tt,
       {| inventory := inventory tb;
          stock_reservations :=
            map (fun r => if ID r =? reservationID
                          then {| ID := ID r; OrderID := OrderID r; ProductID := ProductID r;
                                  Quantity := Quantity r; Status := CANCELED;
                                  IdempotencyKey := IdempotencyKey r;
                                  ExpiredAt := ExpiredAt r; CreatedAt := CreatedAt r;
                                  ReservationUpdatedAt := now env |}
                          else r) (stock_reservations tb);
          outbox_events := outbox_events tb |})).

(** [INSERT INTO outbox_events ...] through [tx]. *)
Definition InsertOutbox (env : Env) (aggregateType : string) (aggregateID : Z)
    (eventType : string) (payload : json) (tx : Tx) (db : DB) : result unit * Tx * DB :=
  if aborted tx then (Err (errors.PqError in_failed_sql_transaction), tx, db)
  else if fail_InsertOutbox env then (Err driver_down, abort tx, db)
  else
    let id := outbox_events_id_seq db + 1 in
    let row := {| OutboxID := id; AggregateType := aggregateType;
                  AggregateID := aggregateID; OutboxEventType := eventType;
                  Payload := payload; OutboxStatus := "PENDING";
                  OutboxCreatedAt := now env; SentAt := None |} in
    (Ok tt,
     {| view := {| inventory := inventory (view tx);
                   stock_reservations := stock_reservations (view tx);
                   outbox_events := (outbox_events (view tx) ++ [row])%list |};
        aborted := false |},
     {| tables := tables db;
        stock_reservations_id_seq := stock_reservations_id_seq db;
        outbox_events_id_seq := id |}).

(** *** [services/inventory/internal/service] *)

(** The fields of the events the handlers read. *)
Record PaymentCompletedEvent := {
  pc_EventID : string;
  pc_CorrelationID : string;
  pc_OrderID : Z
}.

Record PaymentRefundedEvent := {
  pr_CorrelationID : string;
  pr_OrderID : Z
}.

Definition base (env : Env) (eventType correlationID : string) : list (string * json) :=
  events.base_fields
    {| events.EventID := uuid_event env; events.EventType := eventType;
       events.SchemaVersion := 1; events.OccurredAt := now env;
       events.CorrelationID := correlationID |}.

Definition StockReservedEvent (env : Env) (correlationID : string)
    (orderID reservationID quantity : Z) : json :=
  JObject (base env events.EventStockReserved correlationID
           ++ [ ("orderId", JNumber orderID);
                ("reservationId", JNumber reservationID);
                ("quantity", JNumber quantity) ])%list.

Definition StockRestoredEvent (env : Env) (correlationID : string)
    (orderID reservationID quantity : Z) : json :=
  JObject (base env events.EventStockRestored correlationID
           ++ [ ("orderId", JNumber orderID);
                ("reservationId", JNumber reservationID);
                ("quantity", JNumber quantity) ])%list.

Definition StockReservationFailedEvent (env : Env) (evt : PaymentCompletedEvent)
    (reason : string) : json :=
  JObject (base env events.EventStockReservationFailed (pc_CorrelationID evt)
           ++ [ ("orderId", JNumber (pc_OrderID evt));
                ("quantity", JNumber 1);
                ("reason", JString reason) ])%list.

(** [inventoryService.publishStockReservationFailed]: the event is written
    and committed, and the handler still returns an error. *)
Definition publishStockReservationFailed (env : Env) (tx : Tx)
    (evt : PaymentCompletedEvent) (reason : string) (db : DB) : option error * DB :=
  match InsertOutbox env "order" (pc_OrderID evt) events.EventStockReservationFailed
          (StockReservationFailedEvent env evt reason) tx db with
  | (Err e, _, db1) => (Some e, db1)
  | (Ok _, tx, db1) =>
  match Commit env tx db1 with
  | Err e => (Some e, db1)
  | Ok db2 => (Some (errors.ErrorString ("stock reservation failed: " ++ reason)), db2)
  end end.

Definition idempotency_key (evt : PaymentCompletedEvent) : string :=
  "stock-reservation-" ++ FormatInt (pc_OrderID evt) ++ "-" ++ pc_EventID evt.

(** [inventoryService.HandlePaymentCompleted]. *)
Definition HandlePaymentCompleted (env : Env) (evt : PaymentCompletedEvent) (db : DB)
    : option error * DB :=
  let idempotencyKey := idempotency_key evt in
  match QueryReservationByKey env idempotencyKey db with
  | Ok _ => (None, db)
  | Err _ =>
  match BeginTx env db with
  | Err e =>
      (Some (errors.Wrap errors.ErrCodeDatabaseError "failed to begin transaction" e), db)
  | Ok tx =>
  let productID := 1 in
  let quantity := 1 in
  match SelectInventory env productID tx with
  | (Err _, tx) => publishStockReservationFailed env tx evt "product not found" db
  | (Ok (availableQty, version), tx) =>
  if availableQty <? quantity
  then publishStockReservationFailed env tx evt "insufficient stock" db
  else
  match in_tx (fail_UpdateInventory env) tx
          (update_inventory (now env) (- quantity) productID
             (fun row => Version row =? version)) with
  | (Err e, _) =>
      (Some (errors.Wrap errors.ErrCodeDatabaseError "failed to update inventory" e), db)
  | (Ok affected, tx) =>
  if affected =? 0
  then publishStockReservationFailed env tx evt "version conflict" db
  else
  match InsertReservation env (pc_OrderID evt) productID quantity idempotencyKey tx db with
  | (Err e, _, db1) =>
      (Some (errors.Wrap errors.ErrCodeDatabaseError "failed to create reservation" e), db1)
  | (Ok reservationID, tx, db1) =>
  match InsertOutbox env "stock_reservation" reservationID events.EventStockReserved
          (StockReservedEvent env (pc_CorrelationID evt) (pc_OrderID evt)
             reservationID quantity) tx db1 with
  | (Err e, _, db2) =>
      (Some (errors.Wrap errors.ErrCodeDatabaseError "failed to insert outbox event" e), db2)
  | (Ok _, tx, db2) =>
  match Commit env tx db2 with
  | Err e =>
      (Some (errors.Wrap errors.ErrCodeDatabaseError "failed to commit transaction" e), db2)
  | Ok db3 => (None, db3)
  end end end end end end
  end.

(** [SELECT id, product_id, quantity FROM stock_reservations WHERE order_id =
    $1 AND status = 'RESERVED'] through [s.db]: the first such row. *)
Definition QueryActiveReservation (env : Env) (orderID : Z) (db : DB)
    : result StockReservation :=
  if fail_QueryReservation env then Err driver_down
  else match find (fun r => (OrderID r =? orderID) && is_reserved (Status r))
                  (stock_reservations (tables db)) with
       | Some r => Ok r
       | None => Err errors.ErrNoRows
       end.

(** [inventoryService.HandlePaymentRefunded]. *)
Definition HandlePaymentRefunded (env : Env) (evt : PaymentRefundedEvent) (db : DB)
    : option error * DB :=
  match QueryActiveReservation env (pr_OrderID evt) db with
  | Err _ => (None, db)
  | Ok reservation =>
  let reservationID := ID reservation in
  let productID := ProductID reservation in
  let quantity := Quantity reservation in
  match BeginTx env db with
  | Err e => (Some e, db)
  | Ok tx =>
  match in_tx (fail_UpdateInventory env) tx
          (update_inventory (now env) quantity productID (fun _ => true)) with
  | (Err e, _) => (Some e, db)
  | (Ok _, tx) =>
  match CancelReservation env reservationID tx with
  | (Err e, _) => (Some e, db)
  | (Ok _, tx) =>
  match InsertOutbox env "stock_reservation" reservationID events.EventStockRestored
          (StockRestoredEvent env (pr_CorrelationID evt) (pr_OrderID evt)
             reservationID quantity) tx db with
  | (Err e, _, db1) => (Some e, db1)
  | (Ok _, tx, db1) =>
  match Commit env tx db1 with
  | Err e => (Some e, db1)
  | Ok db2 => (None, db2)
  end end end end end
  end.

(** The events the inventory service consumes, with what the handler of
    each reads from outside. *)
Inductive Inbound :=
| PaymentCompleted (env : Env) (evt : PaymentCompletedEvent)
| PaymentRefunded (env : Env) (evt : PaymentRefundedEvent).

Definition consume (ev : Inbound) (db : DB) : DB :=
  match ev with
  | PaymentCompleted env evt => snd (HandlePaymentCompleted env evt db)
  | PaymentRefunded env evt => snd (HandlePaymentRefunded env evt db)
  end.

Definition consume_all (evs : list Inbound) (db : DB) : DB :=
  fold_left (fun d ev => consume ev d) evs db.

(** [availableQty + reservedQty] of a product, when it has a row. *)
Definition sum_in (tb : Tables) (productID : Z) : option Z :=
  match inventory tb !! productID with
  | Some row => Some (AvailableQuantity row + ReservedQuantity row)
  | None => None
  end.

Definition quantity_sum (db : DB) (productID : Z) : option Z :=
  sum_in (tables db) productID.

(** The last outbox row written, when the handler wrote one. *)
Definition emitted (before after : DB) : list OutboxEvent :=
  skipn (length (outbox_events (tables before))) (outbox_events (tables after)).

Definition is_failure (reason : string) (e : OutboxEvent) : bool :=
  String.eqb (OutboxEventType e) events.EventStockReservationFailed
  && match Payload e with
     | JObject fields =>
         match map_index fields "reason" with
         | Some (JString r) => String.eqb r reason
         | _ => false
         end
     | _ => false
     end.

Definition emits_failure (reason : string) (before after : DB) : bool :=
  existsb (is_failure reason) (emitted before after).

(** No call of the driver fails. *)
Definition healthy (env : Env) : bool :=
  negb (fail_QueryReservation env || fail_BeginTx env || fail_SelectInventory env
        || fail_UpdateInventory env || fail_InsertReservation env
        || fail_UpdateReservation env || fail_InsertOutbox env || fail_Commit env).

(** The row of product 1 after one unit was reserved. *)
Definition reserved_row (env : Env) (row : InventoryRow) : InventoryRow :=
  {| AvailableQuantity := AvailableQuantity row - 1;
     ReservedQuantity := ReservedQuantity row + 1;
     Version := Version row + 1;
     UpdatedAt := now env |}.

(** The reservation rule in the words of the specification, for an order of
    [q] units of product [p]: the failure event is written exactly when the
    stock is short of [q], and [q] units move from available to reserved
    otherwise. *)
Definition reserves_the_requested_amount (env : Env) (evt : PaymentCompletedEvent)
    (db : DB) (p q : Z) : Prop :=
  forall row, inventory (tables db) !! p = Some row ->
    let db' := snd (HandlePaymentCompleted env evt db) in
    (emits_failure "insufficient stock" db db' = true <-> AvailableQuantity row < q)
    /\ (q <= AvailableQuantity row ->
        exists row', inventory (tables db') !! p = Some row'
          /\ AvailableQuantity row' = AvailableQuantity row - q
          /\ ReservedQuantity row' = ReservedQuantity row + q).

(** The row of a product after [q] reserved units were given back. *)
Definition restored_row (env : Env) (q : Z) (row : InventoryRow) : InventoryRow :=
  {| AvailableQuantity := AvailableQuantity row + q;
     ReservedQuantity := ReservedQuantity row - q;
     Version := Version row + 1;
     UpdatedAt := now env |}.

(** A reservation as the [UPDATE ... SET status = 'CANCELED' WHERE id = $1]
    of the refund leaves it. *)
Definition canceled (env : Env) (reservationID : Z) (r : StockReservation)
    : StockReservation :=
  if ID r =? reservationID
  then {| ID := ID r; OrderID := OrderID r; ProductID := ProductID r;
          Quantity := Quantity r; Status := CANCELED;
          IdempotencyKey := IdempotencyKey r; ExpiredAt := ExpiredAt r;
          CreatedAt := CreatedAt r; ReservationUpdatedAt := now env |}
  else r.

(** The units of a product held by its RESERVED reservations. *)
Definition holds (productID : Z) (r : StockReservation) : Z :=
  if is_reserved (Status r) && (ProductID r =? productID) then Quantity r else 0.

Definition active_sum (productID : Z) (rows : list StockReservation) : Z :=
  fold_right (fun r acc => holds productID r + acc) 0 rows.

(** The tables agree: no product has a negative available quantity, the
    reserved quantity of a product is the total of its RESERVED
    reservations, no reservation has a negative quantity, and reservation
    ids are distinct and below their sequence. *)
Definition stock_consistent (db : DB) : Prop :=
  (forall p row, inventory (tables db) !! p = Some row ->
     0 <= AvailableQuantity row
     /\ ReservedQuantity row = active_sum p (stock_reservations (tables db)))
  /\ Forall (fun r => 0 <= Quantity r) (stock_reservations (tables db))
  /\ List.NoDup (map ID (stock_reservations (tables db)))
  /\ Forall (fun r => ID r <= stock_reservations_id_seq db) (stock_reservations (tables db)).

End Inventory.

(** ** Concrete inputs used by the examples *)

Module order_scenario.

Definition order_env : Order.Env :=
  {| Order.now := 1764400000;
     Order.uuid_correlation := "5f0c6f0e-0000-4000-8000-00000000c0de";
     Order.uuid_event := "5f0c6f0e-0000-4000-8000-00000000e001";
     Order.uuid_request := "5f0c6f0e-0000-4000-8000-00000000a001";
     Order.fail_FindByIdempotencyKey := false; Order.fail_FindByID := false;
     Order.fail_BeginTx := false; Order.fail_Create := false;
     Order.fail_UpdateStatus := false; Order.fail_InsertTx := false;
     Order.fail_Commit := false;
     Order.fail_FindPending := false; Order.fail_ScanPending := false;
     Order.rows_read := None; Order.fail_MarkSent := fun _ => false |}.

(** The same, with [tx.Commit] failing. *)
Definition order_env_commit_fails : Order.Env :=
  {| Order.now := 1764400000;
     Order.uuid_correlation := "5f0c6f0e-0000-4000-8000-00000000c0de";
     Order.uuid_event := "5f0c6f0e-0000-4000-8000-00000000e001";
     Order.uuid_request := "5f0c6f0e-0000-4000-8000-00000000a001";
     Order.fail_FindByIdempotencyKey := false; Order.fail_FindByID := false;
     Order.fail_BeginTx := false; Order.fail_Create := false;
     Order.fail_UpdateStatus := false; Order.fail_InsertTx := false;
     Order.fail_Commit := true;
     Order.fail_FindPending := false; Order.fail_ScanPending := false;
     Order.rows_read := None; Order.fail_MarkSent := fun _ => false |}.

Definition empty_order_db : Order.DB :=
  {| Order.orders := []; Order.orders_id_seq := 0;
     Order.outbox_events := []; Order.outbox_events_id_seq := 0 |}.

(** No order left, 64 order ids drawn so far. *)
Definition purged_order_db : Order.DB :=
  {| Order.orders := []; Order.orders_id_seq := 64;
     Order.outbox_events := []; Order.outbox_events_id_seq := 64 |}.

(** The command of scenario S1. *)
Definition k1_command : Order.CreateOrderCommand :=
  {| Order.cmd_UserID := 1001; Order.cmd_Amount := 50000;
     Order.cmd_Quantity := 1; Order.cmd_IdempotencyKey := "k1" |}.


Definition order_in (status : Order.OrderStatus) : Order.Order :=
  {| Order.ID := 7; Order.UserID := 1001; Order.Amount := 50000;
     Order.Quantity := 1; Order.Status := status; Order.Version := 3;
     Order.IdempotencyKey := "k1";
     Order.CreatedAt := 1764300000; Order.UpdatedAt := 1764300060 |}.

(** A database holding order 7 in the given status. *)
Definition order_db (status : Order.OrderStatus) : Order.DB :=
  {| Order.orders := [order_in status]; Order.orders_id_seq := 7;
     Order.outbox_events := []; Order.outbox_events_id_seq := 0 |}.

(** [POST /orders] with amount 0 and a key no order has. *)
Definition zero_amount_request : Order.Request :=
  {| Order.Method := "POST";
     Order.Body := Some {| Order.req_UserID := 1001; Order.req_Amount := 0;
                           Order.req_Quantity := 1;
                           Order.req_IdempotencyKey := "k2" |} |}.

(** A command whose key is a SHA-256 digest in hexadecimal, 64 characters,
    followed by a space. *)
Definition padded_key : string :=
  "9f86d081884c7d659a2feaa0c55ad015a3bf4f1b2b0b822cd15d6c15b0f00a08 ".

Definition padded_key_command : Order.CreateOrderCommand :=
  {| Order.cmd_UserID := 1001; Order.cmd_Amount := 50000; Order.cmd_Quantity := 1;
     Order.cmd_IdempotencyKey := padded_key |}.

End order_scenario.

Module payment_scenario.

Definition env : Payment.Env :=
  {| Payment.now := 1764400010;
     Payment.uuid_event := "5f0c6f0e-0000-4000-8000-00000000e002";
     Payment.gateway_declines := false;
     Payment.fail_FindByIdempotencyKey := false; Payment.fail_FindByOrderID := false;
     Payment.fail_BeginTx := false; Payment.fail_Create := false;
     Payment.fail_UpdateStatus := false; Payment.fail_InsertTx := false;
     Payment.fail_Commit := false;
     Payment.fail_QueryPending := false; Payment.rows_read := None;
     Payment.fail_Scan := fun _ => false; Payment.fail_UpdateSent := fun _ => false |}.

(** The same, with [tx.Commit] failing. *)
Definition env_commit_fails : Payment.Env :=
  {| Payment.now := 1764400010;
     Payment.uuid_event := "5f0c6f0e-0000-4000-8000-00000000e002";
     Payment.gateway_declines := false;
     Payment.fail_FindByIdempotencyKey := false; Payment.fail_FindByOrderID := false;
     Payment.fail_BeginTx := false; Payment.fail_Create := false;
     Payment.fail_UpdateStatus := false; Payment.fail_InsertTx := false;
     Payment.fail_Commit := true;
     Payment.fail_QueryPending := false; Payment.rows_read := None;
     Payment.fail_Scan := fun _ => false; Payment.fail_UpdateSent := fun _ => false |}.

(** The same, with the lookup by idempotency key failing: a delivery that
    gets past the lookup whatever the table holds. *)
Definition env_lookup_fails : Payment.Env :=
  {| Payment.now := 1764400010;
     Payment.uuid_event := "5f0c6f0e-0000-4000-8000-00000000e002";
     Payment.gateway_declines := false;
     Payment.fail_FindByIdempotencyKey := true; Payment.fail_FindByOrderID := false;
     Payment.fail_BeginTx := false; Payment.fail_Create := false;
     Payment.fail_UpdateStatus := false; Payment.fail_InsertTx := false;
     Payment.fail_Commit := false;
     Payment.fail_QueryPending := false; Payment.rows_read := None;
     Payment.fail_Scan := fun _ => false; Payment.fail_UpdateSent := fun _ => false |}.

Definition empty_db : Payment.DB :=
  {| Payment.payments := []; Payment.payments_id_seq := 0;
     Payment.outbox_events := []; Payment.outbox_events_id_seq := 0 |}.

Definition order_created : Payment.OrderCreatedEvent :=
  {| Payment.oc_EventID := "5f0c6f0e-0000-4000-8000-00000000e001";
     Payment.oc_CorrelationID := "5f0c6f0e-0000-4000-8000-00000000c0de";
     Payment.oc_OrderID := 7; Payment.oc_UserID := 1001;
     Payment.oc_Amount := 50000; Payment.oc_Quantity := 1 |}.

Definition stock_reservation_failed : Payment.StockReservationFailedEvent :=
  {| Payment.srf_EventID := "5f0c6f0e-0000-4000-8000-00000000e003";
     Payment.srf_CorrelationID := "5f0c6f0e-0000-4000-8000-00000000c0de";
     Payment.srf_OrderID := 7; Payment.srf_Quantity := 1;
     Payment.srf_Reason := "insufficient stock" |}.

(** The database after [order_created] was handled once. *)
Definition paid_db : Payment.DB :=
  snd (Payment.HandleOrderCreated env order_created empty_db).

End payment_scenario.

Module inventory_scenario.

Definition env : Inventory.Env :=
  {| Inventory.now := 1764400020;
     Inventory.uuid_event := "5f0c6f0e-0000-4000-8000-00000000e004";
     Inventory.fail_QueryReservation := false; Inventory.fail_BeginTx := false;
     Inventory.fail_SelectInventory := false; Inventory.fail_UpdateInventory := false;
     Inventory.fail_InsertReservation := false; Inventory.fail_UpdateReservation := false;
     Inventory.fail_InsertOutbox := false; Inventory.fail_Commit := false |}.

(** The sample data of the schema: products 1, 2 and 3 with 100, 50 and 200
    units available. *)
Definition stocked (available : Z) : Inventory.InventoryRow :=
  {| Inventory.AvailableQuantity := available; Inventory.ReservedQuantity := 0;
     Inventory.Version := 0; Inventory.UpdatedAt := 1764300000 |}.

Definition sample_db : Inventory.DB :=
  {| Inventory.tables :=
       {| Inventory.inventory :=
            <[1 := stocked 100]> (<[2 := stocked 50]> (<[3 := stocked 200]> ∅));
          Inventory.stock_reservations := [];
          Inventory.outbox_events := [] |};
     Inventory.stock_reservations_id_seq := 0;
     Inventory.outbox_events_id_seq := 0 |}.

(** [PaymentCompleted] of order 7, an order of 5 units. *)
Definition payment_completed : Inventory.PaymentCompletedEvent :=
  {| Inventory.pc_EventID := "5f0c6f0e-0000-4000-8000-00000000e002";
     Inventory.pc_CorrelationID := "5f0c6f0e-0000-4000-8000-00000000c0de";
     Inventory.pc_OrderID := 7 |}.

Definition payment_refunded : Inventory.PaymentRefundedEvent :=
  {| Inventory.pr_CorrelationID := "5f0c6f0e-0000-4000-8000-00000000c0de";
     Inventory.pr_OrderID := 7 |}.

(** [PaymentCompleted] of order 7 with an event id of 44 characters and a
    space: its key has 64 characters and a space. *)
Definition payment_completed_padded : Inventory.PaymentCompletedEvent :=
  {| Inventory.pc_EventID := "5f0c6f0e-0000-4000-8000-00000000e002-retry-1 ";
     Inventory.pc_CorrelationID := "5f0c6f0e-0000-4000-8000-00000000c0de";
     Inventory.pc_OrderID := 7 |}.

End inventory_scenario.

Module bus_scenario.

Definition message : messaging.Message :=
  {| messaging.Topic := "payment.completed.v1"; messaging.Partition := 0;
     messaging.Offset := 42; messaging.Key := "7";
     messaging.Value := JObject [("orderId", JNumber 7)] |}.

(** A handler whose database is down: it returns an error for every
    message and changes nothing. *)
Definition failing_handler (m : messaging.Message) (st : unit) : option error * unit :=
  (Some (errors.Wrap errors.ErrCodeDatabaseError "failed to begin transaction"
           (errors.DriverError "driver: bad connection")), st).

Definition never_fails (m : messaging.ProducerMessage) : bool := false.

End bus_scenario.

Module extra_scenario.

(** A command with a key no order has and a negative amount. *)
Definition k2_invalid_command : Order.CreateOrderCommand :=
  {| Order.cmd_UserID := 1001; Order.cmd_Amount := -5;
     Order.cmd_Quantity := 1; Order.cmd_IdempotencyKey := "k2" |}.

(** The order service with a [MarkSent] that fails. *)
Definition order_env_mark_fails : Order.Env :=
  {| Order.now := Order.now order_scenario.order_env;
     Order.uuid_correlation := Order.uuid_correlation order_scenario.order_env;
     Order.uuid_event := Order.uuid_event order_scenario.order_env;
     Order.uuid_request := Order.uuid_request order_scenario.order_env;
     Order.fail_FindByIdempotencyKey := false; Order.fail_FindByID := false;
     Order.fail_BeginTx := false; Order.fail_Create := false;
     Order.fail_UpdateStatus := false; Order.fail_InsertTx := false;
     Order.fail_Commit := false;
     Order.fail_FindPending := false; Order.fail_ScanPending := false;
     Order.rows_read := None; Order.fail_MarkSent := fun _ => true |}.

(** An outbox row whose payload is a JSON array, alone in the table. *)
Definition stuck_row : OutboxEvent :=
  {| OutboxID := 1; AggregateType := "order"; AggregateID := 7;
     OutboxEventType := events.EventOrderCreated; Payload := JArray [JNumber 7];
     OutboxStatus := "PENDING"; OutboxCreatedAt := 1764300000; SentAt := None |}.

Definition stuck_db : Order.DB :=
  {| Order.orders := []; Order.orders_id_seq := 7;
     Order.outbox_events := [stuck_row]; Order.outbox_events_id_seq := 1 |}.

(** The payment service with a gateway that declines. *)
Definition env_declined : Payment.Env :=
  {| Payment.now := 1764400010;
     Payment.uuid_event := "5f0c6f0e-0000-4000-8000-00000000e002";
     Payment.gateway_declines := true;
     Payment.fail_FindByIdempotencyKey := false; Payment.fail_FindByOrderID := false;
     Payment.fail_BeginTx := false; Payment.fail_Create := false;
     Payment.fail_UpdateStatus := false; Payment.fail_InsertTx := false;
     Payment.fail_Commit := false;
     Payment.fail_QueryPending := false; Payment.rows_read := None;
     Payment.fail_Scan := fun _ => false; Payment.fail_UpdateSent := fun _ => false |}.

(** The payment [payment_scenario.paid_db] holds. *)
Definition payment_of_order_7 : Payment.Payment :=
  {| Payment.ID := 1; Payment.OrderID := 7; Payment.Amount := 50000;
     Payment.PaymentType := "CARD"; Payment.Status := Payment.PaymentStatusCompleted;
     Payment.IdempotencyKey := "payment-7-5f0c6f0e-0000-4000-8000-00000000e001";
     Payment.PaymentGatewayTxID := "PG-TXN-7-1764400010"; Payment.Reason := "";
     Payment.CreatedAt := 1764400010; Payment.UpdatedAt := 1764400010 |}.

End extra_scenario.

(** ** The relay of the order service, row by row *)

Module relay.

(** The message [publishEvent] builds for a row, and whether it gets onto
    the bus: the payload must decode into a map and the send must succeed. *)
Definition message_of (event : OutboxEvent) : messaging.ProducerMessage :=
  {| messaging.pm_Topic := OutboxEventType event;
     messaging.pm_Key := match worker.Unmarshal (Payload event) with
                         | Ok payload => worker.partition_key payload
                         | Err _ => ""
                         end;
     messaging.pm_Value := Payload event |}.

Definition sendable (send_fails : messaging.ProducerMessage -> bool)
    (event : OutboxEvent) : bool :=
  match worker.Unmarshal (Payload event) with
  | Ok _ => negb (send_fails (message_of event))
  | Err _ => false
  end.

(** A row as [MarkSent] leaves it. *)
Definition marked_sent (t : Z) (e : OutboxEvent) : OutboxEvent :=
  {| OutboxID := OutboxID e; AggregateType := AggregateType e;
     AggregateID := AggregateID e; OutboxEventType := OutboxEventType e;
     Payload := Payload e; OutboxStatus := "SENT";
     OutboxCreatedAt := OutboxCreatedAt e; SentAt := Some t |}.

(** A row after the rows with the given ids were marked. *)
Definition mark_all (t : Z) (ids : list Z) (e : OutboxEvent) : OutboxEvent :=
  if existsb (Z.eqb (OutboxID e)) ids then marked_sent t e else e.

Definition is_pending (e : OutboxEvent) : bool := String.eqb (OutboxStatus e) "PENDING".

(** Rows in ascending order of [created_at]. *)
Fixpoint ascending (rows : list OutboxEvent) : Prop :=
  match rows with
  | [] => True
  | e :: rest =>
      Forall (fun x => OutboxCreatedAt e <= OutboxCreatedAt x) rest /\ ascending rest
  end.

(** What the relay must not change of a row: everything but [status] and
    [sent_at]. *)
Definition content (e : OutboxEvent) : Z * string * Z * string * json * Z :=
  (OutboxID e, AggregateType e, AggregateID e, OutboxEventType e, Payload e,
   OutboxCreatedAt e).

(** The rows a tick reads: those [FindPending] returns, none when it
    fails. *)
Definition read (env : Order.Env) (db : Order.DB) : list OutboxEvent :=
  match Order.FindPending env 100 db with
  | Ok rows => rows
  | Err _ => []
  end.

(** A row a tick publishes and marks: its payload decodes, the send
    succeeds and [MarkSent] does not fail. *)
Definition mark_written (env : Order.Env) (send_fails : messaging.ProducerMessage -> bool)
    (event : OutboxEvent) : bool :=
  sendable send_fails event && negb (Order.fail_MarkSent env (OutboxID event)).

(** Successive ticks of [OutboxWorker.process], each with its clock, its
    driver and its publisher. *)
Fixpoint ticks (runs : list (Order.Env * (messaging.ProducerMessage -> bool)))
    (db : Order.DB) (bus : messaging.Bus) : Order.DB * messaging.Bus :=
  match runs with
  | [] => (db, bus)
  | (env, send_fails) :: rest =>
      let '(_, (db1, bus1)) := worker.process env send_fails db bus in
      ticks rest db1 bus1
  end.

End relay.

(** ** Delivery service ([internal/service] of the delivery service) *)

Module Delivery.

Inductive DeliveryStatus :=
| PENDING
| PREPARING
| IN_TRANSIT
| DELIVERED
| FAILED
| CANCELED.

(** A row of [deliveries]; the columns the handler leaves NULL
    ([recipient_name], [recipient_phone], [reason]) are left out. *)
Record DeliveryRow := {
  ID : Z;
  OrderID : Z;
  Address : string;
  Status : DeliveryStatus;
  IdempotencyKey : string;
  TrackingNumber : string;
  Carrier : string;
  CreatedAt : Z;
  UpdatedAt : Z
}.

Record Tables := {
  deliveries : list DeliveryRow;
  outbox_events : list OutboxEvent
}.

Record DB := {
  tables : Tables;
  deliveries_id_seq : Z;
  outbox_events_id_seq : Z
}.

Record Env := {
  now : Z;
  uuid_event : string;
  fail_QueryDelivery : bool;
  fail_BeginTx : bool;
  fail_InsertDelivery : bool;
  fail_InsertOutbox : bool;
  fail_Commit : bool
}.

Definition driver_down : error := errors.DriverError "driver: bad connection".
(** An open [*sql.Tx]: the tables as the transaction sees them.  The
    handler returns at the first statement that fails, and the deferred
    [tx.Rollback] drops the view. *)
Definition Tx := Tables.

Definition BeginTx (env : Env) (db : DB) : result Tx :=
  if fail_BeginTx env then Err driver_down else Ok (tables db).

Definition Commit (env : Env) (tx : Tx) (db : DB) : result DB :=
  if fail_Commit env then Err driver_down
  else Ok {| tables := tx;
             deliveries_id_seq := deliveries_id_seq db;
             outbox_events_id_seq := outbox_events_id_seq db |}.

(** [SELECT id FROM deliveries WHERE idempotency_key = $1] through [s.db]. *)
Definition QueryDeliveryByKey (env : Env) (key : string) (db : DB) : result Z :=
  if fail_QueryDelivery env then Err driver_down
  else match find (fun r => String.eqb (IdempotencyKey r) key) (deliveries (tables db)) with
       | Some r => Ok (ID r)
       | None => Err errors.ErrNoRows
       end.

Definition carrier : string := "CJ대한통운".

(** [INSERT INTO deliveries ... RETURNING id] through [tx]: [address] is a
    [VARCHAR(500)], [idempotency_key] a unique [VARCHAR(64)],
    [tracking_number] a [VARCHAR(100)].  The sequence value drawn for a
    rejected row is lost. *)
Definition InsertDelivery (env : Env) (orderID : Z) (address key trackingNumber : string)
    (tx : Tx) (db : DB) : result Z * Tx * DB :=
  if fail_InsertDelivery env then (Err driver_down, tx, db)
  else
    let id := deliveries_id_seq db + 1 in
    let db1 := {| tables := tables db; deliveries_id_seq := id;
                  outbox_events_id_seq := outbox_events_id_seq db |} in
    match assign_varchar 500 address with
    | Err e => (Err e, tx, db1)
    | Ok address =>
    match assign_varchar 64 key with
    | Err e => (Err e, tx, db1)
    | Ok key =>
    match assign_varchar 100 trackingNumber with
    | Err e => (Err e, tx, db1)
    | Ok trackingNumber =>
    if existsb (fun r => String.eqb (IdempotencyKey r) key) (deliveries tx)
    then (Err (errors.PqError unique_violation), tx, db1)
    else
      let row := {| ID := id; OrderID := orderID; Address := address;
                    Status := PREPARING; IdempotencyKey := key;
                    TrackingNumber := trackingNumber; Carrier := carrier;
                    CreatedAt := now env; UpdatedAt := now env |} in
      (Ok id,
       {| deliveries := (deliveries tx ++ [row])%list;
          outbox_events := outbox_events tx |},
       db1)
    end end end.

(** [INSERT INTO outbox_events ...] through [tx]. *)
Definition InsertOutbox (env : Env) (aggregateType : string) (aggregateID : Z)
    (eventType : string) (payload : json) (tx : Tx) (db : DB) : result unit * Tx * DB :=
  if fail_InsertOutbox env then (Err driver_down, tx, db)
  else
    let id := outbox_events_id_seq db + 1 in
    let row := {| OutboxID := id; AggregateType := aggregateType;
                  AggregateID := aggregateID; OutboxEventType := eventType;
                  Payload := payload; OutboxStatus := "PENDING";
                  OutboxCreatedAt := now env; SentAt := None |} in
    (Ok tt,
     {| deliveries := deliveries tx;
        outbox_events := (outbox_events tx ++ [row])%list |},
     {| tables := tables db;
        deliveries_id_seq := deliveries_id_seq db;
        outbox_events_id_seq := id |}).

(** The fields of [StockReservedEvent] the handler reads. *)
Record StockReservedEvent := {
  sr_EventID : string;
  sr_CorrelationID : string;
  sr_OrderID : Z
}.

Definition DeliveryStartedEvent (env : Env) (correlationID : string)
    (orderID deliveryID : Z) (address : string) : json :=
  JObject (events.base_fields
             {| events.EventID := uuid_event env;
                events.EventType := events.EventDeliveryStarted;
                events.SchemaVersion := 1; events.OccurredAt := now env;
                events.CorrelationID := correlationID |}
           ++ [ ("orderId", JNumber orderID);
                ("deliveryId", JNumber deliveryID);
                ("address", JString address) ])%list.

Definition idempotency_key (evt : StockReservedEvent) : string :=
  "delivery-" ++ FormatInt (sr_OrderID evt) ++ "-" ++ sr_EventID evt.

Definition address : string := "서울시 강남구 테헤란로 123".

(** [deliveryService.HandleStockReserved]. *)
Definition HandleStockReserved (env : Env) (evt : StockReservedEvent) (db : DB)
    : option error * DB :=
  let idempotencyKey := idempotency_key evt in
  match QueryDeliveryByKey env idempotencyKey db with
  | Ok _ => (None, db)
  | Err _ =>
  match BeginTx env db with
  | Err e =>
      (Some (errors.Wrap errors.ErrCodeDatabaseError "failed to begin transaction" e), db)
  | Ok tx =>
  let trackingNumber := "TRK-" ++ FormatInt (sr_OrderID evt) ++ "-" ++ FormatInt (now env) in
  match InsertDelivery env (sr_OrderID evt) address idempotencyKey trackingNumber tx db with
  | (Err e, _, db1) =>
      (Some (errors.Wrap errors.ErrCodeDatabaseError "failed to create delivery" e), db1)
  | (Ok deliveryID, tx, db1) =>
  match InsertOutbox env "delivery" deliveryID events.EventDeliveryStarted
          (DeliveryStartedEvent env (sr_CorrelationID evt) (sr_OrderID evt)
             deliveryID address) tx db1 with
  | (Err e, _, db2) =>
      (Some (errors.Wrap errors.ErrCodeDatabaseError "failed to insert outbox event" e), db2)
  | (Ok _, tx, db2) =>
  match Commit env tx db2 with
  | Err e =>
      (Some (errors.Wrap errors.ErrCodeDatabaseError "failed to commit transaction" e), db2)
  | Ok db3 => (None, db3)
  end end end end
  end.

(** The key of the event is in the table. *)
Definition key_stored (evt : StockReservedEvent) (db : DB) : bool :=
  existsb (fun r => String.eqb (IdempotencyKey r) (idempotency_key evt))
    (deliveries (tables db)).

End Delivery.

Module delivery_scenario.

Definition env : Delivery.Env :=
  {| Delivery.now := 1764400030;
     Delivery.uuid_event := "5f0c6f0e-0000-4000-8000-00000000e005";
     Delivery.fail_QueryDelivery := false; Delivery.fail_BeginTx := false;
     Delivery.fail_InsertDelivery := false; Delivery.fail_InsertOutbox := false;
     Delivery.fail_Commit := false |}.

Definition empty_db : Delivery.DB :=
  {| Delivery.tables := {| Delivery.deliveries := []; Delivery.outbox_events := [] |};
     Delivery.deliveries_id_seq := 0; Delivery.outbox_events_id_seq := 0 |}.

(** [StockReserved] of order 7. *)
Definition stock_reserved : Delivery.StockReservedEvent :=
  {| Delivery.sr_EventID := "5f0c6f0e-0000-4000-8000-00000000e004";
     Delivery.sr_CorrelationID := "5f0c6f0e-0000-4000-8000-00000000c0de";
     Delivery.sr_OrderID := 7 |}.

End delivery_scenario.

(** ** [strconv.ParseInt(s, 10, 64)] *)

Module strconv.

Inductive NumError :=
| ErrSyntax
| ErrRange.

Definition max_uint64 : Z := 18446744073709551615.

(** The conversion [int64(u)]: the low 64 bits, signed. *)
Definition int64 (u : Z) : Z :=
  (u + 9223372036854775808) mod 18446744073709551616 - 9223372036854775808.

(** The value of a character in base 10; a letter, an underscore or any
    other character has none. *)
Definition digit (c : ascii) : option Z :=
  let n := Z.of_N (N_of_ascii c) in
  if (48 <=? n) && (n <=? 57) then Some (n - 48) else None.

(** The loop of [ParseUint] for base 10 and 64 bits: [cutoff] is
    [maxUint64/10 + 1]. *)
Fixpoint ParseUint_loop (s : string) (n : Z) : Z * option NumError :=
  match s with
  | EmptyString => (n, None)
  | String c rest =>
      match digit c with
      | None => (0, Some ErrSyntax)
      | Some d =>
          if max_uint64 / 10 + 1 <=? n then (max_uint64, Some ErrRange)
          else
            let n1 := n * 10 + d in
            if max_uint64 <? n1 then (max_uint64, Some ErrRange)
            else ParseUint_loop rest n1
      end
  end.

Definition ParseUint (s : string) : Z * option NumError :=
  match s with
  | EmptyString => (0, Some ErrSyntax)
  | _ => ParseUint_loop s 0
  end.

Definition ParseInt (s : string) : Z * option NumError :=
  match s with
  | EmptyString => (0, Some ErrSyntax)
  | String c rest =>
      let neg := Ascii.eqb c "-" in
      let s1 := if Ascii.eqb c "+" || Ascii.eqb c "-" then rest else s in
      match ParseUint s1 with
      | (_, Some ErrSyntax) => (0, Some ErrSyntax)
      | (un, _) =>
          let cutoff := 9223372036854775808 in
          if negb neg && (cutoff <=? un) then (cutoff - 1, Some ErrRange)
          else if neg && (cutoff <? un) then (- cutoff, Some ErrRange)
          else
            let n := int64 un in
            (if neg then int64 (- n) else n, None)
      end
  end.

End strconv.

(** ** [GET /orders/{id}] of the order service ([internal/handler]) *)

Module handler.

Definition StatusOK : Z := 200.
Definition StatusNotFound : Z := 404.

(** What [HTTPHandler.GetOrder] does with a request: it writes the order,
    it writes an error, or the slice [r.URL.Path[len("/orders/"):]] is out
    of range. *)
Inductive GetOrderResult :=
| Responded (status : Z) (order : Order.Order)
| Refused (response : Order.Response)
| SliceOutOfRange.

Definition GetOrder (env : Order.Env) (method path : string) (db : Order.DB)
    : GetOrderResult :=
  if negb (String.eqb method "GET")
  then Refused (Order.respondError Order.StatusMethodNotAllowed "method not allowed" "")
  else if (String.length path <? String.length "/orders/")%nat then SliceOutOfRange
  else
    let orderIDStr :=
      substring (String.length "/orders/")
        (String.length path - String.length "/orders/") path in
    match strconv.ParseInt orderIDStr with
    | (_, Some _) =>
        Refused (Order.respondError Order.StatusBadRequest "invalid order ID" "")
    | (orderID, None) =>
        match Order.GetOrder env orderID db with
        | Err _ => Refused (Order.respondError StatusNotFound "order not found" "")
        | Ok order => Responded StatusOK order
        end
    end.

End handler.

(** ** [common/retry] *)

Module retry.

(** [BackoffCoefficient], a [float64], is kept out of the record: the
    product [time.Duration(float64(interval) * config.BackoffCoefficient)]
    is a function [backoff] of the interval. *)
Record Config := {
  MaxAttempts : Z;
  InitialInterval : Z;
  MaxInterval : Z;
  MaxElapsedTime : Z
}.

(** What [Do] does that can be seen from outside: a call of [fn] with its
    result, and a wait of [time.After(interval)] begun. *)
Inductive Step :=
| Called (err : option error)
| Waited (interval : Z).

(** [fmt.Errorf(text + "%w", lastErr)]. *)
Definition wrap (text : string) (lastErr : option error) : error :=
  match lastErr with
  | Some e => errors.Errorf text e
  | None => errors.ErrorString (text ++ "%!w(<nil>)")
  end.

Section Do.
Context {W : Type}.
(** [ctx.Err()], [time.Since(startTime)], the function retried, and the
    [select] on [ctx.Done()] and [time.After(interval)]: the error of the
    context when it is done first. *)
Variable ctx_Err : W -> option error.
Variable since : W -> Z.
Variable fn : W -> option error * W.
Variable after : Z -> W -> option error * W.
Variable backoff : Z -> Z.
Variable config : Config.

(** The loop [for attempt := 1; attempt <= config.MaxAttempts; attempt++],
    with [remaining] iterations to go. *)
Fixpoint loop (remaining : nat) (attempt interval : Z) (lastErr : option error) (w : W)
    : option error * W * list Step :=
  match remaining with
  | O => (Some (wrap "max attempts reached: " lastErr), w, [])
  | S remaining =>
      match ctx_Err w with
      | Some e => (Some e, w, [])
      | None =>
          if MaxElapsedTime config <? since w
          then (Some (wrap "max elapsed time exceeded: " lastErr), w, [])
          else
            match fn w with
            | (None, w1) => (None, w1, [Called None])
            | (Some err, w1) =>
                if attempt =? MaxAttempts config
                then (Some (wrap "max attempts reached: " (Some err)), w1,
                      [Called (Some err)])
                else
                  match after interval w1 with
                  | (Some e, w2) => (Some e, w2, [Called (Some err); Waited interval])
                  | (None, w2) =>
                      let interval1 := backoff interval in
                      let interval2 := if MaxInterval config <? interval1
                                       then MaxInterval config else interval1 in
                      let '(r, w3, steps) :=
                        loop remaining (attempt + 1) interval2 (Some err) w2 in
                      (r, w3, Called (Some err) :: Waited interval :: steps)
                  end
            end
      end
  end.

Definition Do (w : W) : option error * W * list Step :=
  loop (Z.to_nat (MaxAttempts config)) 1 (InitialInterval config) None w.

End Do.

Definition is_call (s : Step) : bool :=
  match s with Called _ => true | Waited _ => false end.

(** The number of calls of [fn]. *)
Definition calls (steps : list Step) : nat := length (List.filter is_call steps).

End retry.

Module retry_scenario.

(** The values of [DefaultConfig], in nanoseconds, and its coefficient 2. *)
Definition config : retry.Config :=
  {| retry.MaxAttempts := 5; retry.InitialInterval := 1000000000;
     retry.MaxInterval := 60000000000; retry.MaxElapsedTime := 300000000000 |}.

Definition doubled (interval : Z) : Z := 2 * interval.

(** A function that fails on its first two calls; the world is the number
    of calls made. *)
Definition fails_twice (w : nat) : option error * nat :=
  (if (w <? 2)%nat then Some (errors.DriverError "driver: bad connection") else None,
   S w).

(** A context that is never done, a clock that has not advanced, and a wait
    that runs to its end. *)
Definition never_done (w : nat) : option error := None.
Definition no_time (w : nat) : Z := 0.
Definition sleeps (interval : Z) (w : nat) : option error * nat := (None, w).

End retry_scenario.

(** * Properties *)

(** ** Facts on lists used below *)

Module ListFacts.

Lemma find_app_fresh {A} (f : A -> bool) l x :
  existsb f l = false -> find f (l ++ [x]) = if f x then Some x else None.
Proof.
  induction l as [|y l IH]; simpl; [reflexivity|].
  destruct (f y); simpl; [discriminate | exact IH].
Qed.

Lemma find_none_existsb {A} (f : A -> bool) l :
  find f l = None -> existsb f l = false.
Proof.
  induction l as [|x l IH]; simpl; [reflexivity|].
  destruct (f x); [discriminate|exact IH].
Qed.

Lemma filter_nil_existsb {A} (f : A -> bool) l :
  List.filter f l = [] -> existsb f l = false.
Proof.
  induction l as [|x l IH]; simpl; [reflexivity|].
  destruct (f x); [discriminate|exact IH].
Qed.

Lemma existsb_filter_nil {A} (f : A -> bool) l :
  existsb f l = false -> List.filter f l = [].
Proof.
  induction l as [|x l IH]; simpl; [reflexivity|].
  destruct (f x); simpl; [discriminate|exact IH].
Qed.

(** A text of at most [n] characters is stored in a [VARCHAR(n)] column as
    it is. *)
Lemma short_text_is_stored n s :
  (length (chars s) <= n)%nat -> assign_varchar n s = Ok s.
Proof.
  intros H. unfold assign_varchar. apply Nat.leb_le in H. rewrite H. reflexivity.
Qed.

Lemma Z_range_forall (P : Z -> bool) (k : nat) :
  forallb P (map Z.of_nat (seq 0 k)) = true ->
  forall x, 0 <= x < Z.of_nat k -> P x = true.
Proof.
  intros H x Hx. rewrite forallb_forall in H. apply H.
  apply in_map_iff. exists (Z.to_nat x). split; [lia|]. apply in_seq. lia.
Qed.

End ListFacts.

(** ** Order service: creation *)

Module OrderProps.
Import Order ListFacts.

Lemma fresh_key_not_found env k db :
  rows_with_key k db = [] ->
  forall o, FindByIdempotencyKey env k db <> Ok o.
Proof.
  intros Hfresh o. unfold FindByIdempotencyKey.
  destruct (fail_FindByIdempotencyKey env); [discriminate|].
  destruct (find _ (orders db)) as [x|] eqn:Hf; [|discriminate].
  apply find_some in Hf as [Hin Hk].
  assert (In x (rows_with_key k db)) as Hx by (apply filter_In; split; assumption).
  rewrite Hfresh in Hx. destruct Hx.
Qed.

Lemma fresh_key_no_existing_order env cmd db :
  rows_with_key (cmd_IdempotencyKey cmd) db = [] ->
  existing_order env cmd db = None.
Proof.
  intros Hfresh. unfold existing_order.
  destruct (String.eqb _ ""); [reflexivity|].
  destruct (FindByIdempotencyKey env (cmd_IdempotencyKey cmd) db) as [o|e] eqn:E;
    [|reflexivity].
  exfalso. exact (fresh_key_not_found _ _ _ Hfresh _ E).
Qed.

(** After the insert of a row with a key no row had, one row has it. *)
Lemma one_row_with_key k db db1 row :
  existsb (has_key k) (orders db) = false ->
  orders db1 = (orders db ++ [row])%list ->
  IdempotencyKey row = k ->
  length (rows_with_key k db1) = 1%nat.
Proof.
  intros Hfresh Hrows Hk. unfold rows_with_key. rewrite Hrows.
  rewrite List.filter_app, List.length_app, (existsb_filter_nil _ _ Hfresh).
  simpl. unfold has_key. rewrite Hk, String.eqb_refl. reflexivity.
Qed.

(** A second [CreateOrder] with the key of a successful first one answers
    like the first and writes nothing. *)
Lemma CreateOrder_again env1 env2 cmd db r1 db1 :
  cmd_IdempotencyKey cmd <> "" ->
  (length (chars (cmd_IdempotencyKey cmd)) <= 64)%nat ->
  CreateOrder env1 cmd db = (Ok r1, db1) ->
  fail_FindByIdempotencyKey env2 = false ->
  CreateOrder env2 cmd db1 = (Ok r1, db1)
  /\ (1 <= length (rows_with_key (cmd_IdempotencyKey cmd) db1))%nat
  /\ (existing_order env1 cmd db = None ->
      length (rows_with_key (cmd_IdempotencyKey cmd) db1) = 1%nat).
Proof.
  intros Hkey Hlen H1 Hf2.
  unfold CreateOrder in H1.
  destruct (existing_order env1 cmd db) as [existing|] eqn:Hex.
  - injection H1 as <- <-.
    unfold existing_order in Hex.
    destruct (String.eqb_spec (cmd_IdempotencyKey cmd) ""); [contradiction|].
    unfold FindByIdempotencyKey in Hex.
    destruct (fail_FindByIdempotencyKey env1); [discriminate|].
    destruct (find _ (orders db)) as [o|] eqn:Hfind; [|discriminate].
    injection Hex as ->.
    split; [|split; [|discriminate]].
    + unfold CreateOrder, existing_order, FindByIdempotencyKey.
      destruct (String.eqb_spec (cmd_IdempotencyKey cmd) ""); [contradiction|].
      rewrite Hf2, Hfind. reflexivity.
    + apply find_some in Hfind as [Hin Hk].
      assert (In existing (rows_with_key (cmd_IdempotencyKey cmd) db)) as Hrow
        by (apply filter_In; split; assumption).
      destruct (rows_with_key _ db); simpl in *; [tauto|lia].
  - destruct (cmd_Amount cmd <=? 0); [discriminate|].
    destruct (cmd_Quantity cmd <=? 0); [discriminate|].
    unfold BeginTx, Create, InsertTx, Commit in H1.
    destruct (fail_BeginTx env1); [discriminate|].
    destruct (fail_Create env1); [discriminate|].
    cbn [IdempotencyKey Quantity] in H1.
    destruct (negb (in_int32 (cmd_Quantity cmd))); [discriminate|].
    rewrite (short_text_is_stored 64 _ Hlen) in H1.
    destruct (existsb _ (orders db)) eqn:Hfresh; [discriminate|].
    destruct (fail_InsertTx env1); [discriminate|].
    destruct (fail_Commit env1); [discriminate|].
    injection H1 as <- <-.
    match goal with
    | |- _ /\ (1 <= length ?rows)%nat /\ _ => assert (length rows = 1%nat) as Hone
    end.
    { eapply one_row_with_key; [exact Hfresh|reflexivity|reflexivity]. }
    split; [|split].
    + unfold CreateOrder, existing_order, FindByIdempotencyKey.
      destruct (String.eqb_spec (cmd_IdempotencyKey cmd) ""); [contradiction|].
      rewrite Hf2. cbn [orders].
      rewrite (find_app_fresh _ _ _ Hfresh). cbn [IdempotencyKey].
      rewrite String.eqb_refl. reflexivity.
    + rewrite Hone. lia.
    + intros _. exact Hone.
Qed.

(** C8, as the specification states it, fails: [orders.idempotency_key] is
    a [VARCHAR(64)].  For a key of 64 characters and a space the first
    [CreateOrder] stores the key without the space and returns order 1; the
    second finds no order under the key it was given, its insert meets the
    stored key, and it returns an error, not the order id of the first. *)
Lemma padded_key_is_not_idempotent :
  let first := CreateOrder order_scenario.order_env order_scenario.padded_key_command
                 order_scenario.empty_order_db in
  let second := CreateOrder order_scenario.order_env order_scenario.padded_key_command
                  (snd first) in
  cmd_IdempotencyKey order_scenario.padded_key_command <> ""
  /\ fst first = Ok {| res_OrderID := 1; res_Status := OrderStatusPending |}
  /\ fst second
     = Err (errors.Wrap errors.ErrCodeDatabaseError "failed to create order"
              (errors.Errorf "duplicate idempotency key: "
                 (errors.PqError unique_violation)))
  /\ ~ (exists r2, fst second = Ok r2 /\ res_OrderID r2 = 1).
Proof.
  cbv zeta. split; [discriminate|]. split; [vm_compute; reflexivity|].
  assert (fst (CreateOrder order_scenario.order_env order_scenario.padded_key_command
                 (snd (CreateOrder order_scenario.order_env
                         order_scenario.padded_key_command
                         order_scenario.empty_order_db)))
          = Err (errors.Wrap errors.ErrCodeDatabaseError "failed to create order"
                   (errors.Errorf "duplicate idempotency key: "
                      (errors.PqError unique_violation)))) as Hsecond
    by (vm_compute; reflexivity).
  split; [exact Hsecond|].
  intros (r2 & H2 & _). rewrite Hsecond in H2. discriminate H2.
Qed.

(** C8, amended.  Two calls of [CreateOrder] with the same non-empty
    idempotency key of at most 64 characters: when the first succeeds and
    the key lookup of the second does not fail, the second returns the same
    order id (and status), leaves every table as the first left it, so it
    adds no outbox row, and exactly one order row carries the key.  The
    third hypothesis is the unique index on [orders.idempotency_key] in the
    initial database. *)
Theorem create_order_twice env1 env2 cmd db r1 db1 :
  cmd_IdempotencyKey cmd <> "" ->
  (length (chars (cmd_IdempotencyKey cmd)) <= 64)%nat ->
  (length (rows_with_key (cmd_IdempotencyKey cmd) db) <= 1)%nat ->
  CreateOrder env1 cmd db = (Ok r1, db1) ->
  fail_FindByIdempotencyKey env2 = false ->
  exists r2,
    CreateOrder env2 cmd db1 = (Ok r2, db1)
    /\ res_OrderID r2 = res_OrderID r1
    /\ length (rows_with_key (cmd_IdempotencyKey cmd) db1) = 1%nat.
Proof.
  intros Hkey Hlen Huniq H1 Hf2.
  destruct (CreateOrder_again _ _ _ _ _ _ Hkey Hlen H1 Hf2) as (H2 & Hge & Hnew).
  exists r1. split; [exact H2|]. split; [reflexivity|].
  destruct (existing_order env1 cmd db) as [existing|] eqn:Hex; [|apply Hnew; reflexivity].
  unfold CreateOrder in H1. rewrite Hex in H1. injection H1 as _ <-. lia.
Qed.

Lemma create_order_twice_witness :
  exists r2,
    CreateOrder order_scenario.order_env order_scenario.k1_command
      (snd (CreateOrder order_scenario.order_env order_scenario.k1_command
              order_scenario.empty_order_db))
    = (Ok r2, snd (CreateOrder order_scenario.order_env order_scenario.k1_command
                     order_scenario.empty_order_db))
    /\ res_OrderID r2 = 1
    /\ length (rows_with_key "k1"
                 (snd (CreateOrder order_scenario.order_env order_scenario.k1_command
                         order_scenario.empty_order_db))) = 1%nat.
Proof.
  apply (create_order_twice order_scenario.order_env order_scenario.order_env
           order_scenario.k1_command order_scenario.empty_order_db
           {| res_OrderID := 1; res_Status := OrderStatusPending |}).
  - discriminate.
  - simpl. lia.
  - simpl. lia.
  - reflexivity.
  - reflexivity.
Defined.

(** The same at the HTTP surface: a repeated [POST /orders] with a key gets
    the response of the first. *)
Lemma post_orders_twice env1 env2 r req db resp db1 :
  Method r = "POST" ->
  Body r = Some req ->
  req_IdempotencyKey req <> "" ->
  (length (chars (req_IdempotencyKey req)) <= 64)%nat ->
  HTTP_CreateOrder env1 r db = (resp, db1) ->
  StatusCode resp = StatusCreated ->
  fail_FindByIdempotencyKey env2 = false ->
  HTTP_CreateOrder env2 r db1 = (resp, db1).
Proof.
  intros Hm Hb Hkey Hlen H1 Hcreated Hf2.
  unfold HTTP_CreateOrder in *. rewrite Hm, Hb in *.
  change (negb (String.eqb "POST" "POST")) with false in *. cbv iota in *.
  destruct (String.eqb_spec (req_IdempotencyKey req) ""); [contradiction|].
  destruct (CreateOrder env1 _ db) as [[r1|e1] d1] eqn:Hc1.
  - injection H1 as <- <-.
    pose proof (fun K L => CreateOrder_again env1 env2 _ _ _ _ K L Hc1 Hf2) as Hagain.
    destruct (Hagain Hkey Hlen) as (H2 & _). rewrite H2. reflexivity.
  - injection H1 as <- <-. discriminate Hcreated.
Qed.



(** [CreateOrder] rejects a command with a non-positive amount or quantity
    and a key no order has, and writes nothing. *)
Lemma CreateOrder_rejects_invalid env cmd db :
  cmd_Amount cmd <= 0 \/ cmd_Quantity cmd <= 0 ->
  rows_with_key (cmd_IdempotencyKey cmd) db = [] ->
  CreateOrder env cmd db
  = (Err (errors.New errors.ErrCodeInvalidOrder
            (if cmd_Amount cmd <=? 0 then "amount must be positive"
             else "quantity must be positive")), db).
Proof.
  intros Hbad Hfresh. unfold CreateOrder.
  rewrite (fresh_key_no_existing_order _ _ _ Hfresh).
  destruct (Z.leb_spec (cmd_Amount cmd) 0); [reflexivity|].
  destruct (Z.leb_spec (cmd_Quantity cmd) 0); [reflexivity|lia].
Qed.

(** C9, as the specification states it, fails: a [POST /orders] with amount
    0 and a fresh key creates no order, and the status of the response is
    not 400. *)
Lemma invalid_order_is_not_answered_400 :
  let answer := HTTP_CreateOrder order_scenario.order_env
                  order_scenario.zero_amount_request order_scenario.empty_order_db in
  ~ (orders (snd answer) = [] /\ StatusCode (fst answer) = StatusBadRequest).
Proof. cbv zeta. intros [_ H]. vm_compute in H. discriminate H. Qed.

(** C9, amended.  [POST /orders] with a non-positive amount or quantity and
    a key no order has writes nothing and answers with status 500; the body
    carries the text of the [INVALID_ORDER] error. *)
Theorem invalid_order_is_answered_500 env r req db :
  Method r = "POST" ->
  Body r = Some req ->
  req_Amount req <= 0 \/ req_Quantity req <= 0 ->
  rows_with_key (effective_key env req) db = [] ->
  HTTP_CreateOrder env r db
  = ({| StatusCode := 500;
        ResponseJSON :=
          ErrorResponse
            (if req_Amount req <=? 0 then "[INVALID_ORDER] amount must be positive"
             else "[INVALID_ORDER] quantity must be positive") "" |}, db).
Proof.
  intros Hm Hb Hbad Hfresh. unfold HTTP_CreateOrder. rewrite Hm, Hb.
  change (negb (String.eqb "POST" "POST")) with false. cbv iota.
  fold (effective_key env req).
  rewrite CreateOrder_rejects_invalid; [|exact Hbad|exact Hfresh].
  cbn [cmd_Amount]. destruct (req_Amount req <=? 0); reflexivity.
Qed.

Lemma invalid_order_is_answered_500_witness :
  HTTP_CreateOrder order_scenario.order_env order_scenario.zero_amount_request
    order_scenario.empty_order_db
  = ({| StatusCode := 500;
        ResponseJSON := ErrorResponse "[INVALID_ORDER] amount must be positive" "" |},
     order_scenario.empty_order_db).
Proof.
  apply (invalid_order_is_answered_500 order_scenario.order_env
           order_scenario.zero_amount_request
           {| req_UserID := 1001; req_Amount := 0; req_Quantity := 1;
              req_IdempotencyKey := "k2" |}
           order_scenario.empty_order_db).
  - reflexivity.
  - reflexivity.
  - left. simpl. lia.
  - reflexivity.
Defined.

End OrderProps.

(** ** Order service: the state machine *)

Module StateMachineProps.
Import Order ListFacts.

Lemma OrderStatus_eqb_eq a b : OrderStatus_eqb a b = true -> a = b.
Proof. destruct a, b; simpl; congruence. Qed.

(** The update changes the row [FindByID] returned. *)
Lemma find_after_update id st t rows o :
  find (fun x => ID x =? id) rows = Some o ->
  find (fun x => ID x =? id)
       (map (fun x => if version_matches id (Version o) x then with_status st t x else x) rows)
  = Some (with_status st t o).
Proof.
  induction rows as [|y rows IH]; simpl; [discriminate|].
  destruct (ID y =? id) eqn:Hy.
  - intros [= ->]. unfold version_matches. rewrite Hy, Z.eqb_refl. simpl.
    rewrite Hy. reflexivity.
  - intros H. unfold version_matches at 1. rewrite Hy. simpl. rewrite Hy. auto.
Qed.

Lemma no_overflow id v rows :
  v + 1 <= max_int64 ->
  existsb (fun o => version_matches id v o && (max_int64 <? Version o + 1)) rows = false.
Proof.
  intros Hv. induction rows as [|y rows IH]; simpl; [reflexivity|].
  rewrite IH, orb_false_r. unfold version_matches.
  destruct (ID y =? id); simpl; [|reflexivity].
  destruct (Z.eqb_spec (Version y) v); simpl; [|reflexivity].
  apply Z.ltb_ge. lia.
Qed.

Lemma status_after_update env id st o db r db1 :
  find (fun x => ID x =? id) (orders db) = Some o ->
  UpdateStatusWithVersion env (ID o) st (Version o) db = (r, db1) ->
  status_of db1 id = Some (Status o) \/ status_of db1 id = Some st.
Proof.
  intros Hfind. unfold UpdateStatusWithVersion.
  assert (ID o = id) as Hid.
  { apply find_some in Hfind as [_ H]. apply Z.eqb_eq in H. exact H. }
  rewrite Hid.
  destruct (fail_UpdateStatus env).
  { intros [= <- <-]. left. unfold status_of. rewrite Hfind. reflexivity. }
  destruct (existsb _ (orders db)).
  { intros [= <- <-]. left. unfold status_of. rewrite Hfind. reflexivity. }
  intros [= <- <-]. right. unfold status_of, set_orders. cbn [orders].
  rewrite (find_after_update _ _ _ _ _ Hfind). reflexivity.
Qed.

(** A handler that tests for status [cur] before it writes [next] changes
    the status of the order only along [cur -> next]. *)
Lemma guarded_update env id db cur next db1 s s' :
  match FindByID env id db with
  | Err _ => db1 = db
  | Ok order =>
      if OrderStatus_eqb (Status order) cur
      then exists r,
          UpdateStatusWithVersion env (ID order) next (Version order) db = (r, db1)
      else db1 = db
  end ->
  status_of db id = Some s ->
  status_of db1 id = Some s' ->
  s' = s \/ (s = cur /\ s' = next).
Proof.
  intros Hshape Hs Hs'. unfold FindByID in Hshape. unfold status_of in Hs.
  destruct (fail_FindByID env).
  { subst db1. unfold status_of in Hs'. left. congruence. }
  destruct (find (fun o => ID o =? id) (orders db)) as [o|] eqn:Hfind; [|discriminate].
  simpl in Hs. injection Hs as <-.
  destruct (OrderStatus_eqb (Status o) cur) eqn:Hcur.
  - destruct Hshape as [r Hup]. apply OrderStatus_eqb_eq in Hcur.
    destruct (status_after_update _ _ _ _ _ _ _ Hfind Hup) as [H|H];
      rewrite H in Hs'; injection Hs' as <-; [left; reflexivity|right; split; congruence].
  - subst db1. unfold status_of in Hs'. rewrite Hfind in Hs'. left. simpl in Hs'. congruence.
Qed.

(** The handlers of [PaymentCompleted], [StockReserved] and
    [DeliveryStarted] fire only the transition the table lists for the
    current status, and leave the order alone otherwise. *)
Lemma guarded_handlers_follow_the_table env ev id db s s' :
  guarded ev = true ->
  status_of db id = Some s ->
  status_of (snd (handle env ev id db)) id = Some s' ->
  s' = s \/ spec_transition s ev = Some s'.
Proof.
  intros Hg Hs Hs'.
  destruct (handle env ev id db) as [err db1] eqn:Hh. simpl in Hs'.
  destruct ev; try discriminate Hg; simpl in Hh.
  - destruct (guarded_update env id db OrderStatusPending OrderStatusStockReserving
                db1 s s') as [H|[-> ->]]; auto.
    revert Hh. unfold HandlePaymentCompleted.
    destruct (FindByID env id db) as [o|e]; [|intros [= _ <-]; reflexivity].
    destruct (OrderStatus_eqb (Status o) OrderStatusPending); [|intros [= _ <-]; reflexivity].
    destruct (UpdateStatusWithVersion _ _ _ _ _) as [[b|e] d];
      intros [= _ <-]; eexists; reflexivity.
  - destruct (guarded_update env id db OrderStatusStockReserving OrderStatusDeliveryPreparing
                db1 s s') as [H|[-> ->]]; auto.
    revert Hh. unfold HandleStockReserved.
    destruct (FindByID env id db) as [o|e]; [|intros [= _ <-]; reflexivity].
    destruct (OrderStatus_eqb (Status o) OrderStatusStockReserving);
      [|intros [= _ <-]; reflexivity].
    destruct (UpdateStatusWithVersion _ _ _ _ _) as [[b|e] d];
      intros [= _ <-]; eexists; reflexivity.
  - destruct (guarded_update env id db OrderStatusDeliveryPreparing OrderStatusCompleted
                db1 s s') as [H|[-> ->]]; auto.
    revert Hh. unfold HandleDeliveryStarted.
    destruct (FindByID env id db) as [o|e]; [|intros [= _ <-]; reflexivity].
    destruct (OrderStatus_eqb (Status o) OrderStatusDeliveryPreparing);
      [|intros [= _ <-]; reflexivity].
    destruct (UpdateStatusWithVersion _ _ _ _ _) as [[b|e] d];
      intros [= _ <-]; eexists; reflexivity.
Qed.

(** The handlers of [PaymentFailed], [StockReservationFailed] and
    [DeliveryFailed] do not test the current status: when the order exists
    and the database answers, they write their target status over any
    status, a terminal one included. *)
Lemma failure_handlers_overwrite_any_status env ev id db o target :
  failure_target ev = Some target ->
  fail_FindByID env = false ->
  fail_UpdateStatus env = false ->
  find (fun x => ID x =? id) (orders db) = Some o ->
  Version o + 1 <= max_int64 ->
  fst (handle env ev id db) = None
  /\ status_of (snd (handle env ev id db)) id = Some target.
Proof.
  intros Ht Hf Hu Hfind Hv.
  assert (ID o = id) as Hid.
  { apply find_some in Hfind as [_ H]. apply Z.eqb_eq in H. exact H. }
  assert (forall st, UpdateStatusWithVersion env (ID o) st (Version o) db
            = (Ok (existsb (version_matches id (Version o)) (orders db)),
               set_orders db
                 (map (fun x => if version_matches id (Version o) x
                                then with_status st (now env) x else x) (orders db))))
    as Hup.
  { intros st. unfold UpdateStatusWithVersion.
    rewrite Hu, Hid, (no_overflow _ _ _ Hv). reflexivity. }
  assert (handle env ev id db
          = (None, set_orders db
               (map (fun x => if version_matches id (Version o) x
                              then with_status target (now env) x else x) (orders db))))
    as Hh.
  { destruct ev; try discriminate Ht; injection Ht as <-; simpl;
      unfold HandlePaymentFailed, HandleStockReservationFailed, HandleDeliveryFailed,
        FindByID;
      rewrite Hf, Hfind, Hup; reflexivity. }
  rewrite Hh. split; [reflexivity|]. simpl. unfold status_of, set_orders. cbn [orders].
  rewrite (find_after_update _ _ _ _ _ Hfind). reflexivity.
Qed.

(** C2 fails on the code.  [PaymentFailed] for a [COMPLETED] order, a pair
    the table does not list and a terminal status, moves the order to
    [CANCELED], a move [CanTransitionTo] of the domain model refuses;
    [StockReservationFailed] moves a [CANCELED] order and
    [DeliveryFailed] a [COMPLETED] one to [FAILED]; and [DeliveryFailed]
    moves a [PENDING] order to [FAILED]. *)
Theorem failure_events_overwrite_terminal_orders :
  (terminal OrderStatusCompleted = true
   /\ spec_transition OrderStatusCompleted PaymentFailed = None
   /\ CanTransitionTo (order_scenario.order_in OrderStatusCompleted) OrderStatusCanceled
      = false
   /\ status_of (order_scenario.order_db OrderStatusCompleted) 7 = Some OrderStatusCompleted
   /\ handle order_scenario.order_env PaymentFailed 7
          (order_scenario.order_db OrderStatusCompleted)
      = (None, {| orders := [with_status OrderStatusCanceled
                               (now order_scenario.order_env)
                               (order_scenario.order_in OrderStatusCompleted)];
                  orders_id_seq := 7; outbox_events := [];
                  outbox_events_id_seq := 0 |}))
  /\ (terminal OrderStatusCanceled = true
      /\ spec_transition OrderStatusCanceled StockReservationFailed = None
      /\ status_of (snd (handle order_scenario.order_env StockReservationFailed 7
                           (order_scenario.order_db OrderStatusCanceled))) 7
         = Some OrderStatusFailed)
  /\ (spec_transition OrderStatusCompleted DeliveryFailed = None
      /\ status_of (snd (handle order_scenario.order_env DeliveryFailed 7
                           (order_scenario.order_db OrderStatusCompleted))) 7
         = Some OrderStatusFailed)
  /\ (spec_transition OrderStatusPending DeliveryFailed = None
      /\ status_of (snd (handle order_scenario.order_env DeliveryFailed 7
                           (order_scenario.order_db OrderStatusPending))) 7
         = Some OrderStatusFailed).
Proof. vm_compute. repeat split; reflexivity. Qed.

End StateMachineProps.

(** ** The outbox write and the aggregate write *)

Module AtomicityProps.
Import ListFacts.

(** When [CreateOrder] inserts a row and returns success, the outbox row
    exists as well. *)
Lemma CreateOrder_commit_writes_both env cmd db r db1 :
  Order.existing_order env cmd db = None ->
  Order.CreateOrder env cmd db = (Ok r, db1) ->
  exists row event,
    Order.orders db1 = (Order.orders db ++ [row])%list
    /\ Order.outbox_events db1 = (Order.outbox_events db ++ [event])%list
    /\ Order.ID row = Order.res_OrderID r
    /\ AggregateID event = Order.ID row
    /\ OutboxEventType event = events.EventOrderCreated
    /\ OutboxStatus event = "PENDING".
Proof.
  intros Hnone. unfold Order.CreateOrder. rewrite Hnone.
  destruct (Order.cmd_Amount cmd <=? 0); [discriminate|].
  destruct (Order.cmd_Quantity cmd <=? 0); [discriminate|].
  unfold Order.BeginTx, Order.Create, Order.InsertTx, Order.Commit.
  destruct (Order.fail_BeginTx env); [discriminate|].
  destruct (Order.fail_Create env); [discriminate|].
  destruct (negb (in_int32 _)); [discriminate|].
  destruct (assign_varchar 64 _) as [key|e]; [|discriminate].
  destruct (existsb _ _); [discriminate|].
  destruct (Order.fail_InsertTx env); [discriminate|].
  destruct (Order.fail_Commit env); [discriminate|].
  intros [= <- <-]. do 2 eexists. cbn. repeat split; reflexivity.
Qed.

(** When the insert of the order passes (the quantity fits [INT], the
    column takes the key, no row has it) and the outbox insert or the
    commit fails, the order row stays and no outbox row exists. *)
Lemma CreateOrder_rollback_keeps_the_order env cmd db key :
  Order.existing_order env cmd db = None ->
  0 < Order.cmd_Amount cmd ->
  0 < Order.cmd_Quantity cmd ->
  Order.fail_BeginTx env = false ->
  Order.fail_Create env = false ->
  in_int32 (Order.cmd_Quantity cmd) = true ->
  assign_varchar 64 (Order.cmd_IdempotencyKey cmd) = Ok key ->
  Order.rows_with_key key db = [] ->
  Order.fail_InsertTx env = true \/ Order.fail_Commit env = true ->
  exists e row,
    fst (Order.CreateOrder env cmd db) = Err e
    /\ Order.orders (snd (Order.CreateOrder env cmd db)) = (Order.orders db ++ [row])%list
    /\ Order.IdempotencyKey row = key
    /\ Order.outbox_events (snd (Order.CreateOrder env cmd db)) = Order.outbox_events db.
Proof.
  intros Hnone Ha Hq Hb Hc Hint Hfit Hfresh Hfail. unfold Order.CreateOrder. rewrite Hnone.
  destruct (Z.leb_spec (Order.cmd_Amount cmd) 0); [lia|].
  destruct (Z.leb_spec (Order.cmd_Quantity cmd) 0); [lia|].
  unfold Order.BeginTx, Order.Create, Order.InsertTx, Order.Commit.
  rewrite Hb, Hc. cbn [Order.IdempotencyKey Order.Quantity]. rewrite Hint, Hfit.
  cbn [negb].
  unfold Order.rows_with_key in Hfresh. apply filter_nil_existsb in Hfresh.
  unfold Order.has_key in Hfresh. rewrite Hfresh.
  destruct (Order.fail_InsertTx env) eqn:Hi.
  - do 2 eexists. cbn. repeat split; reflexivity.
  - destruct Hfail as [?|Hcm]; [discriminate|]. rewrite Hcm.
    do 2 eexists. cbn. repeat split; reflexivity.
Qed.

(** C1 fails on the code.  [orderRepository.Create],
    [paymentRepository.Create] and [paymentRepository.UpdateStatus] send
    their statement through [r.db], outside the transaction that holds the
    outbox insert.  With a [tx.Commit] that fails, order creation leaves
    the order row and no outbox row; payment creation leaves the payment
    row and no outbox row; the refund leaves the payment [REFUNDED] and no
    [PaymentRefunded] row. *)
Theorem aggregate_write_survives_the_rollback :
  (let r := Order.CreateOrder order_scenario.order_env_commit_fails order_scenario.k1_command
              order_scenario.empty_order_db in
   is_ok (fst r) = false
   /\ map Order.IdempotencyKey (Order.orders (snd r)) = ["k1"]
   /\ Order.outbox_events (snd r) = [])
  /\ (let r := Payment.HandleOrderCreated payment_scenario.env_commit_fails
                 payment_scenario.order_created payment_scenario.empty_db in
      fst r <> None
      /\ map Payment.OrderID (Payment.payments (snd r)) = [7]
      /\ Payment.outbox_events (snd r) = [])
  /\ (let db := payment_scenario.paid_db in
      let r := Payment.HandleStockReservationFailed payment_scenario.env_commit_fails
                 payment_scenario.stock_reservation_failed db in
      fst r <> None
      /\ map Payment.Status (Payment.payments db) = [Payment.PaymentStatusCompleted]
      /\ map Payment.Status (Payment.payments (snd r)) = [Payment.PaymentStatusRefunded]
      /\ Payment.outbox_events (snd r) = Payment.outbox_events db).
Proof. vm_compute. repeat split; try reflexivity; discriminate. Qed.

End AtomicityProps.


(** ** Payment service: the unique index on the idempotency key *)

Module PaymentProps.
Import Payment.

(** C6, as the specification states it, fails: the lookup by key fails, the
    insert of the payment meets the row of the first delivery, and the
    handler does not return success. *)
Lemma unique_violation_is_not_success :
  key_taken (idempotency_key payment_scenario.order_created) payment_scenario.paid_db = true
  /\ ~ (fst (HandleOrderCreated payment_scenario.env_lookup_fails
                payment_scenario.order_created payment_scenario.paid_db) = None).
Proof. split; [reflexivity|]. vm_compute. discriminate. Qed.

(** C6, amended.  When a delivery gets past the lookup by key (the lookup
    returns an error), the gateway accepts and the insert of the payment
    hits the unique index, [HandleOrderCreated] returns a [DATABASE_ERROR]
    that wraps the unique violation; it adds no payment row and no outbox
    row. *)
Theorem unique_violation_is_returned_as_error env evt db :
  (forall p, FindByIdempotencyKey env (idempotency_key evt) db <> Ok p) ->
  fail_BeginTx env = false ->
  gateway_declines env = false ->
  fail_Create env = false ->
  key_taken (idempotency_key evt) db = true ->
  exists db1,
    HandleOrderCreated env evt db
    = (Some (errors.Wrap errors.ErrCodeDatabaseError "failed to create payment"
               (errors.Errorf "duplicate idempotency key: "
                  (errors.PqError unique_violation))), db1)
    /\ payments db1 = payments db
    /\ outbox_events db1 = outbox_events db.
Proof.
  intros Hgate Hb Hg Hc Htaken. unfold HandleOrderCreated.
  destruct (FindByIdempotencyKey env (idempotency_key evt) db) as [p|e] eqn:Hfind.
  { exfalso. exact (Hgate p eq_refl). }
  unfold BeginTx, processPayment, Create. rewrite Hb, Hg, Hc. cbn [IdempotencyKey].
  unfold key_taken in Htaken. rewrite Htaken.
  eexists. split; [reflexivity|]. split; reflexivity.
Qed.

Lemma unique_violation_is_returned_as_error_witness :
  exists db1,
    HandleOrderCreated payment_scenario.env_lookup_fails payment_scenario.order_created
      payment_scenario.paid_db
    = (Some (errors.Wrap errors.ErrCodeDatabaseError "failed to create payment"
               (errors.Errorf "duplicate idempotency key: "
                  (errors.PqError unique_violation))), db1)
    /\ payments db1 = payments payment_scenario.paid_db
    /\ outbox_events db1 = outbox_events payment_scenario.paid_db.
Proof.
  apply (unique_violation_is_returned_as_error payment_scenario.env_lookup_fails
           payment_scenario.order_created payment_scenario.paid_db).
  - intros p. discriminate.
  - reflexivity.
  - reflexivity.
  - reflexivity.
  - reflexivity.
Defined.

(** A delivery the lookup recognises returns success and writes nothing. *)
Lemma known_key_is_skipped env evt db p :
  FindByIdempotencyKey env (idempotency_key evt) db = Ok p ->
  HandleOrderCreated env evt db = (None, db).
Proof. intros H. unfold HandleOrderCreated. rewrite H. reflexivity. Qed.

End PaymentProps.


(** ** Inventory service *)

Module InventoryProps.
Import Inventory ListFacts.

Lemma update_inventory_sum t delta pid guard tb n tb' :
  update_inventory t delta pid guard tb = Ok (n, tb') ->
  forall p, sum_in tb' p = sum_in tb p.
Proof.
  unfold update_inventory. intros H p.
  destruct (inventory tb !! pid) as [row|] eqn:Hrow; [|injection H as _ <-; reflexivity].
  destruct (guard row); [|injection H as _ <-; reflexivity].
  destruct (_ && _); [|discriminate].
  injection H as _ <-. unfold sum_in, set_inventory. cbn [inventory].
  destruct (decide (pid = p)) as [->|Hne].
  - rewrite lookup_insert_eq, Hrow. cbn. f_equal. lia.
  - rewrite lookup_insert_ne by exact Hne. reflexivity.
Qed.

Lemma in_tx_sum {A} fail tx (stmt : Tables -> result (A * Tables)) a tx' :
  (forall tb x tb', stmt tb = Ok (x, tb') -> forall p, sum_in tb' p = sum_in tb p) ->
  in_tx fail tx stmt = (Ok a, tx') ->
  aborted tx' = false /\ forall p, sum_in (view tx') p = sum_in (view tx) p.
Proof.
  intros Hstmt. unfold in_tx.
  destruct (aborted tx); [discriminate|]. destruct fail; [discriminate|].
  destruct (stmt (view tx)) as [[x tb']|e] eqn:Hs; [|discriminate].
  intros [= <- <-]. split; [reflexivity|]. cbn. eapply Hstmt; eauto.
Qed.

Lemma InsertReservation_sum env o pid q key tx db id tx' db1 :
  InsertReservation env o pid q key tx db = (Ok id, tx', db1) ->
  tables db1 = tables db /\ forall p, sum_in (view tx') p = sum_in (view tx) p.
Proof.
  unfold InsertReservation.
  destruct (aborted tx); [discriminate|].
  destruct (fail_InsertReservation env); [discriminate|].
  destruct (assign_varchar 64 key) as [stored|e]; [|discriminate].
  destruct (existsb _ _); [discriminate|].
  intros [= _ <- <-]. split; reflexivity.
Qed.

Lemma InsertReservation_tables env o pid q key tx db r tx' db1 :
  InsertReservation env o pid q key tx db = (r, tx', db1) -> tables db1 = tables db.
Proof.
  unfold InsertReservation.
  destruct (aborted tx); [intros [= _ _ <-]; reflexivity|].
  destruct (fail_InsertReservation env); [intros [= _ _ <-]; reflexivity|].
  destruct (assign_varchar 64 key) as [stored|e]; [|intros [= _ _ <-]; reflexivity].
  destruct (existsb _ _); intros [= _ _ <-]; reflexivity.
Qed.

Lemma InsertOutbox_tables env at_ aid et pl tx db r tx' db1 :
  InsertOutbox env at_ aid et pl tx db = (r, tx', db1) -> tables db1 = tables db.
Proof.
  unfold InsertOutbox.
  destruct (aborted tx); [intros [= _ _ <-]; reflexivity|].
  destruct (fail_InsertOutbox env); intros [= _ _ <-]; reflexivity.
Qed.

Lemma InsertOutbox_sum env at_ aid et pl tx db u tx' db1 :
  InsertOutbox env at_ aid et pl tx db = (Ok u, tx', db1) ->
  forall p, sum_in (view tx') p = sum_in (view tx) p.
Proof.
  unfold InsertOutbox.
  destruct (aborted tx); [discriminate|].
  destruct (fail_InsertOutbox env); [discriminate|].
  intros [= _ <- _]. reflexivity.
Qed.

Lemma Commit_tables env tx db db' :
  Commit env tx db = Ok db' -> tables db' = view tx.
Proof.
  unfold Commit. destruct (fail_Commit env); [discriminate|].
  destruct (aborted tx); [discriminate|]. intros [= <-]. reflexivity.
Qed.

Lemma publishStockReservationFailed_sum env tx evt reason db err db' :
  (forall p, sum_in (view tx) p = sum_in (tables db) p) ->
  publishStockReservationFailed env tx evt reason db = (err, db') ->
  forall p, sum_in (tables db') p = sum_in (tables db) p.
Proof.
  intros Hview. unfold publishStockReservationFailed.
  destruct (InsertOutbox _ _ _ _ _ _ _) as [[[u|e] tx1] db1] eqn:Hins.
  - pose proof (InsertOutbox_tables _ _ _ _ _ _ _ _ _ _ Hins) as Ht.
    pose proof (InsertOutbox_sum _ _ _ _ _ _ _ _ _ _ Hins) as Hs.
    destruct (Commit env tx1 db1) as [db2|e] eqn:Hc.
    + intros [= _ <-] p. rewrite (Commit_tables _ _ _ _ Hc), Hs. apply Hview.
    + intros [= _ <-] p. rewrite Ht. reflexivity.
  - pose proof (InsertOutbox_tables _ _ _ _ _ _ _ _ _ _ Hins) as Ht.
    intros [= _ <-] p. rewrite Ht. reflexivity.
Qed.

Lemma SelectInventory_view env pid tx r tx' :
  SelectInventory env pid tx = (r, tx') -> view tx' = view tx.
Proof.
  unfold SelectInventory.
  destruct (aborted tx); [intros [= _ <-]; reflexivity|].
  destruct (fail_SelectInventory env); [intros [= _ <-]; reflexivity|].
  destruct (_ !! _); intros [= _ <-]; reflexivity.
Qed.

Lemma BeginTx_view env db tx : BeginTx env db = Ok tx -> view tx = tables db.
Proof. unfold BeginTx. destruct (fail_BeginTx env); [discriminate|]. intros [= <-]. reflexivity. Qed.

Lemma HandlePaymentCompleted_sum env evt db p :
  quantity_sum (snd (HandlePaymentCompleted env evt db)) p = quantity_sum db p.
Proof.
  unfold quantity_sum.
  revert p. unfold HandlePaymentCompleted.
  destruct (QueryReservationByKey _ _ _) as [id0|e0]; [reflexivity|].
  destruct (BeginTx env db) as [tx|e1] eqn:Hb; [|reflexivity].
  apply BeginTx_view in Hb.
  destruct (SelectInventory env 1 tx) as [[[a v]|e2] tx1] eqn:Hsel;
    apply SelectInventory_view in Hsel.
  2:{ destruct (publishStockReservationFailed _ _ _ _ _) as [err db'] eqn:Hp.
      eapply publishStockReservationFailed_sum; [|exact Hp]. rewrite Hsel, Hb. reflexivity. }
  destruct (a <? 1).
  { destruct (publishStockReservationFailed _ _ _ _ _) as [err db'] eqn:Hp.
    eapply publishStockReservationFailed_sum; [|exact Hp]. rewrite Hsel, Hb. reflexivity. }
  destruct (in_tx _ tx1 _) as [[n|e3] tx2] eqn:Hup; [|reflexivity].
  apply in_tx_sum in Hup as [_ Hup]; [|intros; eapply update_inventory_sum; eauto].
  destruct (n =? 0).
  { destruct (publishStockReservationFailed _ _ _ _ _) as [err db'] eqn:Hp.
    eapply publishStockReservationFailed_sum; [|exact Hp].
    intros p. rewrite Hup, Hsel, Hb. reflexivity. }
  destruct (InsertReservation _ _ _ _ _ _ _) as [[[id|e4] tx3] db1] eqn:Hres.
  2:{ intros p. cbn. rewrite (InsertReservation_tables _ _ _ _ _ _ _ _ _ _ Hres). reflexivity. }
  apply InsertReservation_sum in Hres as [Ht1 Hs3].
  destruct (InsertOutbox _ _ _ _ _ _ _) as [[[u|e5] tx4] db2] eqn:Hins.
  2:{ intros p. cbn. rewrite (InsertOutbox_tables _ _ _ _ _ _ _ _ _ _ Hins), Ht1. reflexivity. }
  pose proof (InsertOutbox_tables _ _ _ _ _ _ _ _ _ _ Hins) as Ht2.
  pose proof (InsertOutbox_sum _ _ _ _ _ _ _ _ _ _ Hins) as Hs4.
  destruct (Commit env tx4 db2) as [db3|e6] eqn:Hc.
  - intros p. cbn. rewrite (Commit_tables _ _ _ _ Hc), Hs4, Hs3, Hup, Hsel, Hb. reflexivity.
  - intros p. cbn. rewrite Ht2, Ht1. reflexivity.
Qed.

Lemma CancelReservation_sum env id tx u tx' :
  CancelReservation env id tx = (Ok u, tx') ->
  forall p, sum_in (view tx') p = sum_in (view tx) p.
Proof.
  unfold CancelReservation. intros H.
  apply in_tx_sum in H as [_ H]; [exact H|].
  intros tb x tb' [= _ <-] p. reflexivity.
Qed.

Lemma HandlePaymentRefunded_sum env evt db p :
  quantity_sum (snd (HandlePaymentRefunded env evt db)) p = quantity_sum db p.
Proof.
  unfold quantity_sum.
  revert p. unfold HandlePaymentRefunded.
  destruct (QueryActiveReservation _ _ _) as [r|e0]; [|reflexivity].
  destruct (BeginTx env db) as [tx|e2] eqn:Hb; [|reflexivity].
  apply BeginTx_view in Hb.
  destruct (in_tx _ tx _) as [[n|e3] tx2] eqn:Hup; [|reflexivity].
  apply in_tx_sum in Hup as [_ Hup]; [|intros; eapply update_inventory_sum; eauto].
  destruct (CancelReservation env (ID r) tx2) as [[u|e4] tx3] eqn:Hcan; [|reflexivity].
  pose proof (CancelReservation_sum _ _ _ _ _ Hcan) as Hs3.
  destruct (InsertOutbox _ _ _ _ _ _ _) as [[[u'|e5] tx4] db1] eqn:Hins.
  2:{ intros p. cbn. rewrite (InsertOutbox_tables _ _ _ _ _ _ _ _ _ _ Hins). reflexivity. }
  pose proof (InsertOutbox_tables _ _ _ _ _ _ _ _ _ _ Hins) as Ht2.
  pose proof (InsertOutbox_sum _ _ _ _ _ _ _ _ _ _ Hins) as Hs4.
  destruct (Commit env tx4 db1) as [db2|e6] eqn:Hc.
  - intros p. cbn. rewrite (Commit_tables _ _ _ _ Hc), Hs4, Hs3, Hup, Hb. reflexivity.
  - intros p. cbn. rewrite Ht2. reflexivity.
Qed.

Lemma consume_sum ev db p : quantity_sum (consume ev db) p = quantity_sum db p.
Proof.
  destruct ev; simpl; [apply HandlePaymentCompleted_sum | apply HandlePaymentRefunded_sum].
Qed.

Lemma consume_all_sum evs db p : quantity_sum (consume_all evs db) p = quantity_sum db p.
Proof.
  unfold consume_all. revert db.
  induction evs as [|ev evs IH]; intros db; simpl; [reflexivity|].
  rewrite IH. apply consume_sum.
Qed.

(** C7.  Take any database, consume a [PaymentCompleted], then any events,
    then a [PaymentRefunded]: for every product, [availableQty +
    reservedQty] is what it was before the [PaymentCompleted].  (Every
    handler moves a quantity between the two columns or leaves them alone;
    this holds whether or not a reservation is active and whatever the
    driver fails.) *)
Theorem refund_restores_the_quantity_sum envC evtC between envR evtR db p :
  quantity_sum
    (consume_all ([PaymentCompleted envC evtC] ++ between ++ [PaymentRefunded envR evtR]) db) p
  = quantity_sum db p.
Proof. apply consume_all_sum. Qed.


(** C5, as the specification states it, fails: for an order of 5 units of
    product 1, with 100 units available, the handler does not move 5
    units. *)
Lemma requested_amount_is_not_reserved :
  ~ reserves_the_requested_amount inventory_scenario.env
      inventory_scenario.payment_completed inventory_scenario.sample_db 1 5.
Proof.
  intros H.
  destruct (H (inventory_scenario.stocked 100) eq_refl) as [_ Hres].
  destruct Hres as (row' & Hl & Ha & _); [simpl; lia|].
  vm_compute in Hl. injection Hl as <-. vm_compute in Ha. discriminate.
Qed.

Lemma emitted_app row (db db' : DB) :
  outbox_events (tables db') = (outbox_events (tables db) ++ [row])%list ->
  emitted db db' = [row].
Proof.
  intros H. unfold emitted. rewrite H.
  rewrite skipn_app, skipn_all, Nat.sub_diag. reflexivity.
Qed.

(** C5, amended.  [HandlePaymentCompleted] reserves one unit of product 1
    whatever the order asks for.  For an event not yet applied whose key
    [stock-reservation-<orderId>-<eventId>] has at most 64 characters, a
    row of product 1 within the range of its columns and a driver that does
    not fail: the [StockReservationFailed] event with reason "insufficient
    stock" is written if and only if [availableQty < 1], and then the
    inventory is unchanged; otherwise [availableQty] of product 1 goes down
    by 1, [reservedQty] up by 1 and [version] up by 1, and no other row
    changes. *)
Theorem reserves_one_unit_of_product_one env evt db row :
  healthy env = true ->
  (length (chars (idempotency_key evt)) <= 64)%nat ->
  find (fun r => String.eqb (IdempotencyKey r) (idempotency_key evt))
       (stock_reservations (tables db)) = None ->
  inventory (tables db) !! 1 = Some row ->
  in_int32 (AvailableQuantity row) = true ->
  in_int32 (ReservedQuantity row + 1) = true ->
  Version row + 1 <= max_int64 ->
  let db' := snd (HandlePaymentCompleted env evt db) in
  (emits_failure "insufficient stock" db db' = true <-> AvailableQuantity row < 1)
  /\ (AvailableQuantity row < 1 -> inventory (tables db') = inventory (tables db))
  /\ (1 <= AvailableQuantity row ->
      inventory (tables db') = <[1 := reserved_row env row]> (inventory (tables db))).
Proof.
  intros Hh Hlen Hfresh Hrow Ha Hr Hv.
  unfold healthy in Hh. apply negb_true_iff in Hh.
  repeat (apply orb_false_iff in Hh as [Hh ?]).
  unfold HandlePaymentCompleted, QueryReservationByKey, BeginTx, SelectInventory.
  rewrite Hh, Hfresh. rewrite H5. cbn [aborted view].
  rewrite H4, Hrow.
  destruct (Z.ltb_spec (AvailableQuantity row) 1) as [Hlt|Hge].
  - unfold publishStockReservationFailed, InsertOutbox, Commit. cbn [aborted view].
    rewrite H0, H. cbn [snd tables inventory].
    split; [|split; [reflexivity|lia]].
    split; [intros _; exact Hlt|intros _].
    unfold emits_failure. erewrite emitted_app; [|reflexivity].
    reflexivity.
  - unfold in_tx, update_inventory. cbn [aborted view]. rewrite H3, Hrow, Z.eqb_refl.
    assert (in_int32 (AvailableQuantity row + - (1)) = true) as ->.
    { unfold in_int32, min_int32, max_int32 in *.
      apply andb_true_iff in Ha as [? ?]. apply andb_true_iff. split; lia. }
    assert (ReservedQuantity row - - (1) = ReservedQuantity row + 1) as -> by lia.
    rewrite Hr. assert ((Version row + 1 <=? max_int64) = true) as -> by (apply Z.leb_le; exact Hv).
    cbn [andb Z.eqb]. unfold InsertReservation. cbn [aborted view set_inventory stock_reservations].
    rewrite H2, (short_text_is_stored 64 _ Hlen), (find_none_existsb _ _ Hfresh).
    unfold InsertOutbox, Commit. cbn [aborted view]. rewrite H0, H. cbn [snd tables inventory].
    split; [|split; [lia|]].
    + split; [|lia]. unfold emits_failure.
      erewrite emitted_app; [|reflexivity]. cbn. discriminate.
    + intros _. unfold reserved_row. f_equal.
Qed.

Lemma reserves_one_unit_of_product_one_witness :
  let db' := snd (HandlePaymentCompleted inventory_scenario.env
                    inventory_scenario.payment_completed inventory_scenario.sample_db) in
  (emits_failure "insufficient stock" inventory_scenario.sample_db db' = true
   <-> AvailableQuantity (inventory_scenario.stocked 100) < 1)
  /\ (AvailableQuantity (inventory_scenario.stocked 100) < 1 ->
      inventory (tables db') = inventory (tables inventory_scenario.sample_db))
  /\ (1 <= AvailableQuantity (inventory_scenario.stocked 100) ->
      inventory (tables db')
      = <[1 := reserved_row inventory_scenario.env (inventory_scenario.stocked 100)]>
          (inventory (tables inventory_scenario.sample_db))).
Proof.
  apply (reserves_one_unit_of_product_one inventory_scenario.env
           inventory_scenario.payment_completed inventory_scenario.sample_db
           (inventory_scenario.stocked 100)).
  - reflexivity.
  - vm_compute. lia.
  - reflexivity.
  - reflexivity.
  - reflexivity.
  - reflexivity.
  - vm_compute. discriminate.
Defined.

(** The restore step: with an active reservation of [q] units, a driver
    that does not fail and columns that do not overflow, [HandlePaymentRefunded]
    adds [q] to [availableQty] and takes [q] from [reservedQty] of the
    reserved product. *)
Lemma refund_moves_the_quantity_back env evt db r row :
  healthy env = true ->
  QueryActiveReservation env (pr_OrderID evt) db = Ok r ->
  inventory (tables db) !! ProductID r = Some row ->
  in_int32 (AvailableQuantity row + Quantity r) = true ->
  in_int32 (ReservedQuantity row - Quantity r) = true ->
  Version row + 1 <= max_int64 ->
  fst (HandlePaymentRefunded env evt db) = None
  /\ inventory (tables (snd (HandlePaymentRefunded env evt db)))
     = <[ProductID r := {| AvailableQuantity := AvailableQuantity row + Quantity r;
                           ReservedQuantity := ReservedQuantity row - Quantity r;
                           Version := Version row + 1;
                           UpdatedAt := now env |}]> (inventory (tables db)).
Proof.
  intros Hh Hres Hrow Ha Hr Hv.
  unfold healthy in Hh. apply negb_true_iff in Hh.
  repeat (apply orb_false_iff in Hh as [Hh ?]).
  unfold HandlePaymentRefunded. rewrite Hres.
  unfold BeginTx, in_tx, update_inventory, CancelReservation, in_tx, InsertOutbox, Commit.
  rewrite H5. cbn [aborted view]. rewrite H3, Hrow, Ha, Hr.
  assert ((Version row + 1 <=? max_int64) = true) as -> by (apply Z.leb_le; exact Hv).
  cbn [andb aborted view]. rewrite H1. cbn [aborted view]. rewrite H0, H.
  split; reflexivity.
Qed.

(** Scenario S1 followed by a refund: product 1 goes from 100/0 to 99/1 and
    back to 100/0, and the reservation ends [CANCELED]. *)
Example reserve_then_restore :
  let db1 := snd (HandlePaymentCompleted inventory_scenario.env
                    inventory_scenario.payment_completed inventory_scenario.sample_db) in
  let db2 := snd (HandlePaymentRefunded inventory_scenario.env
                    inventory_scenario.payment_refunded db1) in
  (option_map (fun r => (AvailableQuantity r, ReservedQuantity r))
     (inventory (tables db1) !! 1) = Some (99, 1))
  /\ (option_map (fun r => (AvailableQuantity r, ReservedQuantity r))
        (inventory (tables db2) !! 1) = Some (100, 0))
  /\ map Status (stock_reservations (tables db2)) = [CANCELED].
Proof. vm_compute. repeat split; reflexivity. Qed.

End InventoryProps.


(** ** The consumer loop *)

Module MessagingProps.
Import messaging.

Section ConsumerProps.
Context {S : Type} (handler : Message -> S -> option error * S).

Lemma ConsumeClaim_app claim : forall st session,
  snd (ConsumeClaim handler claim st session)
  = (session ++ snd (ConsumeClaim handler claim st []))%list.
Proof.
  induction claim as [|m rest IH]; intros st session; simpl.
  - symmetry. apply app_nil_r.
  - destruct (handler m st) as [err st1].
    rewrite IH. rewrite (IH st1 [HandlerReturned m err; MarkMessage m]).
    rewrite <- !app_assoc. reflexivity.
Qed.

Lemma ConsumeClaim_cons m rest st :
  snd (ConsumeClaim handler (m :: rest) st [])
  = HandlerReturned m (fst (handler m st)) :: MarkMessage m
      :: snd (ConsumeClaim handler rest (snd (handler m st)) []).
Proof.
  simpl. destruct (handler m st) as [err st1]. rewrite ConsumeClaim_app. reflexivity.
Qed.

(** C3, amended.  [ConsumeClaim] marks every message of the claim, in
    order, each directly after its handler returned and never before,
    whether the handler returned an error or not: a message whose handler
    failed is marked too. *)
Theorem every_message_is_marked_after_its_handler_returns claim st :
  let session := snd (ConsumeClaim handler claim st []) in
  marked session = claim
  /\ mark_follows_return session
  /\ forall m, In m (failed session) -> In m (marked session).
Proof.
  cbv zeta.
  assert (marked (snd (ConsumeClaim handler claim st [])) = claim
          /\ mark_follows_return (snd (ConsumeClaim handler claim st []))
          /\ incl (failed (snd (ConsumeClaim handler claim st []))) claim) as H.
  { revert st. induction claim as [|m rest IH]; intros st.
    - simpl. repeat split. intros x Hx. exact Hx.
    - rewrite ConsumeClaim_cons. destruct (IH (snd (handler m st))) as (Hm & Ho & Hf).
      split; [|split].
      + simpl. f_equal. exact Hm.
      + simpl. split; [reflexivity|exact Ho].
      + simpl. destruct (fst (handler m st)); simpl.
        * intros x [<-|Hx]; [left; reflexivity|right; apply Hf, Hx].
        * intros x Hx. right. apply Hf, Hx. }
  destruct H as (Hm & Ho & Hf). split; [exact Hm|]. split; [exact Ho|].
  intros m Hin. rewrite Hm. apply Hf, Hin.
Qed.
End ConsumerProps.

(** C3, as the specification states it, fails: the handler returns an
    error for the message and the message is marked all the same. *)
Lemma failed_message_is_marked :
  let session := snd (ConsumeClaim bus_scenario.failing_handler [bus_scenario.message] tt []) in
  ~ (forall m, In m (failed session) -> ~ In m (marked session)).
Proof.
  cbv zeta. intros H. apply (H bus_scenario.message); simpl; left; reflexivity.
Qed.

End MessagingProps.


(** ** The outbox relays *)

Module WorkerProps.
Import worker ListFacts.

Lemma lead_byte_not_decimal x :
  0 <= x < 64 ->
  decimal_start (byte (Z.lor 192 x)) = false
  /\ decimal_start (byte (Z.lor 224 x)) = false
  /\ decimal_start (byte (Z.lor 240 x)) = false.
Proof.
  intros Hx.
  pose proof (Z_range_forall
    (fun x => negb (decimal_start (byte (Z.lor 192 x)))
              && negb (decimal_start (byte (Z.lor 224 x)))
              && negb (decimal_start (byte (Z.lor 240 x)))) 64 eq_refl x Hx) as H.
  cbv beta in H. apply andb_true_iff in H as [H H3]. apply andb_true_iff in H as [H1 H2].
  apply negb_true_iff in H1, H2, H3. auto.
Qed.

(** A rune renders as one byte, or starts with a byte no decimal starts
    with. *)
Lemma string_of_rune_shape r :
  (exists c, string_of_rune r = String c "")
  \/ (exists c s, string_of_rune r = String c s /\ decimal_start c = false).
Proof.
  unfold string_of_rune.
  destruct ((r <? 0) || (1114111 <? r) || ((55296 <=? r) && (r <=? 57343))) eqn:Hbad.
  { right. do 2 eexists. split; [reflexivity|]. reflexivity. }
  apply orb_false_iff in Hbad as [Hbad _]. apply orb_false_iff in Hbad as [H0 Hmax].
  apply Z.ltb_ge in H0, Hmax.
  destruct (Z.ltb_spec r 128); [left; eexists; reflexivity|].
  right. unfold bytes. cbn [fold_right].
  destruct (Z.ltb_spec r 2048).
  { do 2 eexists. split; [reflexivity|].
    apply lead_byte_not_decimal. rewrite Z.shiftr_div_pow2 by lia.
    change (2 ^ 6) with 64. split; [apply Z.div_pos; lia|apply Z.div_lt_upper_bound; lia]. }
  destruct (Z.ltb_spec r 65536).
  { do 2 eexists. split; [reflexivity|].
    apply lead_byte_not_decimal. rewrite Z.shiftr_div_pow2 by lia.
    change (2 ^ 12) with 4096. split; [apply Z.div_pos; lia|apply Z.div_lt_upper_bound; lia]. }
  do 2 eexists. split; [reflexivity|].
  apply lead_byte_not_decimal. rewrite Z.shiftr_div_pow2 by lia.
  change (2 ^ 18) with 262144. split; [apply Z.div_pos; lia|apply Z.div_lt_upper_bound; lia].
Qed.

Lemma string_of_uint_nonempty d : exists c s, NilZero.string_of_uint d = String c s /\ decimal_start c = true.
Proof. destruct d; do 2 eexists; (split; [reflexivity|reflexivity]). Qed.

(** Outside 0..9 a decimal has at least two bytes, the first a sign or a
    digit. *)
Lemma FormatInt_shape n :
  ~ 0 <= n <= 9 ->
  exists c1 c2 s, FormatInt n = String c1 (String c2 s) /\ decimal_start c1 = true.
Proof.
  intros Hn. unfold FormatInt.
  pose proof (DecimalZ.of_to n) as Hof.
  destruct (Z.to_int n) as [d|d].
  - destruct d as [|d|d|d|d|d|d|d|d|d|d];
      try (exfalso; apply Hn; rewrite <- Hof; vm_compute; split; discriminate);
      (destruct d as [|d|d|d|d|d|d|d|d|d|d];
       [exfalso; apply Hn; rewrite <- Hof; vm_compute; split; discriminate
       | do 3 eexists; split; reflexivity ..]).
  - destruct (string_of_uint_nonempty d) as (c & s & Hs & _).
    cbn [NilZero.string_of_int]. rewrite Hs. do 3 eexists. split; reflexivity.
Qed.

(** The key [publishEvent] computes is never the decimal rendering of the
    order id. *)
Lemma rune_string_is_never_the_decimal n :
  string_of_rune (rune n) <> FormatInt n.
Proof.
  intros Heq.
  destruct (Z_le_dec 0 n) as [H0|H0]; [destruct (Z_le_dec n 9) as [H9|H9]|].
  - pose proof (Z_range_forall
        (fun k => negb (String.eqb (string_of_rune (rune k)) (FormatInt k)))
        10 eq_refl n) as Hsmall.
    cbv beta in Hsmall. rewrite Heq, String.eqb_refl in Hsmall.
    discriminate Hsmall. lia.
  - destruct (FormatInt_shape n) as (c1 & c2 & s & Hf & Hc); [lia|].
    rewrite Hf in Heq.
    destruct (string_of_rune_shape (rune n)) as [[c Hs]|(c & s' & Hs & Hc')];
      rewrite Hs in Heq; [discriminate|].
    injection Heq as -> _. congruence.
  - destruct (FormatInt_shape n) as (c1 & c2 & s & Hf & Hc); [lia|].
    rewrite Hf in Heq.
    destruct (string_of_rune_shape (rune n)) as [[c Hs]|(c & s' & Hs & Hc')];
      rewrite Hs in Heq; [discriminate|].
    injection Heq as -> _. congruence.
Qed.


(** What [publishEvent] sends for a row that concerns order [oid]: the key
    is the rune conversion of the id, which is not its decimal rendering. *)
Lemma publishEvent_key send_fails event bus oid :
  order_id_of event = Some oid ->
  send_fails {| messaging.pm_Topic := OutboxEventType event;
                messaging.pm_Key := string_of_rune (rune oid);
                messaging.pm_Value := Payload event |} = false ->
  publishEvent send_fails event bus
  = (None, (bus ++ [{| messaging.pm_Topic := OutboxEventType event;
                       messaging.pm_Key := string_of_rune (rune oid);
                       messaging.pm_Value := Payload event |}])%list)
  /\ string_of_rune (rune oid) <> FormatInt oid.
Proof.
  intros Hid Hsend. split; [|apply rune_string_is_never_the_decimal].
  unfold order_id_of in Hid. unfold publishEvent, Unmarshal, partition_key.
  destruct (Payload event) as [| | | | |fields]; try discriminate Hid.
  destruct (map_index fields "orderId") as [[| |n| | |]|]; try discriminate Hid.
  injection Hid as ->. unfold messaging.Publish. rewrite Hsend. reflexivity.
Qed.

(** The relay of the payment service sends every row with the empty key. *)
Lemma payment_relay_key_is_empty env send_fails rows : forall db bus m,
  In m (snd (Payment.relay_rows env send_fails rows db bus)) ->
  In m bus \/ messaging.pm_Key m = "".
Proof.
  induction rows as [|row rows IH]; intros db bus m; simpl; [auto|].
  destruct (Payment.fail_Scan env (OutboxID row)); [apply IH|].
  unfold messaging.Publish.
  destruct (send_fails _).
  - apply IH.
  - intros Hin. apply IH in Hin as [Hin|Hk]; [|right; exact Hk].
    apply in_app_or in Hin as [Hin|[<-|[]]]; [left; exact Hin|right; reflexivity].
Qed.

(** The same of a tick of [startOutboxWorker], whatever the driver fails. *)
Lemma payment_tick_key_is_empty env send_fails db bus m :
  In m (snd (Payment.startOutboxWorker_tick env send_fails db bus)) ->
  In m bus \/ messaging.pm_Key m = "".
Proof.
  unfold Payment.startOutboxWorker_tick.
  destruct (Payment.fail_QueryPending env); [simpl; auto|].
  apply payment_relay_key_is_empty.
Qed.

(** [PublishWithOrderID], which no relay calls, does send the decimal
    rendering. *)
Lemma PublishWithOrderID_key send_fails topic orderID event bus m :
  In m (snd (messaging.PublishWithOrderID send_fails topic orderID event bus)) ->
  In m bus \/ messaging.pm_Key m = FormatInt orderID.
Proof.
  unfold messaging.PublishWithOrderID, messaging.Publish.
  destruct (send_fails _); simpl; [auto|].
  intros Hin. apply in_app_or in Hin as [Hin|[<-|[]]]; [left; exact Hin|right; reflexivity].
Qed.

(** C4 fails on the code.  The relay of the order service publishes the
    [OrderCreated] row of order 65 with the key "A" (the rune conversion of
    65) and not "65"; the relay of the payment service publishes the
    [PaymentCompleted] row of order 7 with the empty key and not "7". *)
Theorem relay_keys_are_not_the_decimal_order_id :
  let created := snd (Order.CreateOrder order_scenario.order_env order_scenario.k1_command
                        order_scenario.purged_order_db) in
  let paid := payment_scenario.paid_db in
  ((exists rows,
      Order.FindPending order_scenario.order_env 100 created = Ok rows
      /\ map order_id_of rows = [Some 65])
   /\ fst (process order_scenario.order_env bus_scenario.never_fails created []) = None
   /\ map messaging.pm_Key
        (snd (snd (process order_scenario.order_env bus_scenario.never_fails created [])))
      = ["A"]
   /\ FormatInt 65 = "65")
  /\ (map order_id_of (select_pending 100 (Payment.outbox_events paid)) = [Some 7]
      /\ map messaging.pm_Key
           (snd (Payment.startOutboxWorker_tick payment_scenario.env
                   bus_scenario.never_fails paid []))
         = [""]
      /\ FormatInt 7 = "7").
Proof.
  cbv zeta. split.
  - split; [eexists; split; vm_compute; reflexivity|].
    vm_compute. repeat split; reflexivity.
  - vm_compute. repeat split; reflexivity.
Qed.
End WorkerProps.

(** ** Errors: the two classes *)

Module ErrorProps.

(** X1.  No error is both retryable and a business error, and only a
    [*DomainError] at the top is either: an error built by [fmt.Errorf],
    whatever it wraps, is neither. *)
Theorem error_classes_are_disjoint (e : error) :
  (errors.IsRetryable e && errors.IsBusinessError e = false)
  /\ (forall text cause,
        errors.IsRetryable (errors.Errorf text cause) = false
        /\ errors.IsBusinessError (errors.Errorf text cause) = false).
Proof.
  split; [|intros; split; reflexivity].
  destruct e as [| | | | |c m cause]; try reflexivity. destruct c; reflexivity.
Qed.

(** X2.  Every error of [CreateOrder] is classified.  It is the business
    error [INVALID_ORDER], with nothing written, exactly on the validation
    path; every other error, the violation of the unique key included, is a
    [DATABASE_ERROR] and so counts as retryable. *)
Theorem CreateOrder_errors_are_classified env cmd db e db1 :
  Order.CreateOrder env cmd db = (Err e, db1) ->
  (errors.IsBusinessError e = true /\ errors.IsRetryable e = false /\ db1 = db
   /\ (Order.cmd_Amount cmd <= 0 \/ Order.cmd_Quantity cmd <= 0))
  \/ (errors.IsRetryable e = true /\ errors.IsBusinessError e = false
      /\ 0 < Order.cmd_Amount cmd /\ 0 < Order.cmd_Quantity cmd).
Proof.
  unfold Order.CreateOrder.
  destruct (Order.existing_order env cmd db); [discriminate|].
  destruct (Z.leb_spec (Order.cmd_Amount cmd) 0).
  { intros [= <- <-]. left. repeat split; auto. }
  destruct (Z.leb_spec (Order.cmd_Quantity cmd) 0).
  { intros [= <- <-]. left. repeat split; auto. }
  destruct (Order.BeginTx env); [|intros [= <- <-]; right; repeat split; auto].
  destruct (Order.Create env _ db) as [[o|e1] d1];
    [|intros [= <- <-]; right; repeat split; auto].
  destruct (Order.InsertTx env _ _ d1) as [[[tx1 row]|e2] d2];
    [|intros [= <- <-]; right; repeat split; auto].
  destruct (Order.Commit env tx1 d2); [discriminate|].
  intros [= <- <-]; right; repeat split; auto.
Qed.

Lemma CreateOrder_errors_are_classified_witness :
  (errors.IsBusinessError
     (errors.New errors.ErrCodeInvalidOrder "amount must be positive") = true
   /\ errors.IsRetryable
        (errors.New errors.ErrCodeInvalidOrder "amount must be positive") = false
   /\ order_scenario.empty_order_db = order_scenario.empty_order_db
   /\ (Order.cmd_Amount extra_scenario.k2_invalid_command <= 0
       \/ Order.cmd_Quantity extra_scenario.k2_invalid_command <= 0))
  \/ (errors.IsRetryable
        (errors.New errors.ErrCodeInvalidOrder "amount must be positive") = true
      /\ errors.IsBusinessError
           (errors.New errors.ErrCodeInvalidOrder "amount must be positive") = false
      /\ 0 < Order.cmd_Amount extra_scenario.k2_invalid_command
      /\ 0 < Order.cmd_Quantity extra_scenario.k2_invalid_command).
Proof.
  apply (CreateOrder_errors_are_classified order_scenario.order_env
           extra_scenario.k2_invalid_command order_scenario.empty_order_db).
  reflexivity.
Defined.

(** X3.  The errors of the six event handlers of the order service are
    built by [fmt.Errorf]: they are in neither class. *)
Theorem handler_errors_are_unclassified env ev id db e :
  fst (Order.handle env ev id db) = Some e ->
  errors.IsRetryable e = false /\ errors.IsBusinessError e = false.
Proof.
  destruct ev; simpl;
    unfold Order.HandlePaymentCompleted, Order.HandlePaymentFailed,
      Order.HandleStockReserved, Order.HandleStockReservationFailed,
      Order.HandleDeliveryStarted, Order.HandleDeliveryFailed;
    (destruct (Order.FindByID env id db) as [o|e0];
     [|intros [= <-]; split; reflexivity]);
    try (destruct (Order.OrderStatus_eqb _ _); [|discriminate]);
    (destruct (Order.UpdateStatusWithVersion _ _ _ _ _) as [[b|e1] d];
     [discriminate|intros [= <-]; split; reflexivity]).
Qed.

Lemma handler_errors_are_unclassified_witness :
  errors.IsRetryable
    (errors.Errorf "order not found: " (errors.ErrorString "order not found: 9")) = false
  /\ errors.IsBusinessError
       (errors.Errorf "order not found: " (errors.ErrorString "order not found: 9")) = false.
Proof.
  apply (handler_errors_are_unclassified order_scenario.order_env Order.PaymentFailed 9
           order_scenario.empty_order_db).
  reflexivity.
Defined.

End ErrorProps.

(** ** Order service: the domain model and the repository *)

Module OrderExtraProps.
Import Order ListFacts.

Lemma TransitionTo_forward t o s :
  (forall o', TransitionTo t o s = (true, o') ->
     (rank (Status o) < rank s)%nat
     /\ Status o' = s /\ UpdatedAt o' = t
     /\ ID o' = ID o /\ Version o' = Version o /\ Amount o' = Amount o
     /\ Quantity o' = Quantity o /\ UserID o' = UserID o
     /\ IdempotencyKey o' = IdempotencyKey o /\ CreatedAt o' = CreatedAt o)
  /\ (forall o', TransitionTo t o s = (false, o') -> o' = o)
  /\ (terminal (Status o) = true -> TransitionTo t o s = (false, o)).
Proof.
  unfold TransitionTo, CanTransitionTo. split; [|split].
  - intros o'. destruct o as [i u a q st v k c up]. cbn [Status].
    destruct st, s; cbn; try discriminate; intros [= <-]; cbn; repeat split; lia.
  - intros o'. destruct (negb _); [|discriminate]. intros [= <-]. reflexivity.
  - destruct (Status o); cbn; try discriminate; reflexivity.
Qed.

(** X4.  [TransitionTo] only moves forward along PENDING,
    PAYMENT_PROCESSING, STOCK_RESERVING, DELIVERY_PREPARING, terminal: a
    call that returns [true] raises the rank of the status and changes
    nothing but the status and [UpdatedAt]; a call that returns [false]
    leaves the order as it is; and every call on a terminal status returns
    [false]. *)
Theorem TransitionTo_moves_forward t o s :
  (forall o', TransitionTo t o s = (true, o') ->
     (rank (Status o) < rank s)%nat
     /\ Status o' = s /\ UpdatedAt o' = t
     /\ ID o' = ID o /\ Version o' = Version o /\ Amount o' = Amount o
     /\ Quantity o' = Quantity o /\ UserID o' = UserID o
     /\ IdempotencyKey o' = IdempotencyKey o /\ CreatedAt o' = CreatedAt o)
  /\ (forall o', TransitionTo t o s = (false, o') -> o' = o)
  /\ (terminal (Status o) = true -> TransitionTo t o s = (false, o)).
Proof. exact (TransitionTo_forward t o s). Qed.

Lemma transition_all_bound t targets : forall o,
  (fst (transition_all t o targets) + rank (Status o) <= 4)%nat.
Proof.
  induction targets as [|s rest IH]; intros o; simpl.
  - destruct (Status o); simpl; lia.
  - destruct (TransitionTo t o s) as [ok o1] eqn:Ht.
    specialize (IH o1). destruct (transition_all t o1 rest) as [n o2]. simpl in *.
    destruct ok.
    + destruct (TransitionTo_forward t o s) as [Hfw _].
      destruct (Hfw o1 Ht) as (Hr & Hs & _). rewrite Hs in IH. lia.
    + unfold TransitionTo in Ht. destruct (negb _); [|discriminate].
      injection Ht as <-. exact IH.
Qed.

(** X5.  Whatever targets are tried in whatever order, at most four calls
    of [TransitionTo] on one order succeed. *)
Theorem at_most_four_transitions t o targets :
  (fst (transition_all t o targets) <= 4)%nat.
Proof. pose proof (transition_all_bound t targets o). lia. Qed.

Lemma map_id_when_unmatched id v st t rows :
  existsb (version_matches id v) rows = false ->
  map (fun o => if version_matches id v o then with_status st t o else o) rows = rows.
Proof.
  induction rows as [|y rows IH]; simpl; [reflexivity|].
  destruct (version_matches id v y); simpl; [discriminate|].
  intros H. rewrite IH by exact H. reflexivity.
Qed.

Lemma unmatched_no_overflow id v rows :
  existsb (version_matches id v) rows = false ->
  existsb (fun o => version_matches id v o && (max_int64 <? Version o + 1)) rows = false.
Proof.
  induction rows as [|y rows IH]; simpl; [reflexivity|].
  destruct (version_matches id v y); simpl; [discriminate|exact IH].
Qed.

Lemma stale_update_is_noop env id st v db :
  fail_UpdateStatus env = false ->
  existsb (version_matches id v) (orders db) = false ->
  UpdateStatusWithVersion env id st v db = (Ok false, db).
Proof.
  intros Hf Hstale. unfold UpdateStatusWithVersion.
  rewrite Hf, (unmatched_no_overflow _ _ _ Hstale), Hstale,
    (map_id_when_unmatched _ _ _ _ _ Hstale).
  destruct db; reflexivity.
Qed.

(** X6.  The optimistic lock refuses a stale version: when no row of the
    order carries the version the caller read, [UpdateStatusWithVersion]
    reports [false] and the database is unchanged. *)
Theorem stale_version_changes_nothing env id st v db :
  fail_UpdateStatus env = false ->
  existsb (version_matches id v) (orders db) = false ->
  UpdateStatusWithVersion env id st v db = (Ok false, db).
Proof. exact (stale_update_is_noop env id st v db). Qed.

Lemma stale_version_changes_nothing_witness :
  UpdateStatusWithVersion order_scenario.order_env 7 OrderStatusCanceled 2
    (order_scenario.order_db OrderStatusPending)
  = (Ok false, order_scenario.order_db OrderStatusPending).
Proof.
  apply (stale_version_changes_nothing order_scenario.order_env 7 OrderStatusCanceled 2
           (order_scenario.order_db OrderStatusPending)); reflexivity.
Defined.

Lemma updated_rows_unmatched id v st t rows :
  existsb (version_matches id v)
    (map (fun o => if version_matches id v o then with_status st t o else o) rows) = false.
Proof.
  induction rows as [|y rows IH]; simpl; [reflexivity|].
  rewrite IH, orb_false_r.
  destruct (version_matches id v y) eqn:Hy; [|exact Hy].
  unfold version_matches in *. cbn [ID Version with_status].
  apply andb_true_iff in Hy as [Hi Hv]. rewrite Hi. simpl.
  apply Z.eqb_eq in Hv. apply Z.eqb_neq. lia.
Qed.

(** X7.  Of two updates that carry the same read version only the first
    applies: once [UpdateStatusWithVersion] has changed the order, a second
    call with that version reports [false] and changes nothing. *)
Theorem second_writer_loses env1 env2 id st1 st2 v db db1 :
  UpdateStatusWithVersion env1 id st1 v db = (Ok true, db1) ->
  fail_UpdateStatus env2 = false ->
  UpdateStatusWithVersion env2 id st2 v db1 = (Ok false, db1).
Proof.
  intros H1 Hf2. apply stale_update_is_noop; [exact Hf2|].
  unfold UpdateStatusWithVersion in H1.
  destruct (fail_UpdateStatus env1); [discriminate|].
  destruct (existsb _ (orders db)); [discriminate|].
  injection H1 as _ <-. unfold set_orders. cbn [orders].
  apply updated_rows_unmatched.
Qed.

Lemma second_writer_loses_witness :
  UpdateStatusWithVersion order_scenario.order_env 7 OrderStatusFailed 3
    (snd (UpdateStatusWithVersion order_scenario.order_env 7 OrderStatusStockReserving 3
            (order_scenario.order_db OrderStatusPending)))
  = (Ok false,
     snd (UpdateStatusWithVersion order_scenario.order_env 7 OrderStatusStockReserving 3
            (order_scenario.order_db OrderStatusPending))).
Proof.
  apply (second_writer_loses order_scenario.order_env order_scenario.order_env 7
           OrderStatusStockReserving OrderStatusFailed 3
           (order_scenario.order_db OrderStatusPending)); reflexivity.
Defined.

Lemma Forall2_touched_refl id t rows : Forall2 (touched id t) rows rows.
Proof. induction rows; constructor; [left; reflexivity|assumption]. Qed.

Lemma update_touches id v st t rows :
  Forall2 (touched id t) rows
    (map (fun o => if version_matches id v o then with_status st t o else o) rows).
Proof.
  induction rows as [|y rows IH]; simpl; constructor; [|exact IH].
  destruct (version_matches id v y) eqn:Hy; [|left; reflexivity].
  right. unfold version_matches in Hy. apply andb_true_iff in Hy as [Hi _].
  apply Z.eqb_eq in Hi. split; [exact Hi|]. exists st. reflexivity.
Qed.

Lemma UpdateStatusWithVersion_footprint env id st v db r db1 :
  UpdateStatusWithVersion env id st v db = (r, db1) ->
  outbox_events db1 = outbox_events db
  /\ orders_id_seq db1 = orders_id_seq db
  /\ outbox_events_id_seq db1 = outbox_events_id_seq db
  /\ Forall2 (touched id (now env)) (orders db) (orders db1).
Proof.
  unfold UpdateStatusWithVersion.
  destruct (fail_UpdateStatus env);
    [intros [= _ <-]; repeat split; apply Forall2_touched_refl|].
  destruct (existsb _ (orders db));
    [intros [= _ <-]; repeat split; apply Forall2_touched_refl|].
  intros [= _ <-]. repeat split. apply update_touches.
Qed.

Lemma handle_footprint env ev id db :
  let db1 := snd (handle env ev id db) in
  outbox_events db1 = outbox_events db
  /\ orders_id_seq db1 = orders_id_seq db
  /\ outbox_events_id_seq db1 = outbox_events_id_seq db
  /\ Forall2 (touched id (now env)) (orders db) (orders db1).
Proof.
  cbv zeta.
  assert (forall o, FindByID env id db = Ok o -> ID o = id) as Hid.
  { intros o. unfold FindByID. destruct (fail_FindByID env); [discriminate|].
    destruct (find _ (orders db)) as [x|] eqn:Hf; [|discriminate].
    intros [= <-]. apply find_some in Hf as [_ H]. apply Z.eqb_eq in H. exact H. }
  destruct ev; simpl;
    unfold HandlePaymentCompleted, HandlePaymentFailed, HandleStockReserved,
      HandleStockReservationFailed, HandleDeliveryStarted, HandleDeliveryFailed;
    (destruct (FindByID env id db) as [o|e0] eqn:Hfind;
     [rewrite (Hid o eq_refl)|simpl; repeat split; apply Forall2_touched_refl]);
    try (destruct (OrderStatus_eqb _ _);
         [|simpl; repeat split; apply Forall2_touched_refl]);
    (destruct (UpdateStatusWithVersion _ _ _ _ _) as [[b|e1] d] eqn:Hup;
     simpl; exact (UpdateStatusWithVersion_footprint _ _ _ _ _ _ _ Hup)).
Qed.

(** X8.  An event handler of the order service writes no outbox row and
    draws no sequence value, adds and removes no order, and changes at most
    rows of the addressed order, by writing a status and adding one to the
    version. *)
Theorem handlers_touch_only_the_addressed_order env ev id db :
  let db1 := snd (handle env ev id db) in
  outbox_events db1 = outbox_events db
  /\ orders_id_seq db1 = orders_id_seq db
  /\ outbox_events_id_seq db1 = outbox_events_id_seq db
  /\ Forall2 (touched id (now env)) (orders db) (orders db1).
Proof. exact (handle_footprint env ev id db). Qed.

End OrderExtraProps.

(** ** Order service: keys, sequences and the round trip *)

Module OrderKeysProps.
Import Order ListFacts.

Lemma NoDup_map_snoc {A B} (f : A -> B) l y :
  List.NoDup (map f l) -> (forall x, In x l -> f x <> f y) -> List.NoDup (map f (l ++ [y])).
Proof.
  induction l as [|a l IH]; simpl; intros Hnd Hfresh.
  - constructor; [intros []|constructor].
  - inversion Hnd as [|? ? Ha Hnd']; subst. constructor.
    + rewrite List.map_app, in_app_iff. intros [Hin|[E|[]]]; [exact (Ha Hin)|].
      exact (Hfresh a (or_introl eq_refl) (eq_sym E)).
    + apply IH; [exact Hnd'|]. intros x Hx. apply Hfresh. right. exact Hx.
Qed.

Lemma find_by_unique_id rows o :
  List.NoDup (map ID rows) -> In o rows -> find (fun x => ID x =? ID o) rows = Some o.
Proof.
  induction rows as [|y rows IH]; simpl; [intros _ []|].
  intros Hnd [->|Hin].
  - rewrite Z.eqb_refl. reflexivity.
  - inversion Hnd as [|? ? Hy Hnd']; subst.
    destruct (Z.eqb_spec (ID y) (ID o)) as [E|_]; [|auto].
    exfalso. apply Hy. rewrite E. apply in_map. exact Hin.
Qed.

Lemma touched_same_keys id t rows rows' :
  Forall2 (touched id t) rows rows' ->
  map ID rows' = map ID rows /\ map IdempotencyKey rows' = map IdempotencyKey rows.
Proof.
  induction 1 as [|o o' rows rows' Ht _ [IH1 IH2]]; [split; reflexivity|].
  simpl. rewrite IH1, IH2.
  destruct Ht as [->|[_ [st ->]]]; split; reflexivity.
Qed.

Lemma Forall_le_weaken {A} (f : A -> Z) a b l :
  a <= b -> Forall (fun x => f x <= a) l -> Forall (fun x => f x <= b) l.
Proof. intros Hab. apply List.Forall_impl. intros x Hx. lia. Qed.

Lemma Create_keeps_keys env order db r db1 :
  keys_consistent db ->
  Create env order db = (r, db1) ->
  keys_consistent db1 /\ outbox_events db1 = outbox_events db
  /\ outbox_events_id_seq db1 = outbox_events_id_seq db.
Proof.
  intros (Hid & Hseq & Hkey & Hob & Hobseq). unfold Create.
  destruct (fail_Create env).
  { intros [= _ <-]. repeat split; assumption. }
  destruct (negb (in_int32 (Quantity order))).
  { intros [= _ <-]. repeat split; assumption. }
  destruct (assign_varchar 64 (IdempotencyKey order)) as [key|e].
  2:{ intros [= _ <-]. repeat split; try assumption. cbn.
      apply (Forall_le_weaken ID (orders_id_seq db)); [lia|exact Hseq]. }
  destruct (existsb _ (orders db)) eqn:Hfresh; intros [= _ <-]; cbn.
  - repeat split; try assumption. cbn.
    apply (Forall_le_weaken ID (orders_id_seq db)); [lia|exact Hseq].
  - repeat split; cbn; try assumption.
    + apply NoDup_map_snoc; [exact Hid|]. intros x Hx. cbn.
      rewrite List.Forall_forall in Hseq. specialize (Hseq x Hx). cbn in Hseq. lia.
    + apply List.Forall_app. split.
      * apply (Forall_le_weaken ID (orders_id_seq db)); [lia|exact Hseq].
      * constructor; [cbn; lia|constructor].
    + apply NoDup_map_snoc; [exact Hkey|]. intros x Hx. cbn.
      intros E. assert (existsb (fun o => String.eqb (IdempotencyKey o) key)
                          (orders db) = true) as Hex.
      { apply existsb_exists. exists x. split; [exact Hx|]. apply String.eqb_eq. exact E. }
      rewrite Hex in Hfresh. discriminate.
Qed.

Lemma CreateOrder_keeps_keys env cmd db :
  keys_consistent db -> keys_consistent (snd (CreateOrder env cmd db)).
Proof.
  intros Hk. unfold CreateOrder.
  destruct (existing_order env cmd db); [exact Hk|].
  destruct (cmd_Amount cmd <=? 0); [exact Hk|].
  destruct (cmd_Quantity cmd <=? 0); [exact Hk|].
  unfold BeginTx. destruct (fail_BeginTx env); [exact Hk|].
  destruct (Create env _ db) as [[o|e1] d1] eqn:Hc;
    destruct (Create_keeps_keys _ _ _ _ _ Hk Hc) as (Hk1 & Hob1 & Hseq1); [|exact Hk1].
  destruct Hk1 as (Hid & Hseq & Hkey & Hob & Hobseq).
  unfold InsertTx, Commit. destruct (fail_InsertTx env); [repeat split; assumption|].
  destruct (fail_Commit env); cbn.
  - repeat split; try assumption. cbn.
    apply (Forall_le_weaken OutboxID (outbox_events_id_seq d1)); [lia|exact Hobseq].
  - repeat split; try assumption; cbn.
    + apply (NoDup_map_snoc OutboxID); [exact Hob|]. intros x Hx. cbn.
      rewrite List.Forall_forall in Hobseq. specialize (Hobseq x Hx). cbn in Hobseq. lia.
    + apply List.Forall_app. split.
      * apply (Forall_le_weaken OutboxID (outbox_events_id_seq d1)); [lia|exact Hobseq].
      * constructor; [cbn; lia|constructor].
Qed.

Lemma handle_keeps_keys env ev id db :
  keys_consistent db -> keys_consistent (snd (handle env ev id db)).
Proof.
  intros (Hid & Hseq & Hkey & Hob & Hobseq).
  destruct (OrderExtraProps.handle_footprint env ev id db)
    as (H1 & H2 & H3 & H4).
  destruct (touched_same_keys _ _ _ _ H4) as [HI HK].
  unfold keys_consistent. rewrite H1, H2, H3, HI, HK. repeat split; try assumption.
  rewrite List.Forall_forall in *. intros o' Ho'.
  assert (In (ID o') (map ID (orders db))) as Hin
    by (rewrite <- HI; apply in_map; exact Ho').
  apply in_map_iff in Hin as (o & Ho & Hin). rewrite <- Ho. apply Hseq, Hin.
Qed.

(** X9.  The operations of the order service keep the keys of its tables
    consistent: after [CreateOrder] or any event handler, whatever the
    driver fails, order ids and outbox ids are still pairwise distinct and
    below their sequences, and no two orders share an idempotency key. *)
Theorem order_keys_stay_consistent env cmd ev id db :
  keys_consistent db ->
  keys_consistent (snd (CreateOrder env cmd db))
  /\ keys_consistent (snd (handle env ev id db)).
Proof.
  intros Hk. split; [apply CreateOrder_keeps_keys|apply handle_keeps_keys]; exact Hk.
Qed.

Lemma empty_db_keys_consistent : keys_consistent order_scenario.empty_order_db.
Proof. unfold keys_consistent. cbn. repeat split; constructor. Qed.

Lemma order_keys_stay_consistent_witness :
  keys_consistent (snd (CreateOrder order_scenario.order_env order_scenario.k1_command
                          order_scenario.empty_order_db))
  /\ keys_consistent (snd (handle order_scenario.order_env PaymentFailed 7
                             order_scenario.empty_order_db)).
Proof.
  apply (order_keys_stay_consistent order_scenario.order_env order_scenario.k1_command
           PaymentFailed 7 order_scenario.empty_order_db).
  unfold keys_consistent. cbn. repeat split; constructor.
Defined.

(** X10.  Insert and lookup agree: after a [CreateOrder] that returned
    success on a database with consistent keys, [GetOrder] on the returned
    id finds an order with that id and the returned status; when the call
    created the order, it is the row with the fields of the command, status
    PENDING and version 0, and its key is the key of the command as the
    [VARCHAR(64)] column stores it. *)
Theorem created_order_is_found env env2 cmd db r db1 :
  keys_consistent db ->
  CreateOrder env cmd db = (Ok r, db1) ->
  fail_FindByID env2 = false ->
  exists o,
    GetOrder env2 (res_OrderID r) db1 = Ok o
    /\ ID o = res_OrderID r /\ Status o = res_Status r
    /\ (existing_order env cmd db = None ->
        exists key,
          assign_varchar 64 (cmd_IdempotencyKey cmd) = Ok key
          /\ o = {| ID := res_OrderID r; UserID := cmd_UserID cmd;
                    Amount := cmd_Amount cmd; Quantity := cmd_Quantity cmd;
                    Status := OrderStatusPending; Version := 0;
                    IdempotencyKey := key;
                    CreatedAt := now env; UpdatedAt := now env |}).
Proof.
  intros Hk Hc Hf. pose proof (CreateOrder_keeps_keys env cmd db Hk) as Hk1.
  rewrite Hc in Hk1. cbn in Hk1. destruct Hk1 as (Hid1 & _).
  assert (forall o, In o (orders db1) -> GetOrder env2 (ID o) db1 = Ok o) as Hget.
  { intros o Hin. unfold GetOrder, FindByID. rewrite Hf.
    rewrite (find_by_unique_id _ _ Hid1 Hin). reflexivity. }
  unfold CreateOrder in Hc.
  destruct (existing_order env cmd db) as [existing|] eqn:Hex.
  - injection Hc as <- <-. cbn. exists existing.
    split; [|repeat split; discriminate]. apply Hget.
    unfold existing_order in Hex. destruct (String.eqb _ ""); [discriminate|].
    unfold FindByIdempotencyKey in Hex.
    destruct (fail_FindByIdempotencyKey env); [discriminate|].
    destruct (find _ (orders db)) as [x|] eqn:Hfind; [|discriminate].
    injection Hex as <-. apply find_some in Hfind as [Hin _]. exact Hin.
  - destruct (cmd_Amount cmd <=? 0); [discriminate|].
    destruct (cmd_Quantity cmd <=? 0); [discriminate|].
    unfold BeginTx, Create, InsertTx, Commit in Hc.
    destruct (fail_BeginTx env); [discriminate|].
    destruct (fail_Create env); [discriminate|].
    destruct (negb (in_int32 _)); [discriminate|].
    cbn [IdempotencyKey] in Hc.
    destruct (assign_varchar 64 (cmd_IdempotencyKey cmd)) as [key|e]; [|discriminate].
    destruct (existsb _ (orders db)); [discriminate|].
    destruct (fail_InsertTx env); [discriminate|].
    destruct (fail_Commit env); [discriminate|].
    injection Hc as <- <-. cbn [res_OrderID res_Status ID Status] in *.
    exists {| ID := orders_id_seq db + 1; UserID := cmd_UserID cmd;
              Amount := cmd_Amount cmd; Quantity := cmd_Quantity cmd;
              Status := OrderStatusPending; Version := 0;
              IdempotencyKey := key;
              CreatedAt := now env; UpdatedAt := now env |}.
    split; [|split; [reflexivity|split; [reflexivity|]]].
    + apply (Hget {| ID := orders_id_seq db + 1; UserID := cmd_UserID cmd;
                     Amount := cmd_Amount cmd; Quantity := cmd_Quantity cmd;
                     Status := OrderStatusPending; Version := 0;
                     IdempotencyKey := key;
                     CreatedAt := now env; UpdatedAt := now env |}).
      cbn [orders]. apply in_or_app. right. left. reflexivity.
    + intros _. exists key. split; reflexivity.
Qed.

Lemma created_order_is_found_witness :
  exists o,
    GetOrder order_scenario.order_env 1
      (snd (CreateOrder order_scenario.order_env order_scenario.k1_command
              order_scenario.empty_order_db)) = Ok o
    /\ ID o = 1 /\ Status o = OrderStatusPending
    /\ (existing_order order_scenario.order_env order_scenario.k1_command
          order_scenario.empty_order_db = None ->
        exists key,
          assign_varchar 64 "k1" = Ok key
          /\ o = {| ID := 1; UserID := 1001; Amount := 50000; Quantity := 1;
                    Status := OrderStatusPending; Version := 0; IdempotencyKey := key;
                    CreatedAt := now order_scenario.order_env;
                    UpdatedAt := now order_scenario.order_env |}).
Proof.
  apply (created_order_is_found order_scenario.order_env order_scenario.order_env
           order_scenario.k1_command order_scenario.empty_order_db
           {| res_OrderID := 1; res_Status := OrderStatusPending |}).
  - unfold keys_consistent. cbn. repeat split; constructor.
  - reflexivity.
  - reflexivity.
Defined.

(** The order stored for the key of 64 characters and a space carries the
    64 characters. *)
Example padded_key_is_stored_cut :
  map IdempotencyKey
    (orders (snd (CreateOrder order_scenario.order_env order_scenario.padded_key_command
                    order_scenario.empty_order_db)))
  = ["9f86d081884c7d659a2feaa0c55ad015a3bf4f1b2b0b822cd15d6c15b0f00a08"].
Proof. vm_compute. reflexivity. Qed.

End OrderKeysProps.

(** ** The outbox table and the relay of the order service *)

Module RelayProps.
Import relay ListFacts.

Lemma insert_in e sorted x :
  In x (insert_by_created_at e sorted) <-> x = e \/ In x sorted.
Proof.
  induction sorted as [|y rest IH]; simpl; [intuition|].
  destruct (OutboxCreatedAt e <? OutboxCreatedAt y); simpl; [intuition|].
  rewrite IH. intuition.
Qed.

Lemma insert_ascending e sorted :
  ascending sorted -> ascending (insert_by_created_at e sorted).
Proof.
  induction sorted as [|y rest IH]; simpl; [intros _; split; [constructor|exact I]|].
  intros [Hy Hrest]. destruct (Z.ltb_spec (OutboxCreatedAt e) (OutboxCreatedAt y)); simpl.
  - split; [|split; assumption]. constructor; [lia|].
    revert Hy. apply List.Forall_impl. intros a Ha. lia.
  - split; [|apply IH; exact Hrest].
    apply List.Forall_forall. intros x Hx. apply insert_in in Hx as [->|Hx]; [lia|].
    rewrite List.Forall_forall in Hy. apply Hy, Hx.
Qed.

Lemma insert_length e sorted :
  length (insert_by_created_at e sorted) = S (length sorted).
Proof.
  induction sorted as [|y rest IH]; simpl; [reflexivity|].
  destruct (_ <? _); simpl; [reflexivity|]. rewrite IH. reflexivity.
Qed.

Lemma order_by_spec rows : forall acc,
  ascending acc ->
  let out := fold_left (fun a e => insert_by_created_at e a) rows acc in
  ascending out
  /\ (forall x, In x out <-> In x rows \/ In x acc)
  /\ length out = (length rows + length acc)%nat.
Proof.
  induction rows as [|e rows IH]; intros acc Hacc; simpl.
  - repeat split; [exact Hacc|intuition|intuition].
  - destruct (IH (insert_by_created_at e acc) (insert_ascending _ _ Hacc))
      as (Ha & Hin & Hlen).
    split; [exact Ha|]. split.
    + intros x. rewrite Hin, insert_in. intuition.
    + rewrite Hlen, insert_length. lia.
Qed.

Lemma firstn_subset {A} n : forall (l : list A) x, In x (firstn n l) -> In x l.
Proof.
  induction n as [|n IH]; intros l x; [intros []|].
  destruct l as [|a l]; simpl; [intros []|].
  intros [->|H]; [left; reflexivity|right; apply IH, H].
Qed.

Lemma firstn_ascending n : forall rows, ascending rows -> ascending (firstn n rows).
Proof.
  induction n as [|n IH]; intros [|e rows]; simpl; auto.
  intros [He Hrows]. split; [|apply IH; exact Hrows].
  apply List.Forall_forall. intros x Hx. rewrite List.Forall_forall in He.
  apply He. eapply firstn_subset; exact Hx.
Qed.


Lemma filter_length_le {A} (f : A -> bool) l : (length (List.filter f l) <= length l)%nat.
Proof. induction l as [|a l IH]; simpl; [lia|]. destruct (f a); simpl; lia. Qed.

Lemma filter_ascending f rows : ascending rows -> ascending (List.filter f rows).
Proof.
  induction rows as [|e rows IH]; simpl; [auto|]. intros [He Hrows].
  destruct (f e); [|apply IH; exact Hrows]. simpl. split; [|apply IH; exact Hrows].
  apply List.Forall_forall. intros x Hx. apply filter_In in Hx as [Hx _].
  rewrite List.Forall_forall in He. apply He, Hx.
Qed.

Lemma select_pending_spec limit table :
  let rows := select_pending limit table in
  (forall e, In e rows -> In e table /\ OutboxStatus e = "PENDING")
  /\ (length rows <= limit)%nat
  /\ ascending rows
  /\ ((length (List.filter is_pending table) <= limit)%nat ->
      forall e, In e table -> OutboxStatus e = "PENDING" -> In e rows).
Proof.
  cbv zeta. unfold select_pending, order_by_created_at.
  destruct (order_by_spec
              (List.filter (fun e => String.eqb (OutboxStatus e) "PENDING") table) [] I)
    as (Hasc & Hin & Hlen).
  cbv zeta in *. split; [|split; [|split]].
  - intros e H. apply firstn_subset in H. apply Hin in H as [H|[]].
    apply filter_In in H as [H Hp]. split; [exact H|]. apply String.eqb_eq. exact Hp.
  - apply firstn_le_length.
  - apply firstn_ascending. exact Hasc.
  - intros Hfew e He Hp. rewrite firstn_all2.
    + apply Hin. left. apply filter_In. split; [exact He|].
      apply String.eqb_eq. exact Hp.
    + rewrite Hlen. simpl. unfold is_pending in Hfew. lia.
Qed.

Lemma firstn_oldest n : forall rows e e',
  ascending rows ->
  In e (firstn n rows) -> In e' rows -> ~ In e' (firstn n rows) ->
  OutboxCreatedAt e <= OutboxCreatedAt e'.
Proof.
  induction n as [|n IH]; intros [|a rows] e e'; simpl; try tauto.
  intros [Ha Hrows] He He' Hout.
  assert (In e' rows) as Hin' by (destruct He' as [->|H]; [tauto|exact H]).
  destruct He as [<-|He].
  - rewrite List.Forall_forall in Ha. apply Ha, Hin'.
  - apply (IH rows); tauto.
Qed.

Lemma fetched_firstn {A} (rows_read : option nat) (rows : list A) :
  exists k, fetched rows_read rows = firstn k rows.
Proof.
  destruct rows_read as [k|]; [exists k; reflexivity|].
  exists (length rows). symmetry. apply firstn_all.
Qed.

(** The rows a cursor over [select_pending] delivers are the oldest. *)
Lemma select_pending_oldest limit k table e e' :
  In e (firstn k (select_pending limit table)) ->
  In e' table -> OutboxStatus e' = "PENDING" ->
  ~ In e' (firstn k (select_pending limit table)) ->
  OutboxCreatedAt e <= OutboxCreatedAt e'.
Proof.
  unfold select_pending, order_by_created_at. rewrite firstn_firstn.
  destruct (order_by_spec
              (List.filter (fun e => String.eqb (OutboxStatus e) "PENDING") table) [] I)
    as (Hasc & Hin & _).
  cbv zeta in *. intros He He' Hp Hout.
  apply (firstn_oldest _ _ e e' Hasc He); [|exact Hout].
  apply Hin. left. apply filter_In. split; [exact He'|]. apply String.eqb_eq. exact Hp.
Qed.

Lemma fetched_spec (rows_read : option nat) (rows : list OutboxEvent) :
  (forall e, In e (fetched rows_read rows) -> In e rows)
  /\ (length (fetched rows_read rows) <= length rows)%nat
  /\ (ascending rows -> ascending (fetched rows_read rows)).
Proof.
  destruct rows_read as [k|]; simpl; [|auto].
  split; [apply firstn_subset|]. split; [|apply firstn_ascending].
  rewrite length_firstn. lia.
Qed.

(** What [FindPending] returns when it returns rows. *)
Lemma FindPending_rows env limit db rows :
  Order.FindPending env limit db = Ok rows ->
  Order.fail_FindPending env = false
  /\ 0 <= limit
  /\ rows = fetched (Order.rows_read env)
              (select_pending (Z.to_nat limit) (Order.outbox_events db))
  /\ (rows = [] \/ Order.fail_ScanPending env = false).
Proof.
  unfold Order.FindPending.
  destruct (Order.fail_FindPending env); [discriminate|].
  destruct (Z.ltb_spec limit 0); [discriminate|].
  destruct (fetched _ _) as [|e rest]; [intros [= <-]; auto|].
  destruct (Order.fail_ScanPending env); [discriminate|].
  intros [= <-]. auto.
Qed.

Lemma FindPending_is_the_oldest_pending_aux env limit db :
  (Order.fail_FindPending env = true \/ limit < 0 ->
   exists err, Order.FindPending env limit db = Err err)
  /\ (Order.fail_ScanPending env = true ->
      Order.FindPending env limit db = Ok []
      \/ exists err, Order.FindPending env limit db = Err err)
  /\ (Order.fail_FindPending env = false -> 0 <= limit ->
      Order.fail_ScanPending env = false ->
      exists rows, Order.FindPending env limit db = Ok rows)
  /\ (forall rows, Order.FindPending env limit db = Ok rows ->
      (forall e, In e rows -> In e (Order.outbox_events db) /\ OutboxStatus e = "PENDING")
      /\ (length rows <= Z.to_nat limit)%nat
      /\ ascending rows
      /\ (forall e e', In e rows -> In e' (Order.outbox_events db) ->
          OutboxStatus e' = "PENDING" -> ~ In e' rows ->
          OutboxCreatedAt e <= OutboxCreatedAt e')
      /\ (Order.rows_read env = None ->
          (length (List.filter is_pending (Order.outbox_events db)) <= Z.to_nat limit)%nat ->
          forall e, In e (Order.outbox_events db) -> OutboxStatus e = "PENDING" ->
                    In e rows)).
Proof.
  split; [|split; [|split]].
  - unfold Order.FindPending. intros [->|Hneg]; [eexists; reflexivity|].
    destruct (Order.fail_FindPending env); [eexists; reflexivity|].
    destruct (Z.ltb_spec limit 0); [eexists; reflexivity|lia].
  - unfold Order.FindPending. intros ->.
    destruct (Order.fail_FindPending env); [right; eexists; reflexivity|].
    destruct (limit <? 0); [right; eexists; reflexivity|].
    destruct (fetched _ _); [left; reflexivity|right; eexists; reflexivity].
  - unfold Order.FindPending. intros -> Hlimit ->.
    destruct (Z.ltb_spec limit 0); [lia|].
    destruct (fetched _ _); eexists; reflexivity.
  - intros rows Hrows.
    destruct (FindPending_rows _ _ _ _ Hrows) as (_ & _ & -> & _).
    destruct (select_pending_spec (Z.to_nat limit) (Order.outbox_events db))
      as (Hin & Hlen & Hasc & Hall).
    destruct (fetched_spec (Order.rows_read env)
                (select_pending (Z.to_nat limit) (Order.outbox_events db)))
      as (Hsub & Hle & Hord).
    split; [|split; [|split; [|split]]].
    + intros e He. apply Hin, Hsub, He.
    + lia.
    + apply Hord, Hasc.
    + destruct (fetched_firstn (Order.rows_read env)
                  (select_pending (Z.to_nat limit) (Order.outbox_events db))) as [k ->].
      intros e e'. apply select_pending_oldest.
    + intros -> Hfew e He Hp. apply Hall; assumption.
Qed.

(** X11.  What a tick reads.  [FindPending] returns an error when the query
    fails or the limit is negative, and an error or no row when a scan
    fails; otherwise it returns rows.  The rows it returns are rows of the
    outbox table that are PENDING, at most [limit] of them, in ascending
    order of [created_at], and the oldest: no PENDING row left out is older
    than a row returned.  They are all the PENDING rows when there are at
    most [limit] and the cursor delivers every row. *)
Theorem FindPending_is_the_oldest_pending env limit db :
  (Order.fail_FindPending env = true \/ limit < 0 ->
   exists err, Order.FindPending env limit db = Err err)
  /\ (Order.fail_ScanPending env = true ->
      Order.FindPending env limit db = Ok []
      \/ exists err, Order.FindPending env limit db = Err err)
  /\ (Order.fail_FindPending env = false -> 0 <= limit ->
      Order.fail_ScanPending env = false ->
      exists rows, Order.FindPending env limit db = Ok rows)
  /\ (forall rows, Order.FindPending env limit db = Ok rows ->
      (forall e, In e rows -> In e (Order.outbox_events db) /\ OutboxStatus e = "PENDING")
      /\ (length rows <= Z.to_nat limit)%nat
      /\ ascending rows
      /\ (forall e e', In e rows -> In e' (Order.outbox_events db) ->
          OutboxStatus e' = "PENDING" -> ~ In e' rows ->
          OutboxCreatedAt e <= OutboxCreatedAt e')
      /\ (Order.rows_read env = None ->
          (length (List.filter is_pending (Order.outbox_events db)) <= Z.to_nat limit)%nat ->
          forall e, In e (Order.outbox_events db) -> OutboxStatus e = "PENDING" ->
                    In e rows)).
Proof. exact (FindPending_is_the_oldest_pending_aux env limit db). Qed.

Lemma read_spec env db :
  (forall e, In e (read env db) -> In e (Order.outbox_events db) /\ OutboxStatus e = "PENDING")
  /\ (length (read env db) <= 100)%nat
  /\ ascending (read env db).
Proof.
  unfold read.
  destruct (Order.FindPending env 100 db) as [rows|err] eqn:Hrows.
  - destruct (FindPending_is_the_oldest_pending_aux env 100 db) as (_ & _ & _ & H).
    destruct (H rows Hrows) as (Hin & Hlen & Hasc & _).
    split; [exact Hin|]. split; [|exact Hasc].
    change 100%nat with (Z.to_nat 100). exact Hlen.
  - split; [intros e []|]. split; [simpl; lia|exact I].
Qed.

Lemma publishEvent_sendable send_fails e bus :
  sendable send_fails e = true ->
  worker.publishEvent send_fails e bus = (None, (bus ++ [message_of e])%list).
Proof.
  unfold sendable, worker.publishEvent, message_of, messaging.Publish.
  destruct (worker.Unmarshal (Payload e)) as [p|err]; [|discriminate].
  intros H. apply negb_true_iff in H. rewrite H. reflexivity.
Qed.

Lemma publishEvent_unsendable send_fails e bus :
  sendable send_fails e = false ->
  exists err, worker.publishEvent send_fails e bus = (Some err, bus).
Proof.
  unfold sendable, worker.publishEvent, message_of, messaging.Publish.
  destruct (worker.Unmarshal (Payload e)) as [p|err]; [|eexists; reflexivity].
  intros H. apply negb_false_iff in H. rewrite H. eexists; reflexivity.
Qed.

Lemma publish_all_spec env send_fails pending : forall db bus,
  worker.publish_all env send_fails pending db bus
  = (fold_left (fun d e => snd (Order.MarkSent env (OutboxID e) d))
       (List.filter (sendable send_fails) pending) db,
     (bus ++ map message_of (List.filter (sendable send_fails) pending))%list).
Proof.
  induction pending as [|e rest IH]; intros db bus; simpl.
  - rewrite app_nil_r. reflexivity.
  - destruct (sendable send_fails e) eqn:Hs.
    + rewrite (publishEvent_sendable _ _ _ Hs).
      destruct (Order.MarkSent env (OutboxID e) db) as [[err|] db1] eqn:Hm;
        rewrite IH; simpl; rewrite Hm, <- app_assoc; reflexivity.
    + destruct (publishEvent_unsendable _ _ bus Hs) as [err ->]. apply IH.
Qed.

Lemma mark_all_nil t rows : map (mark_all t []) rows = rows.
Proof. erewrite map_ext; [apply map_id|]. reflexivity. Qed.

Lemma marks_fold env send_fails pending : forall db,
  let db1 := fold_left (fun d e => snd (Order.MarkSent env (OutboxID e) d))
               (List.filter (sendable send_fails) pending) db in
  Order.outbox_events db1
  = map (mark_all (Order.now env)
           (map OutboxID (List.filter (mark_written env send_fails) pending)))
      (Order.outbox_events db)
  /\ Order.orders db1 = Order.orders db
  /\ Order.orders_id_seq db1 = Order.orders_id_seq db
  /\ Order.outbox_events_id_seq db1 = Order.outbox_events_id_seq db.
Proof.
  induction pending as [|s pending IH]; intros db; simpl.
  - rewrite mark_all_nil. repeat split.
  - unfold mark_written at 1. destruct (sendable send_fails s); simpl; [|apply IH].
    destruct (IH (snd (Order.MarkSent env (OutboxID s) db))) as (H1 & H2 & H3 & H4).
    cbv zeta in *. rewrite H1, H2, H3, H4. unfold Order.MarkSent.
    destruct (Order.fail_MarkSent env (OutboxID s)); cbn; [repeat split|].
    repeat split.
    unfold mark_sent. rewrite map_map. apply map_ext. intros e.
    unfold mark_all. cbn [existsb].
    destruct (Z.eqb_spec (OutboxID e) (OutboxID s)) as [E|N]; cbn [OutboxID orb].
    + destruct (existsb _ _); reflexivity.
    + reflexivity.
Qed.

(** A tick, in terms of the rows it reads. *)
Lemma process_spec env send_fails db bus :
  let out := worker.process env send_fails db bus in
  let rows := read env db in
  snd (snd out) = (bus ++ map message_of (List.filter (sendable send_fails) rows))%list
  /\ Order.outbox_events (fst (snd out))
     = map (mark_all (Order.now env)
              (map OutboxID (List.filter (mark_written env send_fails) rows)))
         (Order.outbox_events db)
  /\ Order.orders (fst (snd out)) = Order.orders db
  /\ Order.orders_id_seq (fst (snd out)) = Order.orders_id_seq db
  /\ Order.outbox_events_id_seq (fst (snd out)) = Order.outbox_events_id_seq db.
Proof.
  cbv zeta. unfold worker.process, read.
  destruct (Order.FindPending env 100 db) as [[|e rows]|err];
    try (cbn [fst snd List.filter map]; rewrite app_nil_r, mark_all_nil;
         repeat split; reflexivity).
  rewrite publish_all_spec. cbn [fst snd].
  split; [reflexivity|]. apply marks_fold.
Qed.

Lemma tick_publishes_aux env send_fails db bus :
  match Order.FindPending env 100 db with
  | Err err => worker.process env send_fails db bus = (Some err, (db, bus))
  | Ok rows =>
      exists sent,
        fst (worker.process env send_fails db bus) = None
        /\ snd (snd (worker.process env send_fails db bus))
           = (bus ++ map message_of sent)%list
        /\ sent = List.filter (sendable send_fails) rows
        /\ (length sent <= 100)%nat
        /\ ascending sent
        /\ (forall e, In e sent ->
             In e (Order.outbox_events db) /\ OutboxStatus e = "PENDING"
             /\ messaging.pm_Topic (message_of e) = OutboxEventType e
             /\ messaging.pm_Value (message_of e) = Payload e)
        /\ Order.outbox_events (fst (snd (worker.process env send_fails db bus)))
           = map (mark_all (Order.now env)
                    (map OutboxID
                       (List.filter
                          (fun e => negb (Order.fail_MarkSent env (OutboxID e))) sent)))
               (Order.outbox_events db)
  end.
Proof.
  pose proof (process_spec env send_fails db bus) as Hspec.
  pose proof (read_spec env db) as Hread.
  unfold read in Hspec, Hread. cbv zeta in Hspec.
  destruct (Order.FindPending env 100 db) as [rows|err] eqn:Hrows.
  - destruct Hspec as (Hbus & Hmarks & _). destruct Hread as (Hin & Hlen & Hasc).
    eexists.
    split; [|split; [exact Hbus|split; [reflexivity|split; [|split; [|split]]]]].
    + unfold worker.process. rewrite Hrows. destruct rows; reflexivity.
    + etransitivity; [apply filter_length_le|exact Hlen].
    + apply filter_ascending. exact Hasc.
    + intros e He. apply filter_In in He as [He _].
      destruct (Hin e He) as [H1 H2]. repeat split; assumption.
    + rewrite Hmarks. f_equal. f_equal. f_equal. clear.
      induction rows as [|e rows IH]; [reflexivity|]. cbn [List.filter].
      unfold mark_written at 1. destruct (sendable send_fails e); cbn [andb List.filter];
        [|exact IH].
      destruct (negb _); [f_equal|]; exact IH.
  - unfold worker.process. rewrite Hrows. reflexivity.
Qed.

(** X12.  What a tick publishes.  When [FindPending] fails, [process]
    returns its error and publishes and marks nothing.  Otherwise it returns
    no error and appends to the bus one message for each row read (the at
    most 100 oldest PENDING rows) whose payload decodes into a map and
    whose send succeeds, in the order of [created_at], with the row's event
    type as topic and its payload as value; it publishes nothing else, in
    particular nothing for a row that is not PENDING.  Of the rows it
    published it marks those whose [MarkSent] succeeds; a published row
    whose [MarkSent] fails stays as it is. *)
Theorem tick_publishes_the_sendable_pending_rows env send_fails db bus :
  match Order.FindPending env 100 db with
  | Err err => worker.process env send_fails db bus = (Some err, (db, bus))
  | Ok rows =>
      exists sent,
        fst (worker.process env send_fails db bus) = None
        /\ snd (snd (worker.process env send_fails db bus))
           = (bus ++ map message_of sent)%list
        /\ sent = List.filter (sendable send_fails) rows
        /\ (length sent <= 100)%nat
        /\ ascending sent
        /\ (forall e, In e sent ->
             In e (Order.outbox_events db) /\ OutboxStatus e = "PENDING"
             /\ messaging.pm_Topic (message_of e) = OutboxEventType e
             /\ messaging.pm_Value (message_of e) = Payload e)
        /\ Order.outbox_events (fst (snd (worker.process env send_fails db bus)))
           = map (mark_all (Order.now env)
                    (map OutboxID
                       (List.filter
                          (fun e => negb (Order.fail_MarkSent env (OutboxID e))) sent)))
               (Order.outbox_events db)
  end.
Proof. exact (tick_publishes_aux env send_fails db bus). Qed.

Lemma mark_all_content t ids e : content (mark_all t ids e) = content e.
Proof. unfold mark_all. destruct (existsb _ ids); reflexivity. Qed.

(** X13.  The relay never deletes, adds or reorders a row and never touches
    an order: after a tick the outbox holds the same rows with the same id,
    aggregate, event type, payload and [created_at]; all a tick does to a
    row is to set [status = SENT] and [sent_at]. *)
Theorem tick_keeps_every_row env send_fails db bus :
  let db1 := fst (snd (worker.process env send_fails db bus)) in
  map content (Order.outbox_events db1) = map content (Order.outbox_events db)
  /\ Forall2 (fun e e' => e' = e \/ e' = marked_sent (Order.now env) e)
       (Order.outbox_events db) (Order.outbox_events db1)
  /\ Order.orders db1 = Order.orders db.
Proof.
  cbv zeta. destruct (process_spec env send_fails db bus) as (_ & Hrows & Hord & _).
  rewrite Hrows, Hord. repeat split.
  - rewrite map_map. apply map_ext. intros e. apply mark_all_content.
  - clear Hrows Hord.
    induction (Order.outbox_events db) as [|e rows IH]; simpl; [constructor|].
    constructor; [|exact IH]. unfold mark_all. destruct (existsb _ _); auto.
Qed.

Lemma marked_not_pending t ids e :
  existsb (Z.eqb (OutboxID e)) ids = true -> is_pending (mark_all t ids e) = false.
Proof. unfold mark_all. intros ->. reflexivity. Qed.

Lemma no_pending_row_is_read env limit db :
  List.filter is_pending (Order.outbox_events db) = [] ->
  (forall rows, Order.FindPending env limit db = Ok rows -> rows = [])
  /\ (Order.fail_FindPending env = false -> 0 <= limit ->
      Order.FindPending env limit db = Ok []).
Proof.
  intros Hnone.
  assert (select_pending (Z.to_nat limit) (Order.outbox_events db) = []) as Hsel.
  { unfold select_pending. unfold is_pending in Hnone. rewrite Hnone.
    destruct (Z.to_nat limit); reflexivity. }
  assert (fetched (Order.rows_read env)
            (select_pending (Z.to_nat limit) (Order.outbox_events db)) = []) as Hfetched.
  { rewrite Hsel. destruct (Order.rows_read env) as [[|k]|]; reflexivity. }
  split.
  - intros rows Hrows. destruct (FindPending_rows _ _ _ _ Hrows) as (_ & _ & -> & _).
    exact Hfetched.
  - intros Hq Hlimit. unfold Order.FindPending. rewrite Hq, Hfetched.
    destruct (Z.ltb_spec limit 0); [lia|reflexivity].
Qed.

Lemma tick_drains_aux env send_fails db bus :
  Order.fail_FindPending env = false ->
  Order.fail_ScanPending env = false ->
  Order.rows_read env = None ->
  (forall e, In e (Order.outbox_events db) -> OutboxStatus e = "PENDING" ->
     Order.fail_MarkSent env (OutboxID e) = false) ->
  (length (List.filter is_pending (Order.outbox_events db)) <= 100)%nat ->
  (forall e, In e (Order.outbox_events db) -> OutboxStatus e = "PENDING" ->
     sendable send_fails e = true) ->
  List.filter is_pending
    (Order.outbox_events (fst (snd (worker.process env send_fails db bus)))) = [].
Proof.
  intros Hq Hscan Hcursor Hmark Hfew Hok.
  destruct (process_spec env send_fails db bus) as (_ & Hrows & _).
  destruct (FindPending_is_the_oldest_pending_aux env 100 db)
    as (_ & _ & Hsome & Hsel).
  destruct (Hsome Hq ltac:(lia) Hscan) as [rows Hread].
  destruct (Hsel rows Hread) as (_ & _ & _ & _ & Hall).
  cbv zeta in Hrows. unfold read in Hrows. rewrite Hread in Hrows.
  rewrite Hrows. apply existsb_filter_nil.
  destruct (existsb is_pending _) eqn:Hex; [|reflexivity]. exfalso.
  apply existsb_exists in Hex as (e' & Hin' & Hp').
  apply in_map_iff in Hin' as (e & <- & Hin).
  destruct (String.eqb_spec (OutboxStatus e) "PENDING") as [Hp|Hnp].
  - rewrite marked_not_pending in Hp'; [discriminate|].
    apply existsb_exists. exists (OutboxID e). split; [|apply Z.eqb_refl].
    apply in_map. apply filter_In. split; [apply (Hall Hcursor Hfew e Hin Hp)|].
    unfold mark_written. rewrite (Hok e Hin Hp), (Hmark e Hin Hp). reflexivity.
  - unfold mark_all in Hp'. destruct (existsb _ _); [discriminate Hp'|].
    unfold is_pending in Hp'. apply String.eqb_eq in Hp'. contradiction.
Qed.

(** X14.  A tick drains the outbox when it can: when [FindPending] works
    and delivers every row, there are at most 100 PENDING rows, and each of
    them has a payload that decodes into a map, a send that succeeds and a
    [MarkSent] that succeeds, then no row is PENDING after the tick: a later
    [FindPending] returns no row, so the rows are not published again. *)
Theorem tick_drains_the_outbox env send_fails db bus env2 limit :
  Order.fail_FindPending env = false ->
  Order.fail_ScanPending env = false ->
  Order.rows_read env = None ->
  (forall e, In e (Order.outbox_events db) -> OutboxStatus e = "PENDING" ->
     Order.fail_MarkSent env (OutboxID e) = false) ->
  (length (List.filter is_pending (Order.outbox_events db)) <= 100)%nat ->
  (forall e, In e (Order.outbox_events db) -> OutboxStatus e = "PENDING" ->
     sendable send_fails e = true) ->
  let db1 := fst (snd (worker.process env send_fails db bus)) in
  List.filter is_pending (Order.outbox_events db1) = []
  /\ (forall rows, Order.FindPending env2 limit db1 = Ok rows -> rows = [])
  /\ (Order.fail_FindPending env2 = false -> 0 <= limit ->
      Order.FindPending env2 limit db1 = Ok []).
Proof.
  intros Hq Hscan Hcursor Hmark Hfew Hok. cbv zeta.
  pose proof (tick_drains_aux env send_fails db bus Hq Hscan Hcursor Hmark Hfew Hok)
    as Hnone.
  split; [exact Hnone|]. apply no_pending_row_is_read. exact Hnone.
Qed.

Lemma tick_drains_the_outbox_witness :
  let db1 := fst (snd (worker.process order_scenario.order_env bus_scenario.never_fails
                         (snd (Order.CreateOrder order_scenario.order_env
                                 order_scenario.k1_command
                                 order_scenario.empty_order_db)) [])) in
  List.filter is_pending (Order.outbox_events db1) = []
  /\ (forall rows, Order.FindPending order_scenario.order_env 100 db1 = Ok rows ->
        rows = [])
  /\ (Order.fail_FindPending order_scenario.order_env = false -> 0 <= 100 ->
      Order.FindPending order_scenario.order_env 100 db1 = Ok []).
Proof.
  apply (tick_drains_the_outbox order_scenario.order_env bus_scenario.never_fails
           (snd (Order.CreateOrder order_scenario.order_env order_scenario.k1_command
                   order_scenario.empty_order_db)) [] order_scenario.order_env 100).
  - reflexivity.
  - reflexivity.
  - reflexivity.
  - intros e _ _. reflexivity.
  - vm_compute. lia.
  - intros e [<-|[]] _. reflexivity.
Defined.

(** The other path: a row that is published and whose [MarkSent] fails
    stays as it is, PENDING, and the next tick publishes it again. *)
Example unmarked_row_is_published_again :
  let db := snd (Order.CreateOrder order_scenario.order_env order_scenario.k1_command
                   order_scenario.empty_order_db) in
  let out := ticks [(extra_scenario.order_env_mark_fails, bus_scenario.never_fails);
                    (extra_scenario.order_env_mark_fails, bus_scenario.never_fails)]
               db [] in
  Order.outbox_events (fst out) = Order.outbox_events db
  /\ map OutboxStatus (Order.outbox_events db) = ["PENDING"]
  /\ map messaging.pm_Topic (snd out)
     = [events.EventOrderCreated; events.EventOrderCreated].
Proof. vm_compute. repeat split; reflexivity. Qed.

Lemma ticks_spec runs : forall db bus e,
  List.NoDup (map OutboxID (Order.outbox_events db)) ->
  In e (Order.outbox_events db) ->
  sendable (fun _ => false) e = false ->
  let out := ticks runs db bus in
  In e (Order.outbox_events (fst out))
  /\ forall m, In m (snd out) -> In m bus \/ messaging.pm_Value m <> Payload e.
Proof.
  induction runs as [|[env sf] runs IH]; intros db bus e Hnd Hin Hbad; simpl.
  - split; [exact Hin|]. auto.
  - destruct (worker.process env sf db bus) as [err [db1 bus1]] eqn:Hp.
    destruct (process_spec env sf db bus) as (Hbus & Hrows & _).
    rewrite Hp in Hbus, Hrows. cbn [fst snd] in Hbus, Hrows.
    assert (sendable sf e = false) as Hbad'.
    { unfold sendable in *. destruct (worker.Unmarshal (Payload e)); [discriminate|reflexivity]. }
    assert (In e (Order.outbox_events db1)) as Hin1.
    { rewrite Hrows. apply in_map_iff. exists e. split; [|exact Hin].
      unfold mark_all. destruct (existsb _ _) eqn:Hex; [|reflexivity]. exfalso.
      apply existsb_exists in Hex as (i & Hi & Heq). apply Z.eqb_eq in Heq. subst i.
      apply in_map_iff in Hi as (e' & Hid & He').
      apply filter_In in He' as [He' Hs'].
      unfold mark_written in Hs'. apply andb_true_iff in Hs' as [Hs' _].
      destruct (read_spec env db) as (Hsel & _).
      destruct (Hsel e' He') as [Hin' _].
      assert (e' = e) as ->; [|congruence].
      clear -Hnd Hin Hin' Hid. induction (Order.outbox_events db) as [|a l IHl];
        [destruct Hin|].
      simpl in Hnd. inversion Hnd as [|? ? Ha Hnd']; subst.
      destruct Hin as [->|Hin], Hin' as [->|Hin']; auto.
      - exfalso. apply Ha. rewrite <- Hid. apply in_map, Hin'.
      - exfalso. apply Ha. rewrite Hid. apply in_map, Hin. }
    assert (List.NoDup (map OutboxID (Order.outbox_events db1))) as Hnd1.
    { rewrite Hrows, map_map.
      erewrite map_ext; [exact Hnd|]. intros a. unfold mark_all.
      destruct (existsb _ _); reflexivity. }
    destruct (IH db1 bus1 e Hnd1 Hin1 Hbad) as [H1 H2]. split; [exact H1|].
    intros m Hm. destruct (H2 m Hm) as [Hb|Hv]; [|right; exact Hv].
    rewrite Hbus in Hb. apply in_app_or in Hb as [Hb|Hb]; [left; exact Hb|right].
    apply in_map_iff in Hb as (e' & <- & He'). apply filter_In in He' as [_ Hs'].
    cbn. intros E. unfold sendable in Hs', Hbad. rewrite E in Hs'.
    destruct (worker.Unmarshal (Payload e)); discriminate.
Qed.

(** X15.  A row whose payload does not decode into a map (a JSON array, a
    string, a number) is stuck: over any number of ticks, whatever the
    publisher does, the row stays in the table as it is, so it is read again
    at every tick while PENDING, and no message with its payload reaches
    the bus.  (Outbox ids are distinct.) *)
Theorem undecodable_row_is_never_sent runs db bus e err :
  List.NoDup (map OutboxID (Order.outbox_events db)) ->
  In e (Order.outbox_events db) ->
  worker.Unmarshal (Payload e) = Err err ->
  In e (Order.outbox_events (fst (ticks runs db bus)))
  /\ forall m, In m (snd (ticks runs db bus)) ->
       In m bus \/ messaging.pm_Value m <> Payload e.
Proof.
  intros Hnd Hin Hbad. apply ticks_spec; [exact Hnd|exact Hin|].
  unfold sendable. rewrite Hbad. reflexivity.
Qed.

Lemma undecodable_row_is_never_sent_witness :
  In extra_scenario.stuck_row
    (Order.outbox_events
       (fst (ticks [(order_scenario.order_env, bus_scenario.never_fails);
                    (order_scenario.order_env, bus_scenario.never_fails)]
               extra_scenario.stuck_db [])))
  /\ forall m,
       In m (snd (ticks [(order_scenario.order_env, bus_scenario.never_fails);
                         (order_scenario.order_env, bus_scenario.never_fails)]
                    extra_scenario.stuck_db [])) ->
       In m [] \/ messaging.pm_Value m <> Payload extra_scenario.stuck_row.
Proof.
  apply (undecodable_row_is_never_sent
           [(order_scenario.order_env, bus_scenario.never_fails);
            (order_scenario.order_env, bus_scenario.never_fails)]
           extra_scenario.stuck_db [] extra_scenario.stuck_row
           (errors.ErrorString
              "json: cannot unmarshal into Go value of type map[string]interface {}")).
  - simpl. constructor; [intros []|constructor].
  - left. reflexivity.
  - reflexivity.
Defined.

End RelayProps.

(** ** Payment service *)

Module PaymentExtraProps.
Import Payment ListFacts.

Lemma find_some_existsb {A} (f : A -> bool) l x :
  find f l = Some x -> existsb f l = true.
Proof.
  induction l as [|y l IH]; simpl; [discriminate|].
  destruct (f y); simpl; auto.
Qed.

(** X16.  [Refund] succeeds exactly on a COMPLETED payment; it then sets
    the status REFUNDED, the reason and [UpdatedAt] and keeps every other
    field (id, order, amount, payment type, key, gateway transaction id,
    [CreatedAt]); a [Refund] that returns [false] changes nothing; after a
    successful one a second [Refund] returns [false], so a payment is
    refunded at most once. *)
Theorem Refund_at_most_once t1 t2 p reason1 reason2 :
  let p1 := snd (Refund t1 p reason1) in
  (fst (Refund t1 p reason1) = true <-> Status p = PaymentStatusCompleted)
  /\ (fst (Refund t1 p reason1) = false -> p1 = p)
  /\ (fst (Refund t1 p reason1) = true ->
      p1 = {| ID := ID p; OrderID := OrderID p; Amount := Amount p;
              PaymentType := PaymentType p; Status := PaymentStatusRefunded;
              IdempotencyKey := IdempotencyKey p;
              PaymentGatewayTxID := PaymentGatewayTxID p; Reason := reason1;
              CreatedAt := CreatedAt p; UpdatedAt := t1 |}
      /\ Refund t2 p1 reason2 = (false, p1)).
Proof.
  cbv zeta. unfold Refund, CanRefund.
  destruct (Status p) eqn:Hs; cbn; repeat split; try discriminate; auto.
Qed.

Lemma InsertTx_Commit_keys env tx event db :
  keys_consistent db -> tx = [] ->
  (forall r d, InsertTx env tx event db = (r, d) ->
     keys_consistent d /\ payments d = payments db
     /\ outbox_events d = outbox_events db)
  /\ (forall tx1 row d d2, InsertTx env tx event db = (Ok (tx1, row), d) ->
        Commit env tx1 d = Ok d2 ->
        keys_consistent d2 /\ payments d2 = payments db
        /\ outbox_events d2 = (outbox_events db ++ [row])%list
        /\ row = {| OutboxID := outbox_events_id_seq db + 1;
                    AggregateType := AggregateType event;
                    AggregateID := AggregateID event;
                    OutboxEventType := OutboxEventType event;
                    Payload := Payload event; OutboxStatus := OutboxStatus event;
                    OutboxCreatedAt := OutboxCreatedAt event; SentAt := None |}).
Proof.
  intros (Hid & Hseq & Hkey & Hob & Hobseq) ->. unfold InsertTx, Commit. split.
  - intros r d. destruct (fail_InsertTx env); intros [= _ <-]; cbn.
    + repeat split; assumption.
    + repeat split; try assumption. cbn.
      apply (OrderKeysProps.Forall_le_weaken OutboxID (outbox_events_id_seq db));
        [lia|exact Hobseq].
  - intros tx1 row d d2. destruct (fail_InsertTx env); [discriminate|].
    intros [= <- <- <-]. destruct (fail_Commit env); [discriminate|].
    intros [= <-]. cbn. repeat split; try assumption; cbn.
    + apply (OrderKeysProps.NoDup_map_snoc OutboxID); [exact Hob|]. intros x Hx. cbn.
      rewrite List.Forall_forall in Hobseq. specialize (Hobseq x Hx). cbn in Hobseq. lia.
    + apply List.Forall_app. split.
      * apply (OrderKeysProps.Forall_le_weaken OutboxID (outbox_events_id_seq db));
          [lia|exact Hobseq].
      * constructor; [cbn; lia|constructor].
Qed.

Lemma payment_Create_keeps_keys env payment db r db1 :
  keys_consistent db ->
  Create env payment db = (r, db1) ->
  keys_consistent db1 /\ outbox_events db1 = outbox_events db.
Proof.
  intros (Hid & Hseq & Hkey & Hob & Hobseq). unfold Create.
  destruct (fail_Create env).
  { intros [= _ <-]. repeat split; assumption. }
  destruct (existsb _ (payments db)) eqn:Hfresh; intros [= _ <-]; cbn.
  - repeat split; try assumption. cbn.
    apply (OrderKeysProps.Forall_le_weaken ID (payments_id_seq db)); [lia|exact Hseq].
  - repeat split; cbn; try assumption.
    + apply OrderKeysProps.NoDup_map_snoc; [exact Hid|]. intros x Hx. cbn.
      rewrite List.Forall_forall in Hseq. specialize (Hseq x Hx). cbn in Hseq. lia.
    + apply List.Forall_app. split.
      * apply (OrderKeysProps.Forall_le_weaken ID (payments_id_seq db)); [lia|exact Hseq].
      * constructor; [cbn; lia|constructor].
    + apply OrderKeysProps.NoDup_map_snoc; [exact Hkey|]. intros x Hx. cbn.
      intros E. assert (existsb (fun p => String.eqb (IdempotencyKey p)
                                   (IdempotencyKey payment)) (payments db) = true) as Hex.
      { apply existsb_exists. exists x. split; [exact Hx|]. apply String.eqb_eq. exact E. }
      rewrite Hex in Hfresh. discriminate.
Qed.

Lemma UpdateStatus_keeps_keys env id st reason db r db1 :
  keys_consistent db ->
  UpdateStatus env id st reason db = (r, db1) ->
  keys_consistent db1 /\ outbox_events db1 = outbox_events db.
Proof.
  intros (Hid & Hseq & Hkey & Hob & Hobseq). unfold UpdateStatus.
  destruct (fail_UpdateStatus env); [intros [= _ <-]; repeat split; assumption|].
  destruct (assign_varchar 500 reason) as [stored|e];
    intros [= _ <-]; [|repeat split; assumption].
  assert (forall rows,
    map ID (map (fun p => if ID p =? id
       then {| ID := ID p; OrderID := OrderID p; Amount := Amount p;
               PaymentType := PaymentType p; Status := st;
               IdempotencyKey := IdempotencyKey p;
               PaymentGatewayTxID := PaymentGatewayTxID p; Reason := stored;
               CreatedAt := CreatedAt p; UpdatedAt := now env |} else p) rows) = map ID rows
    /\ map IdempotencyKey (map (fun p => if ID p =? id
       then {| ID := ID p; OrderID := OrderID p; Amount := Amount p;
               PaymentType := PaymentType p; Status := st;
               IdempotencyKey := IdempotencyKey p;
               PaymentGatewayTxID := PaymentGatewayTxID p; Reason := stored;
               CreatedAt := CreatedAt p; UpdatedAt := now env |} else p) rows)
       = map IdempotencyKey rows) as Hmap.
  { intros rows. rewrite !map_map. split; apply map_ext; intros p;
      destruct (ID p =? id); reflexivity. }
  destruct (Hmap (payments db)) as [HI HK].
  unfold keys_consistent. cbn. rewrite HI, HK. repeat split; try assumption.
  rewrite List.Forall_forall in *. intros p' Hp'.
  apply in_map_iff in Hp' as (p & <- & Hp). specialize (Hseq p Hp).
  destruct (ID p =? id); exact Hseq.
Qed.

Lemma HandleOrderCreated_keeps_keys env evt db :
  keys_consistent db -> keys_consistent (snd (HandleOrderCreated env evt db)).
Proof.
  intros Hk. unfold HandleOrderCreated.
  destruct (FindByIdempotencyKey _ _ _); [exact Hk|].
  unfold BeginTx. destruct (fail_BeginTx env); [exact Hk|].
  destruct (processPayment _ _ _) as [txid|e1].
  - destruct (Create env _ db) as [[p|e2] d1] eqn:Hc;
      destruct (payment_Create_keeps_keys _ _ _ _ _ Hk Hc) as [Hk1 _]; [|exact Hk1].
    destruct (InsertTx_Commit_keys env []
                (pending env (ID p) events.EventPaymentCompleted
                   (PaymentCompletedEvent env evt p)) d1 Hk1 eq_refl) as [Hi Hc2].
    destruct (InsertTx env [] _ d1) as [[[tx1 row]|e3] d2] eqn:Hins;
      [|exact (proj1 (Hi _ _ eq_refl))].
    destruct (Commit env tx1 d2) as [d3|e4] eqn:Hcm;
      [exact (proj1 (Hc2 _ _ _ _ eq_refl Hcm))|exact (proj1 (Hi _ _ eq_refl))].
  - unfold publishPaymentFailed.
    destruct (InsertTx_Commit_keys env []
                (pending env (oc_OrderID evt) events.EventPaymentFailed
                   (PaymentFailedEvent env evt (errors.Error e1))) db Hk eq_refl)
      as [Hi Hc2].
    destruct (InsertTx env [] _ db) as [[[tx1 row]|e3] d2] eqn:Hins;
      [|exact (proj1 (Hi _ _ eq_refl))].
    destruct (Commit env tx1 d2) as [d3|e4] eqn:Hcm;
      [exact (proj1 (Hc2 _ _ _ _ eq_refl Hcm))|exact (proj1 (Hi _ _ eq_refl))].
Qed.

Lemma HandleStockReservationFailed_keeps_keys env evt db :
  keys_consistent db -> keys_consistent (snd (HandleStockReservationFailed env evt db)).
Proof.
  intros Hk. unfold HandleStockReservationFailed.
  destruct (FindByOrderID _ _ _) as [p|e0]; [|exact Hk].
  destruct (PaymentStatus_eqb _ _); [exact Hk|].
  unfold BeginTx. destruct (fail_BeginTx env); [exact Hk|].
  destruct (UpdateStatus env _ _ _ db) as [[e1|] d1] eqn:Hu;
    destruct (UpdateStatus_keeps_keys _ _ _ _ _ _ _ Hk Hu) as [Hk1 _]; [exact Hk1|].
  destruct (InsertTx_Commit_keys env []
              (pending env (ID p) events.EventPaymentRefunded
                 (PaymentRefundedEvent env evt p)) d1 Hk1 eq_refl) as [Hi Hc2].
  destruct (InsertTx env [] _ d1) as [[[tx1 row]|e3] d2] eqn:Hins;
    [|exact (proj1 (Hi _ _ eq_refl))].
  destruct (Commit env tx1 d2) as [d3|e4] eqn:Hcm;
    [exact (proj1 (Hc2 _ _ _ _ eq_refl Hcm))|exact (proj1 (Hi _ _ eq_refl))].
Qed.

Lemma consume_all_keeps_keys evs : forall db,
  keys_consistent db -> keys_consistent (consume_all evs db).
Proof.
  unfold consume_all. induction evs as [|ev evs IH]; intros db Hk; simpl; [exact Hk|].
  apply IH. destruct ev; simpl;
    [apply HandleOrderCreated_keeps_keys|apply HandleStockReservationFailed_keeps_keys];
    exact Hk.
Qed.

Lemma NoDup_map_count {A} (f : A -> string) k l :
  List.NoDup (map f l) -> (length (List.filter (fun x => String.eqb (f x) k) l) <= 1)%nat.
Proof.
  induction l as [|a l IH]; simpl; [lia|]. intros Hnd.
  inversion Hnd as [|? ? Ha Hnd']; subst. specialize (IH Hnd').
  destruct (String.eqb_spec (f a) k) as [E|N]; simpl; [|exact IH].
  assert (List.filter (fun x => String.eqb (f x) k) l = []) as ->; [|simpl; lia].
  apply existsb_filter_nil. destruct (existsb _ l) eqn:Hex; [|reflexivity].
  exfalso. apply existsb_exists in Hex as (x & Hx & Hk). apply String.eqb_eq in Hk.
  apply Ha. rewrite E, <- Hk. apply in_map, Hx.
Qed.

(** X17.  However often and in whatever order events are delivered to the
    payment service, whatever the driver and the gateway do: payment ids
    and outbox ids stay distinct and below their sequences, no two payments
    share an idempotency key, and so at most one payment row exists for an
    [OrderCreated] event. *)
Theorem at_most_one_payment_per_event evs db evt :
  keys_consistent db ->
  keys_consistent (consume_all evs db)
  /\ (length (List.filter (fun p => String.eqb (IdempotencyKey p) (idempotency_key evt))
                (payments (consume_all evs db))) <= 1)%nat.
Proof.
  intros Hk. pose proof (consume_all_keeps_keys evs db Hk) as Hk1.
  split; [exact Hk1|]. apply NoDup_map_count. apply Hk1.
Qed.

Lemma at_most_one_payment_per_event_witness :
  keys_consistent
    (consume_all
       [OrderCreated payment_scenario.env payment_scenario.order_created;
        OrderCreated payment_scenario.env_lookup_fails payment_scenario.order_created;
        StockReservationFailed payment_scenario.env
          payment_scenario.stock_reservation_failed]
       payment_scenario.empty_db)
  /\ (length
        (List.filter
           (fun p => String.eqb (IdempotencyKey p)
                       (idempotency_key payment_scenario.order_created))
           (payments
              (consume_all
                 [OrderCreated payment_scenario.env payment_scenario.order_created;
                  OrderCreated payment_scenario.env_lookup_fails
                    payment_scenario.order_created;
                  StockReservationFailed payment_scenario.env
                    payment_scenario.stock_reservation_failed]
                 payment_scenario.empty_db))) <= 1)%nat.
Proof.
  apply (at_most_one_payment_per_event
           [OrderCreated payment_scenario.env payment_scenario.order_created;
            OrderCreated payment_scenario.env_lookup_fails payment_scenario.order_created;
            StockReservationFailed payment_scenario.env
              payment_scenario.stock_reservation_failed]
           payment_scenario.empty_db payment_scenario.order_created).
  unfold keys_consistent. simpl. repeat split; constructor.
Defined.

Lemma healthy_flags env :
  healthy env = true ->
  fail_FindByIdempotencyKey env = false /\ fail_FindByOrderID env = false
  /\ fail_BeginTx env = false /\ fail_Create env = false
  /\ fail_UpdateStatus env = false /\ fail_InsertTx env = false
  /\ fail_Commit env = false.
Proof.
  unfold healthy. intros H. apply negb_true_iff in H.
  repeat (apply orb_false_iff in H as [H ?]). repeat split; assumption.
Qed.

(** X18.  A decline of the gateway: with a driver that does not fail and a
    key not yet taken, [HandleOrderCreated] writes no payment row, commits
    one PENDING [payment.failed.v1] outbox row for the order and returns an
    error all the same; the key stays free, so a later delivery of the same
    event is handled afresh. *)
Theorem declined_payment_leaves_no_row env evt db :
  healthy env = true ->
  gateway_declines env = true ->
  key_taken (idempotency_key evt) db = false ->
  exists row,
    HandleOrderCreated env evt db
    = (Some (errors.ErrorString
               "payment failed: [PAYMENT_DECLINED] payment declined by gateway"),
       {| payments := payments db; payments_id_seq := payments_id_seq db;
          outbox_events := (outbox_events db ++ [row])%list;
          outbox_events_id_seq := outbox_events_id_seq db + 1 |})
    /\ OutboxEventType row = events.EventPaymentFailed
    /\ OutboxStatus row = "PENDING"
    /\ AggregateID row = oc_OrderID evt
    /\ worker.order_id_of row = Some (oc_OrderID evt)
    /\ key_taken (idempotency_key evt)
         (snd (HandleOrderCreated env evt db)) = false.
Proof.
  intros Hh Hd Hfree. destruct (healthy_flags env Hh) as (H1 & H2 & H3 & H4 & H5 & H6 & H7).
  unfold HandleOrderCreated, FindByIdempotencyKey, BeginTx, processPayment,
    publishPaymentFailed, InsertTx, Commit.
  rewrite H1, H3, Hd, H6, H7.
  unfold key_taken in Hfree.
  destruct (find _ (payments db)) as [p|] eqn:Hfind.
  { apply find_some_existsb in Hfind. rewrite Hfind in Hfree. discriminate. }
  eexists. split; [reflexivity|]. cbn. repeat split. exact Hfree.
Qed.

Lemma declined_payment_leaves_no_row_witness :
  exists row,
    HandleOrderCreated extra_scenario.env_declined payment_scenario.order_created
      payment_scenario.empty_db
    = (Some (errors.ErrorString
               "payment failed: [PAYMENT_DECLINED] payment declined by gateway"),
       {| payments := []; payments_id_seq := 0;
          outbox_events := ([] ++ [row])%list;
          outbox_events_id_seq := 0 + 1 |})
    /\ OutboxEventType row = events.EventPaymentFailed
    /\ OutboxStatus row = "PENDING"
    /\ AggregateID row = 7
    /\ worker.order_id_of row = Some 7
    /\ key_taken (idempotency_key payment_scenario.order_created)
         (snd (HandleOrderCreated extra_scenario.env_declined
                 payment_scenario.order_created payment_scenario.empty_db)) = false.
Proof.
  apply (declined_payment_leaves_no_row extra_scenario.env_declined
           payment_scenario.order_created payment_scenario.empty_db).
  - reflexivity.
  - reflexivity.
  - reflexivity.
Defined.

Lemma latest_map (f : Payment -> Payment) rows :
  (forall p, CreatedAt (f p) = CreatedAt p) ->
  latest (map f rows) = option_map f (latest rows).
Proof.
  intros Hf. unfold latest.
  assert (forall acc,
    fold_left (fun best p => match best with
                             | None => Some p
                             | Some b => if CreatedAt b <=? CreatedAt p then Some p else Some b
                             end) (map f rows) (option_map f acc)
    = option_map f
        (fold_left (fun best p => match best with
                                  | None => Some p
                                  | Some b => if CreatedAt b <=? CreatedAt p then Some p else Some b
                                  end) rows acc)) as H.
  { induction rows as [|p rows IH]; intros acc; simpl; [reflexivity|].
    destruct acc as [b|]; simpl.
    - rewrite !Hf. destruct (CreatedAt b <=? CreatedAt p); apply (IH (Some _)).
    - apply (IH (Some p)). }
  exact (H None).
Qed.

Lemma filter_map_commute {A} (f : A -> A) (g : A -> bool) rows :
  (forall x, g (f x) = g x) ->
  List.filter g (map f rows) = map f (List.filter g rows).
Proof.
  intros Hg. induction rows as [|a rows IH]; simpl; [reflexivity|].
  rewrite Hg. destruct (g a); simpl; rewrite IH; reflexivity.
Qed.

(** X19.  The refund is applied once.  When [HandleStockReservationFailed]
    finds a payment of the order that is not REFUNDED, the [VARCHAR(500)]
    column [reason] takes the reason of the event (it has at most 500
    characters, or only spaces beyond them) and no call fails, it returns
    success, leaves the payment REFUNDED with the reason as the column
    stores it and commits one PENDING [payment.refunded.v1] row carrying
    the payment's id and the order id; a second handling for the same order
    then returns success and changes nothing, so no second
    [PaymentRefunded] is written.  The status the payment had (COMPLETED,
    PENDING or FAILED) is not looked at. *)
Theorem refund_is_applied_once env env2 evt evt2 db p reason :
  healthy env = true ->
  fail_FindByOrderID env2 = false ->
  srf_OrderID evt2 = srf_OrderID evt ->
  FindByOrderID env (srf_OrderID evt) db = Ok p ->
  Status p <> PaymentStatusRefunded ->
  assign_varchar 500 (srf_Reason evt) = Ok reason ->
  let db1 := snd (HandleStockReservationFailed env evt db) in
  fst (HandleStockReservationFailed env evt db) = None
  /\ (exists row,
        outbox_events db1 = (outbox_events db ++ [row])%list
        /\ OutboxEventType row = events.EventPaymentRefunded
        /\ OutboxStatus row = "PENDING"
        /\ AggregateID row = ID p
        /\ worker.order_id_of row = Some (srf_OrderID evt))
  /\ (exists p1, FindByOrderID env2 (srf_OrderID evt) db1 = Ok p1
        /\ ID p1 = ID p /\ Status p1 = PaymentStatusRefunded
        /\ Reason p1 = reason /\ Amount p1 = Amount p)
  /\ HandleStockReservationFailed env2 evt2 db1 = (None, db1).
Proof.
  intros Hh Hf2 Hsame Hfind Hst Hreason. cbv zeta.
  destruct (healthy_flags env Hh) as (H1 & H2 & H3 & H4 & H5 & H6 & H7).
  assert (PaymentStatus_eqb (Status p) PaymentStatusRefunded = false) as Hneq
    by (destruct (Status p); try reflexivity; contradiction).
  destruct (HandleStockReservationFailed env evt db) as [r d1] eqn:Hcall.
  unfold HandleStockReservationFailed in Hcall. rewrite Hfind, Hneq in Hcall.
  unfold BeginTx, UpdateStatus, InsertTx, Commit in Hcall.
  rewrite H3, H5, Hreason, H6, H7 in Hcall. injection Hcall as <- Hd1. cbn [fst snd].
  split; [reflexivity|]. split.
  { eexists. rewrite <- Hd1. split; [reflexivity|]. cbn. repeat split. }
  set (upd := fun q : Payment =>
         if ID q =? ID p
         then {| ID := ID q; OrderID := OrderID q; Amount := Amount q;
                 PaymentType := PaymentType q; Status := PaymentStatusRefunded;
                 IdempotencyKey := IdempotencyKey q;
                 PaymentGatewayTxID := PaymentGatewayTxID q;
                 Reason := reason; CreatedAt := CreatedAt q;
                 UpdatedAt := now env |}
         else q).
  assert (payments d1 = map upd (payments db)) as Hrows by (rewrite <- Hd1; reflexivity).
  assert (FindByOrderID env2 (srf_OrderID evt) d1 = Ok (upd p)) as Hfind2.
  { unfold FindByOrderID in *. rewrite Hf2, H2 in *. rewrite Hrows.
    rewrite (filter_map_commute upd (fun q => OrderID q =? srf_OrderID evt)).
    - rewrite latest_map.
      + destruct (latest _) as [q|]; [|discriminate]. injection Hfind as ->. reflexivity.
      + intros q. unfold upd. destruct (ID q =? ID p); reflexivity.
    - intros q. unfold upd. destruct (ID q =? ID p); reflexivity. }
  assert (upd p = {| ID := ID p; OrderID := OrderID p; Amount := Amount p;
                     PaymentType := PaymentType p; Status := PaymentStatusRefunded;
                     IdempotencyKey := IdempotencyKey p;
                     PaymentGatewayTxID := PaymentGatewayTxID p;
                     Reason := reason; CreatedAt := CreatedAt p;
                     UpdatedAt := now env |}) as Hupd
    by (unfold upd; rewrite Z.eqb_refl; reflexivity).
  split.
  - exists (upd p). split; [exact Hfind2|]. rewrite Hupd. repeat split.
  - unfold HandleStockReservationFailed. rewrite Hsame, Hfind2, Hupd. reflexivity.
Qed.

Lemma refund_is_applied_once_witness :
  let db1 := snd (HandleStockReservationFailed payment_scenario.env
                    payment_scenario.stock_reservation_failed
                    payment_scenario.paid_db) in
  fst (HandleStockReservationFailed payment_scenario.env
         payment_scenario.stock_reservation_failed payment_scenario.paid_db) = None
  /\ (exists row,
        outbox_events db1 = (outbox_events payment_scenario.paid_db ++ [row])%list
        /\ OutboxEventType row = events.EventPaymentRefunded
        /\ OutboxStatus row = "PENDING"
        /\ AggregateID row = ID extra_scenario.payment_of_order_7
        /\ worker.order_id_of row
           = Some (srf_OrderID payment_scenario.stock_reservation_failed))
  /\ (exists p1,
        FindByOrderID payment_scenario.env
          (srf_OrderID payment_scenario.stock_reservation_failed) db1 = Ok p1
        /\ ID p1 = ID extra_scenario.payment_of_order_7
        /\ Status p1 = PaymentStatusRefunded
        /\ Reason p1 = srf_Reason payment_scenario.stock_reservation_failed
        /\ Amount p1 = Amount extra_scenario.payment_of_order_7)
  /\ HandleStockReservationFailed payment_scenario.env
       payment_scenario.stock_reservation_failed db1 = (None, db1).
Proof.
  apply (refund_is_applied_once payment_scenario.env payment_scenario.env
           payment_scenario.stock_reservation_failed
           payment_scenario.stock_reservation_failed
           payment_scenario.paid_db extra_scenario.payment_of_order_7
           (srf_Reason payment_scenario.stock_reservation_failed)).
  - reflexivity.
  - reflexivity.
  - reflexivity.
  - vm_compute. reflexivity.
  - discriminate.
  - vm_compute. reflexivity.
Defined.

(** A reason the column refuses: the [UPDATE] fails, the handler returns a
    [DATABASE_ERROR], and the payment and the outbox stay as they were. *)
Lemma refused_reason_refunds_nothing env evt db p e :
  healthy env = true ->
  FindByOrderID env (srf_OrderID evt) db = Ok p ->
  Status p <> PaymentStatusRefunded ->
  assign_varchar 500 (srf_Reason evt) = Err e ->
  HandleStockReservationFailed env evt db
  = (Some (errors.Wrap errors.ErrCodeDatabaseError "failed to update payment status"
             (errors.Errorf "failed to update payment status: " e)), db).
Proof.
  intros Hh Hfind Hst Hreason.
  destruct (healthy_flags env Hh) as (H1 & H2 & H3 & H4 & H5 & H6 & H7).
  assert (PaymentStatus_eqb (Status p) PaymentStatusRefunded = false) as Hneq
    by (destruct (Status p); try reflexivity; contradiction).
  unfold HandleStockReservationFailed. rewrite Hfind, Hneq.
  unfold BeginTx, UpdateStatus. rewrite H3, H5, Hreason. reflexivity.
Qed.

End PaymentExtraProps.

(** ** Inventory service: what a handler commits *)

Module InventoryOutcomeProps.
Import Inventory ListFacts.

Lemma publish_outcome env tx evt reason db err db1 :
  aborted tx = false \/ aborted tx = true ->
  view tx = tables db ->
  publishStockReservationFailed env tx evt reason db = (err, db1) ->
  err <> None
  /\ (tables db1 = tables db
      \/ exists row,
           tables db1 = {| inventory := inventory (tables db);
                           stock_reservations := stock_reservations (tables db);
                           outbox_events := (outbox_events (tables db) ++ [row])%list |}
           /\ is_failure reason row = true
           /\ OutboxStatus row = "PENDING"
           /\ worker.correlation_of row = Some (pc_CorrelationID evt)
           /\ worker.order_id_of row = Some (pc_OrderID evt))
  /\ stock_reservations_id_seq db1 = stock_reservations_id_seq db.
Proof.
  intros _ Hview. unfold publishStockReservationFailed, InsertOutbox, Commit.
  destruct (aborted tx); [intros [= <- <-]; repeat split; [discriminate|left; reflexivity]|].
  destruct (fail_InsertOutbox env);
    [intros [= <- <-]; repeat split; [discriminate|left; reflexivity]|].
  destruct (fail_Commit env); cbn [aborted];
    [intros [= <- <-]; repeat split; [discriminate|left; reflexivity]|].
  intros [= <- <-]. repeat split; [discriminate|]. right. eexists. cbn [tables view].
  rewrite Hview. split; [reflexivity|]. cbn.
  unfold is_failure. cbn. rewrite String.eqb_refl. repeat split.
Qed.

(** What [HandlePaymentCompleted] can leave behind. *)
Lemma HandlePaymentCompleted_outcome env evt db :
  let err := fst (HandlePaymentCompleted env evt db) in
  let db1 := snd (HandlePaymentCompleted env evt db) in
  tables db1 = tables db
  \/ (err <> None
      /\ exists reason row,
           tables db1 = {| inventory := inventory (tables db);
                           stock_reservations := stock_reservations (tables db);
                           outbox_events := (outbox_events (tables db) ++ [row])%list |}
           /\ stock_reservations_id_seq db1 = stock_reservations_id_seq db
           /\ is_failure reason row = true
           /\ OutboxStatus row = "PENDING"
           /\ worker.correlation_of row = Some (pc_CorrelationID evt)
           /\ worker.order_id_of row = Some (pc_OrderID evt))
  \/ (err = None
      /\ exists row reservation event key,
           inventory (tables db) !! 1 = Some row
           /\ 1 <= AvailableQuantity row
           /\ tables db1
              = {| inventory := <[1 := reserved_row env row]> (inventory (tables db));
                   stock_reservations :=
                     (stock_reservations (tables db) ++ [reservation])%list;
                   outbox_events := (outbox_events (tables db) ++ [event])%list |}
           /\ stock_reservations_id_seq db1 = stock_reservations_id_seq db + 1
           /\ reservation
              = {| ID := stock_reservations_id_seq db + 1; OrderID := pc_OrderID evt;
                   ProductID := 1; Quantity := 1; Status := RESERVED;
                   IdempotencyKey := key;
                   ExpiredAt := now env + 1800; CreatedAt := now env;
                   ReservationUpdatedAt := now env |}
           /\ assign_varchar 64 (idempotency_key evt) = Ok key
           /\ existsb (fun r => String.eqb (IdempotencyKey r) key)
                (stock_reservations (tables db)) = false
           /\ OutboxEventType event = events.EventStockReserved
           /\ AggregateID event = ID reservation
           /\ OutboxStatus event = "PENDING"
           /\ worker.correlation_of event = Some (pc_CorrelationID evt)
           /\ worker.order_id_of event = Some (pc_OrderID evt)).
Proof.
  cbv zeta. unfold HandlePaymentCompleted.
  destruct (QueryReservationByKey _ _ _) as [id0|e0]; [left; reflexivity|].
  unfold BeginTx. destruct (fail_BeginTx env); [left; reflexivity|].
  unfold SelectInventory. cbn [aborted view].
  destruct (fail_SelectInventory env).
  { destruct (publishStockReservationFailed _ _ _ _ _) as [err db1] eqn:Hp.
    apply publish_outcome in Hp as (He & [Ht|(row & Ht & Hrow)] & Hs);
      [left; exact Ht| |auto|reflexivity].
    right. left. split; [exact He|]. exists "product not found", row. tauto. }
  destruct (inventory (tables db) !! 1) as [row|] eqn:Hrow.
  2:{ destruct (publishStockReservationFailed _ _ _ _ _) as [err db1] eqn:Hp.
      apply publish_outcome in Hp as (He & [Ht|(row & Ht & Hr)] & Hs);
        [left; exact Ht| |auto|reflexivity].
      right. left. split; [exact He|]. exists "product not found", row. tauto. }
  destruct (Z.ltb_spec (AvailableQuantity row) 1) as [Hlt|Hge].
  { destruct (publishStockReservationFailed _ _ _ _ _) as [err db1] eqn:Hp.
    apply publish_outcome in Hp as (He & [Ht|(row1 & Ht & Hr)] & Hs);
      [left; exact Ht| |auto|reflexivity].
    right. left. split; [exact He|]. exists "insufficient stock", row1. tauto. }
  unfold in_tx, update_inventory. cbn [aborted view].
  destruct (fail_UpdateInventory env); [left; reflexivity|].
  rewrite Hrow, Z.eqb_refl.
  destruct (in_int32 _ && in_int32 _ && _); [|left; reflexivity].
  cbn [Z.eqb]. unfold InsertReservation. cbn [aborted view set_inventory stock_reservations].
  destruct (fail_InsertReservation env); [left; reflexivity|].
  destruct (assign_varchar 64 (idempotency_key evt)) as [key|e1] eqn:Hkey;
    [|left; reflexivity].
  destruct (existsb _ (stock_reservations (tables db))) eqn:Hfresh; [left; reflexivity|].
  unfold InsertOutbox, Commit. cbn [aborted view].
  destruct (fail_InsertOutbox env); [left; reflexivity|].
  destruct (fail_Commit env); [left; reflexivity|].
  right. right. split; [reflexivity|]. do 3 eexists. exists key. cbn [fst snd tables].
  split; [reflexivity|]. split; [exact Hge|]. split.
  { reflexivity. }
  split; [reflexivity|]. split; [reflexivity|]. split; [reflexivity|].
  split; [exact Hfresh|].
  cbn. repeat split.
Qed.

(** What [HandlePaymentRefunded] can leave behind. *)
Lemma HandlePaymentRefunded_outcome env evt db :
  let err := fst (HandlePaymentRefunded env evt db) in
  let db1 := snd (HandlePaymentRefunded env evt db) in
  tables db1 = tables db
  \/ (err = None
      /\ exists reservation event,
           In reservation (stock_reservations (tables db))
           /\ OrderID reservation = pr_OrderID evt
           /\ Status reservation = RESERVED
           /\ tables db1
              = {| inventory :=
                     match inventory (tables db) !! ProductID reservation with
                     | Some row =>
                         <[ProductID reservation :=
                             restored_row env (Quantity reservation) row]>
                           (inventory (tables db))
                     | None => inventory (tables db)
                     end;
                   stock_reservations :=
                     map (canceled env (ID reservation)) (stock_reservations (tables db));
                   outbox_events := (outbox_events (tables db) ++ [event])%list |}
           /\ stock_reservations_id_seq db1 = stock_reservations_id_seq db
           /\ (forall row, inventory (tables db) !! ProductID reservation = Some row ->
                 in_int32 (AvailableQuantity row + Quantity reservation) = true
                 /\ in_int32 (ReservedQuantity row - Quantity reservation) = true)
           /\ OutboxEventType event = events.EventStockRestored
           /\ AggregateID event = ID reservation
           /\ OutboxStatus event = "PENDING"
           /\ worker.correlation_of event = Some (pr_CorrelationID evt)
           /\ worker.order_id_of event = Some (pr_OrderID evt)).
Proof.
  cbv zeta. unfold HandlePaymentRefunded, QueryActiveReservation.
  destruct (fail_QueryReservation env); [left; reflexivity|].
  destruct (find _ (stock_reservations (tables db))) as [r|] eqn:Hfind; [|left; reflexivity].
  apply find_some in Hfind as [Hin Hr]. apply andb_true_iff in Hr as [Ho Hs].
  apply Z.eqb_eq in Ho.
  unfold BeginTx. destruct (fail_BeginTx env); [left; reflexivity|].
  unfold in_tx. cbn [aborted view].
  destruct (fail_UpdateInventory env); [left; reflexivity|].
  unfold update_inventory. cbv zeta.
  destruct (inventory (tables db) !! ProductID r) as [row|] eqn:Hrow; rewrite ?Hrow.
  - destruct (in_int32 (AvailableQuantity row + Quantity r)) eqn:Ha; [|left; reflexivity].
    destruct (in_int32 (ReservedQuantity row - Quantity r)) eqn:Hb; [|left; reflexivity].
    destruct (Version row + 1 <=? max_int64); [|left; reflexivity].
    cbn [andb]. unfold CancelReservation, in_tx. cbn [aborted view].
    destruct (fail_UpdateReservation env); [left; reflexivity|].
    unfold InsertOutbox, Commit. cbn [aborted view].
    destruct (fail_InsertOutbox env); [left; reflexivity|].
    destruct (fail_Commit env); [left; reflexivity|].
    right. split; [reflexivity|]. exists r. eexists. rewrite ?Hrow.
    cbn [fst snd tables aborted view set_inventory inventory stock_reservations outbox_events].
    split; [exact Hin|]. split; [exact Ho|].
    split; [destruct (Status r); try discriminate; reflexivity|].
    split; [reflexivity|]. split; [reflexivity|].
    split; [intros row0 [= <-]; split; assumption|]. cbn. repeat split.
  - unfold CancelReservation, in_tx. cbn [aborted view].
    destruct (fail_UpdateReservation env); [left; reflexivity|].
    unfold InsertOutbox, Commit. cbn [aborted view].
    destruct (fail_InsertOutbox env); [left; reflexivity|].
    destruct (fail_Commit env); [left; reflexivity|].
    right. split; [reflexivity|]. exists r. eexists. rewrite ?Hrow.
    cbn [fst snd tables aborted view set_inventory inventory stock_reservations outbox_events].
    split; [exact Hin|]. split; [exact Ho|].
    split; [destruct (Status r); try discriminate; reflexivity|].
    split; [reflexivity|]. split; [reflexivity|].
    split; [intros row0 [=]|]. cbn. repeat split.
Qed.

Lemma HandlePaymentCompleted_seq env evt db :
  stock_reservations_id_seq db
  <= stock_reservations_id_seq (snd (HandlePaymentCompleted env evt db)).
Proof.
  pose proof (Z.le_refl (stock_reservations_id_seq db)) as Hrefl.
  unfold HandlePaymentCompleted, publishStockReservationFailed, InsertReservation,
    InsertOutbox, Commit, SelectInventory, BeginTx, in_tx, update_inventory.
  repeat match goal with
         | |- context [match ?x with _ => _ end] =>
             lazymatch x with
             | context [match _ with _ => _ end] => fail
             | _ => destruct x eqn:?
             end; cbn [snd fst aborted view abort stock_reservations_id_seq] in *;
             try discriminate; try lia
         end.
Qed.

Lemma HandlePaymentRefunded_seq env evt db :
  stock_reservations_id_seq (snd (HandlePaymentRefunded env evt db))
  = stock_reservations_id_seq db.
Proof.
  unfold HandlePaymentRefunded, QueryActiveReservation, CancelReservation,
    InsertOutbox, Commit, BeginTx, in_tx, update_inventory.
  repeat match goal with
         | |- context [match ?x with _ => _ end] =>
             lazymatch x with
             | context [match _ with _ => _ end] => fail
             | _ => destruct x eqn:?
             end; cbn [snd fst aborted view abort stock_reservations_id_seq] in *;
             try discriminate; try reflexivity
         end.
Qed.

Lemma active_sum_snoc p rows r :
  active_sum p (rows ++ [r]) = active_sum p rows + holds p r.
Proof.
  induction rows as [|a rows IH]; cbn [active_sum fold_right app]; [lia|].
  fold (active_sum p (rows ++ [r])). fold (active_sum p rows). lia.
Qed.

Lemma canceled_other env id rows :
  ~ In id (map ID rows) -> map (canceled env id) rows = rows.
Proof.
  induction rows as [|a rows IH]; [reflexivity|]. cbn [map In]. intros Hn.
  rewrite IH by tauto. unfold canceled.
  destruct (Z.eqb_spec (ID a) id) as [Heq|_]; [tauto|reflexivity].
Qed.

Lemma canceled_ID env id rows :
  map ID (map (canceled env id) rows) = map ID rows.
Proof.
  rewrite map_map. apply map_ext. intros a. unfold canceled.
  destruct (ID a =? id); reflexivity.
Qed.

Lemma active_sum_canceled env p rows r :
  List.NoDup (map ID rows) -> In r rows ->
  active_sum p (map (canceled env (ID r)) rows)
  = active_sum p rows - (if is_reserved (Status r) && (ProductID r =? p)
                         then Quantity r else 0).
Proof.
  induction rows as [|a rows IH]; [intros _ []|].
  cbn [map]. intros Hnd Hin. apply List.NoDup_cons_iff in Hnd as [Hfresh Hnd].
  cbn [active_sum fold_right].
  fold (active_sum p (map (canceled env (ID r)) rows)). fold (active_sum p rows).
  destruct Hin as [->|Hin].
  - rewrite canceled_other by exact Hfresh.
    unfold canceled at 1. rewrite Z.eqb_refl. unfold holds at 1 2. cbn [Status is_reserved andb].
    lia.
  - rewrite IH by assumption. unfold canceled at 1.
    destruct (Z.eqb_spec (ID a) (ID r)) as [Heq|_]; [|lia].
    exfalso. apply Hfresh. rewrite Heq. apply in_map. exact Hin.
Qed.

Lemma same_rows_consistent db db1 :
  inventory (tables db1) = inventory (tables db) ->
  stock_reservations (tables db1) = stock_reservations (tables db) ->
  stock_reservations_id_seq db <= stock_reservations_id_seq db1 ->
  stock_consistent db -> stock_consistent db1.
Proof.
  unfold stock_consistent. intros -> -> Hseq (Hinv & Hq & Hnd & Hids).
  split; [exact Hinv|]. split; [exact Hq|]. split; [exact Hnd|].
  eapply List.Forall_impl; [|exact Hids]. cbn. intros. lia.
Qed.

Lemma HandlePaymentCompleted_consistent env evt db :
  stock_consistent db -> stock_consistent (snd (HandlePaymentCompleted env evt db)).
Proof.
  intros Hc. pose proof (HandlePaymentCompleted_seq env evt db) as Hseq.
  destruct (HandlePaymentCompleted_outcome env evt db)
    as [Ht|[(_ & reason & row & Ht & Hs & _)|(_ & row & res & event & key & Hrow & Hge & Ht
                                               & Hs & Hres & _)]].
  - apply (same_rows_consistent db); [rewrite Ht; reflexivity ..|exact Hseq|exact Hc].
  - apply (same_rows_consistent db); [rewrite Ht; reflexivity ..|exact Hseq|exact Hc].
  - destruct Hc as (Hinv & Hq & Hnd & Hids). unfold stock_consistent.
    rewrite Ht, Hs. cbn [inventory stock_reservations].
    split; [|split; [|split]].
    + intros p row0 H. rewrite active_sum_snoc. subst res. unfold holds.
      cbn [Status is_reserved ProductID andb Quantity].
      destruct (Z.eq_dec p 1) as [->|Hp].
      * rewrite lookup_insert_eq in H. injection H as <-. cbn.
        destruct (Hinv 1 row Hrow). lia.
      * rewrite lookup_insert_ne in H by congruence.
        destruct (Z.eqb_spec 1 p); [congruence|]. destruct (Hinv p row0 H). lia.
    + apply List.Forall_app. split; [exact Hq|]. constructor; [|constructor].
      subst res. cbn. lia.
    + apply OrderKeysProps.NoDup_map_snoc; [exact Hnd|].
      intros r Hin. rewrite List.Forall_forall in Hids. specialize (Hids r Hin).
      subst res. cbn. lia.
    + apply List.Forall_app. split.
      * eapply List.Forall_impl; [|exact Hids]. cbn. intros. lia.
      * constructor; [|constructor]. subst res. cbn. lia.
Qed.

Lemma HandlePaymentRefunded_consistent env evt db :
  stock_consistent db -> stock_consistent (snd (HandlePaymentRefunded env evt db)).
Proof.
  intros Hc. pose proof (HandlePaymentRefunded_seq env evt db) as Hseq.
  destruct (HandlePaymentRefunded_outcome env evt db)
    as [Ht|(_ & r & event & Hin & _ & Hst & Ht & Hs & _)].
  - apply (same_rows_consistent db); [rewrite Ht; reflexivity ..|lia|exact Hc].
  - destruct Hc as (Hinv & Hq & Hnd & Hids). unfold stock_consistent.
    rewrite Ht, Hs. cbn [inventory stock_reservations].
    assert (Hqr : 0 <= Quantity r).
    { rewrite List.Forall_forall in Hq. apply Hq. exact Hin. }
    assert (Hsum : forall p row,
               inventory (tables db) !! p = Some row -> p <> ProductID r ->
               ReservedQuantity row
               = active_sum p (map (canceled env (ID r)) (stock_reservations (tables db)))).
    { intros p row Hp Hne. rewrite active_sum_canceled by assumption.
      destruct (Z.eqb_spec (ProductID r) p); [congruence|].
      rewrite andb_false_r. destruct (Hinv p row Hp). lia. }
    split; [|split; [|split]].
    + intros p row H.
      destruct (inventory (tables db) !! ProductID r) as [row0|] eqn:Hrow.
      * destruct (Z.eq_dec p (ProductID r)) as [->|Hp].
        -- rewrite lookup_insert_eq in H. injection H as <-. cbn.
           rewrite active_sum_canceled by assumption.
           rewrite Hst, Z.eqb_refl. cbn [is_reserved andb].
           destruct (Hinv _ row0 Hrow). lia.
        -- rewrite lookup_insert_ne in H by congruence.
           split; [apply (Hinv p row H)|apply Hsum; assumption].
      * split; [apply (Hinv p row H)|]. apply Hsum; [assumption|]. intros ->. congruence.
    + apply List.Forall_forall. intros x Hx. apply in_map_iff in Hx as (a & <- & Ha).
      rewrite List.Forall_forall in Hq. specialize (Hq a Ha). unfold canceled.
      destruct (ID a =? ID r); exact Hq.
    + rewrite canceled_ID. exact Hnd.
    + apply List.Forall_forall. intros x Hx. apply in_map_iff in Hx as (a & <- & Ha).
      rewrite List.Forall_forall in Hids. specialize (Hids a Ha). unfold canceled.
      destruct (ID a =? ID r); cbn; lia.
Qed.

Lemma consume_all_consistent evs db :
  stock_consistent db -> stock_consistent (consume_all evs db).
Proof.
  unfold consume_all. revert db.
  induction evs as [|ev evs IH]; intros db Hc; [exact Hc|].
  cbn [fold_left]. apply IH. destruct ev as [env evt|env evt]; cbn [consume].
  - apply HandlePaymentCompleted_consistent. exact Hc.
  - apply HandlePaymentRefunded_consistent. exact Hc.
Qed.

Lemma success_stores_the_key env evt db :
  (length (chars (idempotency_key evt)) <= 64)%nat ->
  fst (HandlePaymentCompleted env evt db) = None ->
  existsb (fun r => String.eqb (IdempotencyKey r) (idempotency_key evt))
    (stock_reservations (tables (snd (HandlePaymentCompleted env evt db)))) = true.
Proof.
  intros Hlen. unfold HandlePaymentCompleted.
  destruct (QueryReservationByKey _ _ _) as [id0|e0] eqn:Hquery.
  { intros _. cbn [snd]. unfold QueryReservationByKey in Hquery.
    destruct (fail_QueryReservation env); [discriminate|].
    destruct (find _ _) as [r|] eqn:Hfind; [|discriminate].
    apply PaymentExtraProps.find_some_existsb in Hfind. exact Hfind. }
  unfold BeginTx. destruct (fail_BeginTx env); [discriminate|].
  unfold SelectInventory. cbn [aborted view].
  destruct (fail_SelectInventory env).
  { destruct (publishStockReservationFailed _ _ _ _ _) as [err db1] eqn:Hp.
    apply publish_outcome in Hp as (He & _); [|auto|reflexivity].
    cbn [fst]. intros. contradiction. }
  destruct (inventory (tables db) !! 1) as [row|] eqn:Hrow.
  2:{ destruct (publishStockReservationFailed _ _ _ _ _) as [err db1] eqn:Hp.
      apply publish_outcome in Hp as (He & _); [|auto|reflexivity].
      cbn [fst]. intros. contradiction. }
  destruct (Z.ltb_spec (AvailableQuantity row) 1) as [Hlt|Hge].
  { destruct (publishStockReservationFailed _ _ _ _ _) as [err db1] eqn:Hp.
    apply publish_outcome in Hp as (He & _); [|auto|reflexivity].
    cbn [fst]. intros. contradiction. }
  unfold in_tx, update_inventory. cbn [aborted view].
  destruct (fail_UpdateInventory env); [discriminate|].
  rewrite Hrow, Z.eqb_refl.
  destruct (in_int32 _ && in_int32 _ && _); [|discriminate].
  cbn [Z.eqb]. unfold InsertReservation. cbn [aborted view set_inventory stock_reservations].
  destruct (fail_InsertReservation env); [discriminate|].
  rewrite (short_text_is_stored 64 _ Hlen).
  destruct (existsb _ (stock_reservations (tables db))) eqn:Hfresh; [discriminate|].
  unfold InsertOutbox, Commit. cbn [aborted view].
  destruct (fail_InsertOutbox env); [discriminate|].
  destruct (fail_Commit env); [discriminate|].
  intros _. cbn [snd tables stock_reservations view aborted].
  rewrite existsb_app. cbn [existsb IdempotencyKey]. rewrite String.eqb_refl.
  apply orb_true_iff. right. reflexivity.
Qed.

(** X20.  [HandlePaymentCompleted] commits all of its writes or none: it
    leaves the tables as they were; or it returns an error and has added
    one PENDING [StockReservationFailed] row with the order and correlation
    id of the event and nothing else; or it returns success and has, at
    once, moved one unit of product 1 from available to reserved, added a
    RESERVED reservation of one unit with the next id of the sequence,
    under the event's key as the [VARCHAR(64)] column stores it, a key no
    reservation had, and added one PENDING [StockReserved] row for that
    reservation. *)
Theorem reservation_is_all_or_nothing env evt db :
  let err := fst (HandlePaymentCompleted env evt db) in
  let db1 := snd (HandlePaymentCompleted env evt db) in
  tables db1 = tables db
  \/ (err <> None
      /\ exists reason row,
           tables db1 = {| inventory := inventory (tables db);
                           stock_reservations := stock_reservations (tables db);
                           outbox_events := (outbox_events (tables db) ++ [row])%list |}
           /\ stock_reservations_id_seq db1 = stock_reservations_id_seq db
           /\ is_failure reason row = true
           /\ OutboxStatus row = "PENDING"
           /\ worker.correlation_of row = Some (pc_CorrelationID evt)
           /\ worker.order_id_of row = Some (pc_OrderID evt))
  \/ (err = None
      /\ exists row reservation event key,
           inventory (tables db) !! 1 = Some row
           /\ 1 <= AvailableQuantity row
           /\ tables db1
              = {| inventory := <[1 := reserved_row env row]> (inventory (tables db));
                   stock_reservations :=
                     (stock_reservations (tables db) ++ [reservation])%list;
                   outbox_events := (outbox_events (tables db) ++ [event])%list |}
           /\ stock_reservations_id_seq db1 = stock_reservations_id_seq db + 1
           /\ reservation
              = {| ID := stock_reservations_id_seq db + 1; OrderID := pc_OrderID evt;
                   ProductID := 1; Quantity := 1; Status := RESERVED;
                   IdempotencyKey := key;
                   ExpiredAt := now env + 1800; CreatedAt := now env;
                   ReservationUpdatedAt := now env |}
           /\ assign_varchar 64 (idempotency_key evt) = Ok key
           /\ existsb (fun r => String.eqb (IdempotencyKey r) key)
                (stock_reservations (tables db)) = false
           /\ OutboxEventType event = events.EventStockReserved
           /\ AggregateID event = ID reservation
           /\ OutboxStatus event = "PENDING"
           /\ worker.correlation_of event = Some (pc_CorrelationID evt)
           /\ worker.order_id_of event = Some (pc_OrderID evt)).
Proof. exact (HandlePaymentCompleted_outcome env evt db). Qed.

(** X21.  [HandlePaymentRefunded] commits all of its writes or none: it
    leaves the tables as they were; or it returns success and has, at
    once, given the quantity of a RESERVED reservation of the order back to
    the row of its product (when the product has a row), set that
    reservation CANCELED, and added one PENDING [StockRestored] row with
    the order and correlation id of the event.  It never returns an error
    after a change. *)
Theorem refund_is_all_or_nothing env evt db :
  let err := fst (HandlePaymentRefunded env evt db) in
  let db1 := snd (HandlePaymentRefunded env evt db) in
  tables db1 = tables db
  \/ (err = None
      /\ exists reservation event,
           In reservation (stock_reservations (tables db))
           /\ OrderID reservation = pr_OrderID evt
           /\ Status reservation = RESERVED
           /\ tables db1
              = {| inventory :=
                     match inventory (tables db) !! ProductID reservation with
                     | Some row =>
                         <[ProductID reservation :=
                             restored_row env (Quantity reservation) row]>
                           (inventory (tables db))
                     | None => inventory (tables db)
                     end;
                   stock_reservations :=
                     map (canceled env (ID reservation)) (stock_reservations (tables db));
                   outbox_events := (outbox_events (tables db) ++ [event])%list |}
           /\ stock_reservations_id_seq db1 = stock_reservations_id_seq db
           /\ (forall row, inventory (tables db) !! ProductID reservation = Some row ->
                 in_int32 (AvailableQuantity row + Quantity reservation) = true
                 /\ in_int32 (ReservedQuantity row - Quantity reservation) = true)
           /\ OutboxEventType event = events.EventStockRestored
           /\ AggregateID event = ID reservation
           /\ OutboxStatus event = "PENDING"
           /\ worker.correlation_of event = Some (pr_CorrelationID evt)
           /\ worker.order_id_of event = Some (pr_OrderID evt)).
Proof. exact (HandlePaymentRefunded_outcome env evt db). Qed.

(** X22.  Over any sequence of [PaymentCompleted] and [PaymentRefunded]
    events, whichever calls of the driver fail, the tables of the
    inventory service stay consistent: no available quantity is negative,
    the reserved quantity of every product is the total quantity of its
    RESERVED reservations, no reservation has a negative quantity, and
    reservation ids are distinct and at most the sequence. *)
Theorem stock_stays_consistent evs db :
  stock_consistent db -> stock_consistent (consume_all evs db).
Proof. exact (consume_all_consistent evs db). Qed.

Lemma stock_stays_consistent_witness :
  stock_consistent
    (consume_all
       [PaymentCompleted inventory_scenario.env inventory_scenario.payment_completed;
        PaymentRefunded inventory_scenario.env inventory_scenario.payment_refunded;
        PaymentRefunded inventory_scenario.env inventory_scenario.payment_refunded]
       inventory_scenario.sample_db).
Proof.
  apply (stock_stays_consistent
           [PaymentCompleted inventory_scenario.env inventory_scenario.payment_completed;
            PaymentRefunded inventory_scenario.env inventory_scenario.payment_refunded;
            PaymentRefunded inventory_scenario.env inventory_scenario.payment_refunded]
           inventory_scenario.sample_db).
  unfold stock_consistent. cbn [inventory_scenario.sample_db tables inventory
                                stock_reservations stock_reservations_id_seq map].
  split; [|split; [constructor|split; constructor]].
  intros p row H.
  apply lookup_insert_Some in H as [[<- <-]|[_ H]]; [cbn; lia|].
  apply lookup_insert_Some in H as [[<- <-]|[_ H]]; [cbn; lia|].
  apply lookup_insert_Some in H as [[<- <-]|[_ H]]; [cbn; lia|].
  rewrite lookup_empty in H. discriminate.
Defined.

(** X23.  A [PaymentCompleted] event whose key
    [stock-reservation-<orderId>-<eventId>] has at most 64 characters and
    that [HandlePaymentCompleted] has answered with success is skipped when
    it is delivered again: as long as the lookup by idempotency key does
    not fail, the second call returns success and changes nothing, whatever
    else fails. *)
Theorem redelivered_payment_is_skipped env env2 evt db :
  (length (chars (idempotency_key evt)) <= 64)%nat ->
  fst (HandlePaymentCompleted env evt db) = None ->
  fail_QueryReservation env2 = false ->
  HandlePaymentCompleted env2 evt (snd (HandlePaymentCompleted env evt db))
  = (None, snd (HandlePaymentCompleted env evt db)).
Proof.
  intros Hlen Hok Hq. apply (success_stores_the_key _ _ _ Hlen) in Hok.
  set (db1 := snd (HandlePaymentCompleted env evt db)) in *.
  unfold HandlePaymentCompleted, QueryReservationByKey. rewrite Hq.
  destruct (find _ (stock_reservations (tables db1))) as [r|] eqn:Hfind; [reflexivity|].
  apply find_none_existsb in Hfind. congruence.
Qed.

Lemma redelivered_payment_is_skipped_witness :
  HandlePaymentCompleted inventory_scenario.env inventory_scenario.payment_completed
    (snd (HandlePaymentCompleted inventory_scenario.env
            inventory_scenario.payment_completed inventory_scenario.sample_db))
  = (None, snd (HandlePaymentCompleted inventory_scenario.env
                  inventory_scenario.payment_completed inventory_scenario.sample_db)).
Proof.
  apply (redelivered_payment_is_skipped inventory_scenario.env inventory_scenario.env
           inventory_scenario.payment_completed inventory_scenario.sample_db).
  - vm_compute. lia.
  - vm_compute. reflexivity.
  - reflexivity.
Defined.

(** Without the bound the second delivery is not skipped: for a key of 64
    characters and a space the reservation is stored under the 64
    characters, the lookup of the second delivery misses it, and its insert
    meets the stored key. *)
Example padded_key_is_reserved_once :
  let first := HandlePaymentCompleted inventory_scenario.env
                 inventory_scenario.payment_completed_padded
                 inventory_scenario.sample_db in
  let second := HandlePaymentCompleted inventory_scenario.env
                  inventory_scenario.payment_completed_padded (snd first) in
  fst first = None
  /\ fst second
     = Some (errors.Wrap errors.ErrCodeDatabaseError "failed to create reservation"
               (errors.PqError unique_violation))
  /\ tables (snd second) = tables (snd first).
Proof. vm_compute. repeat split; reflexivity. Qed.

End InventoryOutcomeProps.

(** ** Delivery service *)

Module DeliveryProps.
Import Delivery ListFacts.

Lemma address_fits : assign_varchar 500 address = Ok address.
Proof. vm_compute. reflexivity. Qed.

Lemma HandleStockReserved_outcome env evt db :
  let err := fst (HandleStockReserved env evt db) in
  let db1 := snd (HandleStockReserved env evt db) in
  (tables db1 = tables db /\ (err = None -> key_stored evt db = true))
  \/ (err = None
      /\ exists key trackingNumber row event,
           assign_varchar 64 (idempotency_key evt) = Ok key
           /\ assign_varchar 100
                ("TRK-" ++ FormatInt (sr_OrderID evt) ++ "-" ++ FormatInt (now env))
              = Ok trackingNumber
           /\ existsb (fun r => String.eqb (IdempotencyKey r) key) (deliveries (tables db))
              = false
           /\ tables db1
              = {| deliveries := (deliveries (tables db) ++ [row])%list;
                   outbox_events := (outbox_events (tables db) ++ [event])%list |}
           /\ deliveries_id_seq db1 = deliveries_id_seq db + 1
           /\ row = {| ID := deliveries_id_seq db + 1; OrderID := sr_OrderID evt;
                       Address := address; Status := PREPARING; IdempotencyKey := key;
                       TrackingNumber := trackingNumber; Carrier := carrier;
                       CreatedAt := now env; UpdatedAt := now env |}
           /\ OutboxEventType event = events.EventDeliveryStarted
           /\ AggregateID event = ID row
           /\ OutboxStatus event = "PENDING"
           /\ worker.correlation_of event = Some (sr_CorrelationID evt)
           /\ worker.order_id_of event = Some (sr_OrderID evt)).
Proof.
  cbv zeta. unfold HandleStockReserved.
  destruct (QueryDeliveryByKey _ _ _) as [id0|e0] eqn:Hquery.
  { left. split; [reflexivity|]. intros _. unfold QueryDeliveryByKey in Hquery.
    destruct (fail_QueryDelivery env); [discriminate|].
    destruct (find _ _) as [r|] eqn:Hfind; [|discriminate].
    apply PaymentExtraProps.find_some_existsb in Hfind. exact Hfind. }
  unfold BeginTx. destruct (fail_BeginTx env); [left; split; [reflexivity|discriminate]|].
  unfold InsertDelivery.
  destruct (fail_InsertDelivery env); [left; split; [reflexivity|discriminate]|].
  rewrite address_fits.
  destruct (assign_varchar 64 _) as [key|e1] eqn:Hkey;
    [|left; split; [reflexivity|discriminate]].
  destruct (assign_varchar 100 _) as [trk|e2] eqn:Htrk;
    [|left; split; [reflexivity|discriminate]].
  destruct (existsb _ (deliveries (tables db))) eqn:Hfresh;
    [left; split; [reflexivity|discriminate]|].
  unfold InsertOutbox. destruct (fail_InsertOutbox env);
    [left; split; [reflexivity|discriminate]|].
  unfold Commit. destruct (fail_Commit env); [left; split; [reflexivity|discriminate]|].
  right. split; [reflexivity|]. exists key, trk. do 2 eexists.
  cbn [fst snd tables deliveries outbox_events deliveries_id_seq].
  split; [reflexivity|]. split; [reflexivity|]. split; [exact Hfresh|].
  split; [reflexivity|]. split; [reflexivity|]. split; [reflexivity|].
  cbn. repeat split.
Qed.

(** X24.  [HandleStockReserved] of the delivery service commits both of
    its writes or none.  Either the tables are as they were, and then it
    returns success only when a delivery with the key of the event is in
    the table; or it returns success and has added, at once, one PREPARING
    delivery of the order with the next id of the sequence, under the key
    as the [VARCHAR(64)] column stores it, and one PENDING
    [delivery.started.v1] row for that delivery with the order and
    correlation id of the event.  No error is returned after a change. *)
Theorem delivery_is_all_or_nothing env evt db :
  let err := fst (HandleStockReserved env evt db) in
  let db1 := snd (HandleStockReserved env evt db) in
  (tables db1 = tables db /\ (err = None -> key_stored evt db = true))
  \/ (err = None
      /\ exists key trackingNumber row event,
           assign_varchar 64 (idempotency_key evt) = Ok key
           /\ assign_varchar 100
                ("TRK-" ++ FormatInt (sr_OrderID evt) ++ "-" ++ FormatInt (now env))
              = Ok trackingNumber
           /\ existsb (fun r => String.eqb (IdempotencyKey r) key) (deliveries (tables db))
              = false
           /\ tables db1
              = {| deliveries := (deliveries (tables db) ++ [row])%list;
                   outbox_events := (outbox_events (tables db) ++ [event])%list |}
           /\ deliveries_id_seq db1 = deliveries_id_seq db + 1
           /\ row = {| ID := deliveries_id_seq db + 1; OrderID := sr_OrderID evt;
                       Address := address; Status := PREPARING; IdempotencyKey := key;
                       TrackingNumber := trackingNumber; Carrier := carrier;
                       CreatedAt := now env; UpdatedAt := now env |}
           /\ OutboxEventType event = events.EventDeliveryStarted
           /\ AggregateID event = ID row
           /\ OutboxStatus event = "PENDING"
           /\ worker.correlation_of event = Some (sr_CorrelationID evt)
           /\ worker.order_id_of event = Some (sr_OrderID evt)).
Proof. exact (HandleStockReserved_outcome env evt db). Qed.


(** X25.  A [StockReserved] event that the delivery service has answered
    with success is skipped when it is delivered again, provided its key
    [delivery-<order id>-<event id>] has at most 64 characters: as long as
    the lookup by key does not fail, the second call returns success and
    changes nothing, so one event starts at most one delivery. *)
Theorem redelivered_stock_reserved_is_skipped env env2 evt db :
  fst (HandleStockReserved env evt db) = None ->
  (length (chars (idempotency_key evt)) <= 64)%nat ->
  fail_QueryDelivery env2 = false ->
  HandleStockReserved env2 evt (snd (HandleStockReserved env evt db))
  = (None, snd (HandleStockReserved env evt db)).
Proof.
  intros Hok Hlen Hq.
  assert (key_stored evt (snd (HandleStockReserved env evt db)) = true) as Hstored.
  { destruct (HandleStockReserved_outcome env evt db)
      as [[Ht Hk]|(_ & key & trk & row & event & Hkey & _ & _ & Ht & _ & Hrow & _)].
    - unfold key_stored in *. rewrite Ht. apply Hk, Hok.
    - unfold key_stored. rewrite Ht. cbn [deliveries]. rewrite existsb_app.
      rewrite (short_text_is_stored 64 _ Hlen) in Hkey. injection Hkey as <-.
      subst row. cbn [existsb IdempotencyKey]. rewrite String.eqb_refl.
      apply orb_true_iff. right. reflexivity. }
  set (db1 := snd (HandleStockReserved env evt db)) in *.
  unfold HandleStockReserved, QueryDeliveryByKey. rewrite Hq.
  unfold key_stored in Hstored.
  destruct (find _ (deliveries (tables db1))) as [r|] eqn:Hfind; [reflexivity|].
  apply find_none_existsb in Hfind. congruence.
Qed.

Lemma redelivered_stock_reserved_is_skipped_witness :
  HandleStockReserved delivery_scenario.env delivery_scenario.stock_reserved
    (snd (HandleStockReserved delivery_scenario.env delivery_scenario.stock_reserved
            delivery_scenario.empty_db))
  = (None, snd (HandleStockReserved delivery_scenario.env
                  delivery_scenario.stock_reserved delivery_scenario.empty_db)).
Proof.
  apply (redelivered_stock_reserved_is_skipped delivery_scenario.env
           delivery_scenario.env delivery_scenario.stock_reserved
           delivery_scenario.empty_db).
  - vm_compute. reflexivity.
  - vm_compute. lia.
  - reflexivity.
Defined.

End DeliveryProps.

(** ** [GET /orders/{id}] *)

Module HttpGetProps.
Import strconv.

Lemma of_uint_acc_ge d : forall acc, (acc <= Pos.of_uint_acc d acc)%positive.
Proof.
  induction d; intros acc; cbn [Pos.of_uint_acc]; [lia|..];
    match goal with
    | IH : forall acc, (acc <= Pos.of_uint_acc ?l acc)%positive
      |- (_ <= Pos.of_uint_acc ?l ?a)%positive => specialize (IH a); lia
    end.
Qed.

Lemma loop_acc d : forall acc,
  Z.pos (Pos.of_uint_acc d acc) <= max_uint64 ->
  ParseUint_loop (NilEmpty.string_of_uint d) (Z.pos acc)
  = (Z.pos (Pos.of_uint_acc d acc), None).
Proof.
  unfold max_uint64.
  induction d; intros acc H; cbn [NilEmpty.string_of_uint Pos.of_uint_acc] in *;
    [reflexivity|..];
    match goal with
    | IH : forall acc, _ -> ParseUint_loop (NilEmpty.string_of_uint ?l) _ = _,
      H : Z.pos (Pos.of_uint_acc ?l ?a) <= _ |- _ =>
        pose proof (of_uint_acc_ge l a) as Hge;
        specialize (IH a H)
    end;
    cbn [ParseUint_loop];
    match goal with
    | |- context [digit ?c] =>
        let v := eval vm_compute in (digit c) in change (digit c) with v
    end;
    cbv iota beta;
    change (max_uint64 / 10 + 1) with 1844674407370955162; unfold max_uint64;
    (destruct (Z.leb_spec 1844674407370955162 (Z.pos acc)); [lia|]);
    match goal with
    | |- context [?m <? ?x] => destruct (Z.ltb_spec m x); [lia|]
    end;
    match goal with
    | IH : ParseUint_loop _ (Z.pos ?a) = _ |- ParseUint_loop _ ?x = _ =>
        replace x with (Z.pos a) by lia; exact IH
    end.
Qed.

Lemma loop_zero d :
  d <> Decimal.Nil -> Z.of_N (Pos.of_uint d) <= max_uint64 ->
  ParseUint_loop (NilEmpty.string_of_uint d) 0 = (Z.of_N (Pos.of_uint d), None).
Proof.
  induction d; intros Hd H; [contradiction|..];
    cbn [NilEmpty.string_of_uint Pos.of_uint ParseUint_loop] in *;
    match goal with
    | |- context [digit ?c] =>
        let v := eval vm_compute in (digit c) in change (digit c) with v
    end;
    cbv iota beta;
    change (max_uint64 / 10 + 1 <=? 0) with false; cbv iota;
    match goal with
    | |- context [max_uint64 <? ?x] =>
        let v := eval vm_compute in (max_uint64 <? x) in change (max_uint64 <? x) with v
    end;
    cbv iota.
  - destruct d; [reflexivity|apply IHd; [discriminate|exact H] ..].
  - apply (loop_acc d 1 H).
  - apply (loop_acc d 2 H).
  - apply (loop_acc d 3 H).
  - apply (loop_acc d 4 H).
  - apply (loop_acc d 5 H).
  - apply (loop_acc d 6 H).
  - apply (loop_acc d 7 H).
  - apply (loop_acc d 8 H).
  - apply (loop_acc d 9 H).
Qed.

Lemma to_uint_not_Nil p : Pos.to_uint p <> Decimal.Nil.
Proof.
  intros E. pose proof (DecimalPos.Unsigned.of_to p) as H. rewrite E in H. discriminate.
Qed.

(** The decimal text of a positive number is not empty and starts with a
    digit, and [ParseUint] reads the number back. *)
Lemma ParseUint_to_uint p :
  Z.pos p <= max_uint64 ->
  exists c rest,
    NilEmpty.string_of_uint (Pos.to_uint p) = String c rest
    /\ Ascii.eqb c "+" = false /\ Ascii.eqb c "-" = false
    /\ ParseUint (String c rest) = (Z.pos p, None).
Proof.
  intros H. pose proof (to_uint_not_Nil p) as Hn.
  pose proof (loop_zero (Pos.to_uint p) Hn) as Hl.
  rewrite DecimalPos.Unsigned.of_to in Hl. specialize (Hl H).
  destruct (Pos.to_uint p); [contradiction|..];
    cbn [NilEmpty.string_of_uint] in *; do 2 eexists;
    (split; [reflexivity|]); (split; [reflexivity|]); (split; [reflexivity|]);
    exact Hl.
Qed.

Lemma NilZero_is_NilEmpty p :
  NilZero.string_of_uint (Pos.to_uint p) = NilEmpty.string_of_uint (Pos.to_uint p).
Proof.
  pose proof (to_uint_not_Nil p). destruct (Pos.to_uint p); [contradiction|reflexivity ..].
Qed.

Lemma ParseInt_FormatInt n :
  - 9223372036854775808 <= n <= 9223372036854775807 ->
  ParseInt (FormatInt n) = (n, None).
Proof.
  intros Hn. unfold FormatInt. destruct n as [|p|p]; [reflexivity|..];
    cbn [Z.to_int NilZero.string_of_int]; rewrite NilZero_is_NilEmpty.
  - destruct (ParseUint_to_uint p) as (c & rest & -> & Hplus & Hminus & Hparse);
      [unfold max_uint64; lia|].
    unfold ParseInt. rewrite Hplus, Hminus. cbn [orb]. rewrite Hparse. cbn [negb andb].
    destruct (Z.leb_spec 9223372036854775808 (Z.pos p)); [lia|].
    f_equal. unfold int64. rewrite Z.mod_small by lia. lia.
  - destruct (ParseUint_to_uint p) as (c & rest & Hs & _ & _ & Hparse);
      [unfold max_uint64; lia|].
    unfold ParseInt. change (Ascii.eqb "-" "-") with true.
    change (Ascii.eqb "-" "+") with false. cbn [orb negb andb].
    rewrite Hs, Hparse.
    destruct (Z.ltb_spec 9223372036854775808 (Z.pos p)); [lia|].
    f_equal. destruct (Z.eq_dec (Z.pos p) 9223372036854775808) as [E|E].
    + rewrite E. assert (Z.neg p = - 9223372036854775808) as -> by lia. reflexivity.
    + unfold int64. rewrite (Z.mod_small (Z.pos p + _)) by lia.
      replace (Z.pos p + 9223372036854775808 - 9223372036854775808) with (Z.pos p) by lia.
      rewrite Z.mod_small by lia. lia.
Qed.

Lemma substring_all s : substring 0 (String.length s) s = s.
Proof. induction s as [|c s IH]; [reflexivity|]. cbn. rewrite IH. reflexivity. Qed.

(** X26.  [GET /orders/<id>] with the decimal text of an [int64] id
    answers 200 with the order of that id when [FindByID] finds it, and
    404 [order not found] for every error of the lookup, a failing
    database included; any other method is answered 405 without a look at
    the path. *)
Theorem get_order_answers env id db method path :
  - 9223372036854775808 <= id <= 9223372036854775807 ->
  handler.GetOrder env "GET" ("/orders/" ++ FormatInt id) db
  = match Order.FindByID env id db with
    | Ok order => handler.Responded 200 order
    | Err _ =>
        handler.Refused {| Order.StatusCode := 404;
                           Order.ResponseJSON := Order.ErrorResponse "order not found" "" |}
    end
  /\ (Order.fail_FindByID env = true ->
      handler.GetOrder env "GET" ("/orders/" ++ FormatInt id) db
      = handler.Refused {| Order.StatusCode := 404;
                           Order.ResponseJSON := Order.ErrorResponse "order not found" "" |})
  /\ (method <> "GET" ->
      handler.GetOrder env method path db
      = handler.Refused {| Order.StatusCode := 405;
                           Order.ResponseJSON :=
                             Order.ErrorResponse "method not allowed" "" |}).
Proof.
  intros Hid.
  assert (handler.GetOrder env "GET" ("/orders/" ++ FormatInt id) db
          = match Order.FindByID env id db with
            | Ok order => handler.Responded 200 order
            | Err _ =>
                handler.Refused
                  {| Order.StatusCode := 404;
                     Order.ResponseJSON := Order.ErrorResponse "order not found" "" |}
            end) as Hget.
  { unfold handler.GetOrder. cbn [String.eqb Ascii.eqb Bool.eqb negb].
    change ("/orders/" ++ FormatInt id)
      with (String "/" (String "o" (String "r" (String "d" (String "e" (String "r"
             (String "s" (String "/" (FormatInt id))))))))).
    cbn [String.length Nat.ltb Nat.leb Nat.sub substring].
    rewrite Nat.sub_0_r, substring_all, (ParseInt_FormatInt id Hid).
    unfold Order.GetOrder. destruct (Order.FindByID env id db); reflexivity. }
  split; [exact Hget|]. split.
  - intros Hf. rewrite Hget. unfold Order.FindByID. rewrite Hf. reflexivity.
  - intros Hm. unfold handler.GetOrder.
    destruct (String.eqb_spec method "GET") as [E|_]; [contradiction|reflexivity].
Qed.

Lemma get_order_answers_witness :
  handler.GetOrder order_scenario.order_env "GET" ("/orders/" ++ FormatInt 7)
    (order_scenario.order_db Order.OrderStatusPending)
  = match Order.FindByID order_scenario.order_env 7
            (order_scenario.order_db Order.OrderStatusPending) with
    | Ok order => handler.Responded 200 order
    | Err _ =>
        handler.Refused {| Order.StatusCode := 404;
                           Order.ResponseJSON := Order.ErrorResponse "order not found" "" |}
    end
  /\ (Order.fail_FindByID order_scenario.order_env = true ->
      handler.GetOrder order_scenario.order_env "GET" ("/orders/" ++ FormatInt 7)
        (order_scenario.order_db Order.OrderStatusPending)
      = handler.Refused {| Order.StatusCode := 404;
                           Order.ResponseJSON := Order.ErrorResponse "order not found" "" |})
  /\ ("POST" <> "GET" ->
      handler.GetOrder order_scenario.order_env "POST" "/orders/7"
        (order_scenario.order_db Order.OrderStatusPending)
      = handler.Refused {| Order.StatusCode := 405;
                           Order.ResponseJSON :=
                             Order.ErrorResponse "method not allowed" "" |}).
Proof.
  apply (get_order_answers order_scenario.order_env 7
           (order_scenario.order_db Order.OrderStatusPending) "POST" "/orders/7").
  lia.
Defined.

End HttpGetProps.

(** ** [retry.Do] *)

Module RetryProps.
Import retry.

Section DoProps.
Context {W : Type}.
Variable ctx_Err : W -> option error.
Variable since : W -> Z.
Variable fn : W -> option error * W.
Variable after : Z -> W -> option error * W.
Variable backoff : Z -> Z.
Variable config : Config.

Lemma loop_spec remaining : forall attempt interval lastErr w,
  let r := loop ctx_Err since fn after backoff config remaining attempt interval lastErr w in
  (calls (snd r) <= remaining)%nat
  /\ (fst (fst r) = None ->
      exists before, snd r = (before ++ [Called None])%list /\ ~ In (Called None) before)
  /\ (fst (fst r) <> None -> ~ In (Called None) (snd r))
  /\ (forall i, In (Waited i) (snd r) -> i = interval \/ i <= MaxInterval config).
Proof.
  induction remaining as [|remaining IH]; intros attempt interval lastErr w; cbn [loop].
  { cbn. repeat split; try discriminate; try lia; tauto. }
  destruct (ctx_Err w) as [e|].
  { cbn. repeat split; try discriminate; try lia; tauto. }
  destruct (MaxElapsedTime config <? since w).
  { cbn. repeat split; try discriminate; try lia; tauto. }
  destruct (fn w) as [[err|] w1].
  2:{ cbn. split; [lia|]. split; [|split].
      - intros _. exists []. split; [reflexivity|intros []].
      - intros H. contradiction.
      - intros i [H|[]]. discriminate. }
  destruct (attempt =? MaxAttempts config).
  { cbn. split; [lia|]. split; [discriminate|]. split.
    - intros _ [H|[]]. discriminate.
    - intros i [H|[]]. discriminate. }
  destruct (after interval w1) as [[e|] w2].
  { cbn. split; [lia|]. split; [discriminate|]. split.
    - intros _ [H|[H|[]]]; discriminate.
    - intros i [H|[H|[]]]; [discriminate|]. left. congruence. }
  set (interval2 := if MaxInterval config <? backoff interval
                    then MaxInterval config else backoff interval).
  assert (interval2 <= MaxInterval config) as Hcap.
  { unfold interval2. destruct (Z.ltb_spec (MaxInterval config) (backoff interval)); lia. }
  specialize (IH (attempt + 1) interval2 (Some err) w2).
  destruct (loop _ _ _ _ _ _ remaining _ _ _ _) as [[r w3] steps].
  cbn [fst snd] in *. destruct IH as (Hcalls & Hok & Hfail & Hwait).
  split; [|split; [|split]].
  - unfold calls in *. cbn. lia.
  - intros Hr. destruct (Hok Hr) as (before & -> & Hbefore).
    exists (Called (Some err) :: Waited interval :: before). split; [reflexivity|].
    intros [H|[H|H]]; [discriminate|discriminate|exact (Hbefore H)].
  - intros Hr [H|[H|H]]; [discriminate|discriminate|exact (Hfail Hr H)].
  - intros i [H|[H|H]]; [discriminate|left; congruence|].
    right. destruct (Hwait i H); lia.
Qed.

(** X27.  [Do] calls [fn] at most [MaxAttempts] times and never again
    after a success: it returns [nil] exactly when its last step is a call
    of [fn] that returned [nil], and no call before that one did; with
    [MaxAttempts <= 0] it does not call [fn] at all and still returns the
    error [max attempts reached], which then wraps no error. *)
Theorem Do_stops_at_the_first_success w :
  let r := Do ctx_Err since fn after backoff config w in
  (calls (snd r) <= Z.to_nat (MaxAttempts config))%nat
  /\ (fst (fst r) = None ->
      exists before, snd r = (before ++ [Called None])%list /\ ~ In (Called None) before)
  /\ (fst (fst r) <> None -> ~ In (Called None) (snd r))
  /\ (MaxAttempts config <= 0 ->
      r = (Some (errors.ErrorString "max attempts reached: %!w(<nil>)"), w, [])).
Proof.
  cbv zeta. unfold Do.
  destruct (loop_spec (Z.to_nat (MaxAttempts config)) 1 (InitialInterval config) None w)
    as (H1 & H2 & H3 & _).
  split; [exact H1|]. split; [exact H2|]. split; [exact H3|].
  intros Hmax. replace (Z.to_nat (MaxAttempts config)) with O by lia. reflexivity.
Qed.

(** X28.  The waits of [Do]: the first wait is [InitialInterval] as it is,
    also when it exceeds [MaxInterval]; every later wait is at most
    [MaxInterval], whatever the coefficient. *)
Theorem waits_are_capped w i :
  In (Waited i) (snd (Do ctx_Err since fn after backoff config w)) ->
  i = InitialInterval config \/ i <= MaxInterval config.
Proof.
  unfold Do.
  destruct (loop_spec (Z.to_nat (MaxAttempts config)) 1 (InitialInterval config) None w)
    as (_ & _ & _ & H).
  apply H.
Qed.

End DoProps.

Lemma waits_are_capped_witness :
  2000000000 = InitialInterval retry_scenario.config
  \/ 2000000000 <= MaxInterval retry_scenario.config.
Proof.
  apply (waits_are_capped retry_scenario.never_done retry_scenario.no_time
           retry_scenario.fails_twice retry_scenario.sleeps retry_scenario.doubled
           retry_scenario.config 0%nat 2000000000).
  vm_compute. right. right. right. left. reflexivity.
Defined.

End RetryProps.
